(** * A shallow embedding of the factory simulation (factorySim/simutd.py)

    The program is a discrete-event simulation written against the simpy
    library: generator functions are processes, [yield] hands control back
    to the simpy scheduler, and module-level variables hold the rate
    parameters that adaptation strategies scale up and down.

    Conventions of the embedding.
    - Python [int] values that stay integral are [Z]; values that are or may
      become [float] (rates, times, money) are exact rationals [Q].  Binary64
      rounding is not modelled there: a product such as [x * 0.2 * 5.0] is
      the rational it denotes, and [int(x)] is truncation toward zero,
      [py_int].  The one place where a float comes from outside is the
      duration of a command: it is a binary64 value, infinities and NaN
      included, and its conversion to minutes is computed in binary64.
    - A method that can raise returns an [Outcome]: its value and the state
      at the [return], or the exception and the state at the [raise].
    - The object [self], the rebindable module globals and the simpy
      environment form one state value, [Factory], that every function takes
      and returns.
    - A generator is cut at its [yield] statements: each piece between two
      yields is one function on the state, and the suspended generator is a
      value of [Cont] holding its live local variables.
    - Calls to [random] are parameters of the piece that makes them, named
      after the call.
    - The text of log messages is kept without the interpolated numbers.
    - MQTT publishing, console output, plotting and the sensor/OEE samplers
      write nothing that the simulated factory reads; they are left out of
      the state.  The samplers, the timestamp format and the rate limit of
      the publisher are modelled on their own further down. *)

From Stdlib Require Import ZArith QArith Qminmax Qround List String Ascii Bool Lia DecimalString Floats.
Import ListNotations.

Open Scope Z_scope.
Open Scope Q_scope.

(** ** Python arithmetic on exact numbers *)

(** [int(x)]: truncation toward zero. *)
Definition py_int (x : Q) : Z := Z.quot (Qnum x) (Zpos (Qden x)).

Definition Qltb (x y : Q) : bool := (Qnum x * QDen y <? Qnum y * QDen x)%Z.
Definition Qleb (x y : Q) : bool := (Qnum x * QDen y <=? Qnum y * QDen x)%Z.

(** [x % y] on floats, for positive [y]. *)
Definition Qmod (x y : Q) : Q := x - inject_Z (Qfloor (x / y)) * y.

(** An [int] used where a float is expected. *)
Notation "# z" := (inject_Z z) (at level 1, format "# z") : Q_scope.

(** ** Exceptions

    The exceptions that the modelled code raises and its handlers tell
    apart. *)
Inductive Exception : Type :=
| UnboundLocalError
| OverflowError
| ValueError
| TypeError.

(** The result of an expression that can raise. *)
Inductive Try (A : Type) : Type :=
| Value (a : A)
| Except (e : Exception).

Arguments Value {A} a.
Arguments Except {A} e.

(** ** Dictionaries in insertion order

    A Python [dict] iterates in insertion order and assigning to a key that is
    present keeps its position. *)

Definition dict (K V : Type) : Type := list (K * V).

Section Dict.
Context {K V : Type} (eqb : K -> K -> bool).

Fixpoint dict_get (k : K) (d : dict K V) : option V :=
  match d with
  | [] => None
  | (k', v) :: d' => if eqb k k' then Some v else dict_get k d'
  end.

Fixpoint dict_set (k : K) (v : V) (d : dict K V) : dict K V :=
  match d with
  | [] => [(k, v)]
  | (k', v') :: d' =>
      if eqb k k' then (k', v) :: d' else (k', v') :: dict_set k v d'
  end.

Definition dict_del (k : K) (d : dict K V) : dict K V :=
  filter (fun kv => negb (eqb k (fst kv))) d.

Definition dict_mem (k : K) (d : dict K V) : bool :=
  match dict_get k d with Some _ => true | None => false end.
End Dict.

(** [l[i] = v] on a list; the program only writes indices that exist. *)
Fixpoint list_set {A : Type} (i : nat) (v : A) (l : list A) : list A :=
  match l, i with
  | [], _ => []
  | _ :: l', O => v :: l'
  | x :: l', S i' => x :: list_set i' v l'
  end.

(** [f] applied in place to the element at index [i], if there is one. *)
Definition list_update {A : Type} (i : nat) (f : A -> A) (l : list A) : list A :=
  match nth_error l i with
  | Some x => list_set i (f x) l
  | None => l
  end.

(** [l.pop()] as used by the program, which tests [len(l) > 0] first. *)
Definition list_pop {A : Type} (l : list A) : list A := removelast l.

(** ** Enumerations *)

Module LogLevel.
Inductive t : Type := INFO | WARNING | ERROR | STRATEGY | DISRUPTION.

Definition eq_dec (a b : t) : {a = b} + {a <> b}.
Proof. decide equality. Defined.

Definition eqb (a b : t) : bool := if eq_dec a b then true else false.
End LogLevel.

Module DisruptionType.
Inductive t : Type :=
| CNC_FAILURE | ORDER_SPIKE | SUPPLY_CHAIN | WORKER_ABSENCE
| QUALITY_ISSUE | POWER_OUTAGE | ORDER_CANCELLATION.

Definition eq_dec (a b : t) : {a = b} + {a <> b}.
Proof. decide equality. Defined.

Definition eqb (a b : t) : bool := if eq_dec a b then true else false.

(** [disruption.value] *)
Definition value (d : t) : string :=
  match d with
  | CNC_FAILURE => "CNC Machine Failure"
  | ORDER_SPIKE => "Sudden Order Spike"
  | SUPPLY_CHAIN => "Supply Chain Disruption"
  | WORKER_ABSENCE => "Worker Absence"
  | QUALITY_ISSUE => "Quality Control Issue"
  | POWER_OUTAGE => "Power Outage"
  | ORDER_CANCELLATION => "Order Cancellation"
  end.
End DisruptionType.

Module AdaptationStrategy.
Inductive t : Type :=
(* strategies with durations *)
| PREVENTIVE_MAINTENANCE | FLEXIBLE_WORKFORCE | JUST_IN_TIME_REPLENISHMENT
| SUPPLIER_DIVERSIFICATION | OVERTIME_POLICY | QUALITY_MONITORING
| KPI_MONITORING | MODULAR_REPAIR_KITS | OUTSOURCING | LEAN_MANUFACTURING
| PEAK_LOAD_OPTIMIZATION | INVENTORY_LIQUIDATION
(* one-time actions *)
| PURCHASE_CNC_MACHINE | SELL_CNC_MACHINE | HIRE_WORKERS | REDUCE_WORKFORCE
| EMERGENCY_MATERIALS | UPGRADE_ASSEMBLY | INSTALL_BACKUP_GENERATOR
| EXPEDITE_MAINTENANCE | BULK_ORDER_MATERIALS | CANCEL_PENDING_ORDERS
| REALLOCATE_WORKERS | SCHEDULE_OVERTIME.

Definition eq_dec (a b : t) : {a = b} + {a <> b}.
Proof. decide equality. Defined.

Definition eqb (a b : t) : bool := if eq_dec a b then true else false.

(** [list(AdaptationStrategy)]: the members in definition order. *)
Definition members : list t :=
  [ PREVENTIVE_MAINTENANCE; FLEXIBLE_WORKFORCE; JUST_IN_TIME_REPLENISHMENT;
    SUPPLIER_DIVERSIFICATION; OVERTIME_POLICY; QUALITY_MONITORING;
    KPI_MONITORING; MODULAR_REPAIR_KITS; OUTSOURCING; LEAN_MANUFACTURING;
    PEAK_LOAD_OPTIMIZATION; INVENTORY_LIQUIDATION;
    PURCHASE_CNC_MACHINE; SELL_CNC_MACHINE; HIRE_WORKERS; REDUCE_WORKFORCE;
    EMERGENCY_MATERIALS; UPGRADE_ASSEMBLY; INSTALL_BACKUP_GENERATOR;
    EXPEDITE_MAINTENANCE; BULK_ORDER_MATERIALS; CANCEL_PENDING_ORDERS;
    REALLOCATE_WORKERS; SCHEDULE_OVERTIME ].

(** [strategy.name] *)
Definition name (s : t) : string :=
  match s with
  | PREVENTIVE_MAINTENANCE => "PREVENTIVE_MAINTENANCE"
  | FLEXIBLE_WORKFORCE => "FLEXIBLE_WORKFORCE"
  | JUST_IN_TIME_REPLENISHMENT => "JUST_IN_TIME_REPLENISHMENT"
  | SUPPLIER_DIVERSIFICATION => "SUPPLIER_DIVERSIFICATION"
  | OVERTIME_POLICY => "OVERTIME_POLICY"
  | QUALITY_MONITORING => "QUALITY_MONITORING"
  | KPI_MONITORING => "KPI_MONITORING"
  | MODULAR_REPAIR_KITS => "MODULAR_REPAIR_KITS"
  | OUTSOURCING => "OUTSOURCING"
  | LEAN_MANUFACTURING => "LEAN_MANUFACTURING"
  | PEAK_LOAD_OPTIMIZATION => "PEAK_LOAD_OPTIMIZATION"
  | INVENTORY_LIQUIDATION => "INVENTORY_LIQUIDATION"
  | PURCHASE_CNC_MACHINE => "PURCHASE_CNC_MACHINE"
  | SELL_CNC_MACHINE => "SELL_CNC_MACHINE"
  | HIRE_WORKERS => "HIRE_WORKERS"
  | REDUCE_WORKFORCE => "REDUCE_WORKFORCE"
  | EMERGENCY_MATERIALS => "EMERGENCY_MATERIALS"
  | UPGRADE_ASSEMBLY => "UPGRADE_ASSEMBLY"
  | INSTALL_BACKUP_GENERATOR => "INSTALL_BACKUP_GENERATOR"
  | EXPEDITE_MAINTENANCE => "EXPEDITE_MAINTENANCE"
  | BULK_ORDER_MATERIALS => "BULK_ORDER_MATERIALS"
  | CANCEL_PENDING_ORDERS => "CANCEL_PENDING_ORDERS"
  | REALLOCATE_WORKERS => "REALLOCATE_WORKERS"
  | SCHEDULE_OVERTIME => "SCHEDULE_OVERTIME"
  end.

(** [strategy.value] *)
Definition value (s : t) : string :=
  match s with
  | PREVENTIVE_MAINTENANCE => "Implement Preventive Maintenance Schedule"
  | FLEXIBLE_WORKFORCE => "Maintain Flexible Workforce Training"
  | JUST_IN_TIME_REPLENISHMENT => "Just-In-Time Replenishment System"
  | SUPPLIER_DIVERSIFICATION => "Diversify Supplier Network"
  | OVERTIME_POLICY => "Strategic Overtime Policy"
  | QUALITY_MONITORING => "Enhanced Quality Monitoring System"
  | KPI_MONITORING => "Real-time KPI Monitoring System"
  | MODULAR_REPAIR_KITS => "Modular Repair Kits System"
  | OUTSOURCING => "Temporary Production Outsourcing"
  | LEAN_MANUFACTURING => "Implement Lean Manufacturing Principles"
  | PEAK_LOAD_OPTIMIZATION => "Peak Load Optimization System"
  | INVENTORY_LIQUIDATION => "Rapid Inventory Liquidation System"
  | PURCHASE_CNC_MACHINE => "Purchase Additional CNC Machine"
  | SELL_CNC_MACHINE => "Sell Underutilized CNC Machine"
  | HIRE_WORKERS => "Hire Additional Workers"
  | REDUCE_WORKFORCE => "Reduce Workforce Size"
  | EMERGENCY_MATERIALS => "Order Emergency Raw Materials"
  | UPGRADE_ASSEMBLY => "Upgrade Assembly Stations"
  | INSTALL_BACKUP_GENERATOR => "Install Emergency Backup Generator"
  | EXPEDITE_MAINTENANCE => "Expedite Machine Maintenance"
  | BULK_ORDER_MATERIALS => "Place Bulk Materials Order"
  | CANCEL_PENDING_ORDERS => "Cancel Low-Priority Orders"
  | REALLOCATE_WORKERS => "Reallocate Workers Between Departments"
  | SCHEDULE_OVERTIME => "Schedule Weekend Overtime Shift"
  end.
End AdaptationStrategy.

Import AdaptationStrategy(PREVENTIVE_MAINTENANCE, FLEXIBLE_WORKFORCE,
  JUST_IN_TIME_REPLENISHMENT, SUPPLIER_DIVERSIFICATION, OVERTIME_POLICY,
  QUALITY_MONITORING, KPI_MONITORING, MODULAR_REPAIR_KITS, OUTSOURCING,
  LEAN_MANUFACTURING, PEAK_LOAD_OPTIMIZATION, INVENTORY_LIQUIDATION,
  PURCHASE_CNC_MACHINE, SELL_CNC_MACHINE, HIRE_WORKERS, REDUCE_WORKFORCE,
  EMERGENCY_MATERIALS, UPGRADE_ASSEMBLY, INSTALL_BACKUP_GENERATOR,
  EXPEDITE_MAINTENANCE, BULK_ORDER_MATERIALS, CANCEL_PENDING_ORDERS,
  REALLOCATE_WORKERS, SCHEDULE_OVERTIME).

(** ** Module constants that are never rebound *)

Definition NUM_QC_STATIONS : Z := 3.
Definition INITIAL_INVENTORY : Z := 80.
Definition INITIAL_RAW_MATERIALS : Z := 500.
Definition QC_INSPECTION_TIME : Q := 15.
Definition PARTS_PER_PRODUCT : Z := 3.
Definition NORMAL_ORDER_RATE : Q := 25.
Definition DELIVERY_TIME : Q := 2 * 24 * 60.
Definition WORKER_HOURLY_WAGE : Q := 25.
Definition WORKER_SHIFT_HOURS : Q := 8.
Definition WORKER_SHIFTS_PER_DAY : Q := 3.
Definition WORKER_BENEFITS_FACTOR : Q := 1.3.
Definition RAW_MATERIAL_COST : Q := 70.
Definition INVENTORY_HOLDING_COST_RATE : Q := 0.002.
Definition PARTS_VALUE : Q := 120.
Definition FINISHED_PRODUCT_VALUE : Q := 590.
Definition ENERGY_COST_PER_KWH : Q := 0.6.
Definition CNC_ENERGY_USAGE : Q := 35.5.
Definition ASSEMBLY_ENERGY_USAGE : Q := 10.0.
Definition QC_ENERGY_USAGE : Q := 10.5.
Definition FACILITY_BASE_ENERGY : Q := 35.0.
Definition SUDDEN_ORDER_SPIKE_CHANCE : Q := 0.05.
Definition WORKER_ABSENCE_CHANCE : Q := 0.08.
Definition ORDER_CANCELLATION_CHANCE : Q := 0.1.

Module MQTTTopics.
Definition STRATEGY_COMMAND : string := "factory/command/strategy".
Definition SIMULATION_COMMAND : string := "factory/command/simulation".
End MQTTTopics.

(** [ONE_TIME_STRATEGIES]: membership in the set. *)
Definition ONE_TIME_STRATEGIES (s : AdaptationStrategy.t) : bool :=
  match s with
  | PURCHASE_CNC_MACHINE | SELL_CNC_MACHINE | HIRE_WORKERS | REDUCE_WORKFORCE
  | EMERGENCY_MATERIALS | UPGRADE_ASSEMBLY | INSTALL_BACKUP_GENERATOR
  | EXPEDITE_MAINTENANCE | BULK_ORDER_MATERIALS | CANCEL_PENDING_ORDERS
  | REALLOCATE_WORKERS | SCHEDULE_OVERTIME => true
  | _ => false
  end.

Module StrategyCosts.
Definition IMPLEMENTATION (s : AdaptationStrategy.t) : Z :=
  match s with
  | PREVENTIVE_MAINTENANCE => 25000
  | FLEXIBLE_WORKFORCE => 18000
  | JUST_IN_TIME_REPLENISHMENT => 20000
  | SUPPLIER_DIVERSIFICATION => 35000
  | OVERTIME_POLICY => 5000
  | QUALITY_MONITORING => 42000
  | KPI_MONITORING => 25000
  | MODULAR_REPAIR_KITS => 18000
  | OUTSOURCING => 30000
  | LEAN_MANUFACTURING => 38000
  | PEAK_LOAD_OPTIMIZATION => 15000
  | INVENTORY_LIQUIDATION => 8000
  | PURCHASE_CNC_MACHINE => 150000
  | SELL_CNC_MACHINE => 5000
  | HIRE_WORKERS => 15000
  | REDUCE_WORKFORCE => 30000
  | EMERGENCY_MATERIALS => 40000
  | UPGRADE_ASSEMBLY => 75000
  | INSTALL_BACKUP_GENERATOR => 55000
  | EXPEDITE_MAINTENANCE => 25000
  | BULK_ORDER_MATERIALS => 80000
  | CANCEL_PENDING_ORDERS => 20000
  | REALLOCATE_WORKERS => 5000
  | SCHEDULE_OVERTIME => 18000
  end.

Definition WEEKLY (s : AdaptationStrategy.t) : Z :=
  match s with
  | PREVENTIVE_MAINTENANCE => 625
  | FLEXIBLE_WORKFORCE => 300
  | JUST_IN_TIME_REPLENISHMENT => 300
  | SUPPLIER_DIVERSIFICATION => 450
  | OVERTIME_POLICY => 0
  | QUALITY_MONITORING => 550
  | KPI_MONITORING => 400
  | MODULAR_REPAIR_KITS => 250
  | OUTSOURCING => 250
  | LEAN_MANUFACTURING => 450
  | PEAK_LOAD_OPTIMIZATION => 350
  | INVENTORY_LIQUIDATION => 200
  | _ => 0
  end.
End StrategyCosts.

Module StrategyDurations.
(** The class attribute [DURATION] as first defined (minutes);
    [modify_strategy] rebinds entries of it, so the live table is part of
    the state. *)
Definition DURATION_0 : dict AdaptationStrategy.t Z :=
  [ (PREVENTIVE_MAINTENANCE, 14 * 24 * 60);
    (FLEXIBLE_WORKFORCE, 21 * 24 * 60);
    (JUST_IN_TIME_REPLENISHMENT, 30 * 24 * 60);
    (SUPPLIER_DIVERSIFICATION, 45 * 24 * 60);
    (OVERTIME_POLICY, 5 * 24 * 60);
    (QUALITY_MONITORING, 30 * 24 * 60);
    (KPI_MONITORING, 30 * 24 * 60);
    (MODULAR_REPAIR_KITS, 60 * 24 * 60);
    (OUTSOURCING, 10 * 24 * 60);
    (LEAN_MANUFACTURING, 60 * 24 * 60);
    (PEAK_LOAD_OPTIMIZATION, 14 * 24 * 60);
    (INVENTORY_LIQUIDATION, 7 * 24 * 60);
    (PURCHASE_CNC_MACHINE, 0); (SELL_CNC_MACHINE, 0); (HIRE_WORKERS, 0);
    (REDUCE_WORKFORCE, 0); (EMERGENCY_MATERIALS, 0); (UPGRADE_ASSEMBLY, 0);
    (INSTALL_BACKUP_GENERATOR, 0); (EXPEDITE_MAINTENANCE, 0);
    (BULK_ORDER_MATERIALS, 0); (CANCEL_PENDING_ORDERS, 0);
    (REALLOCATE_WORKERS, 0); (SCHEDULE_OVERTIME, 0) ]%Z.
End StrategyDurations.

(** ** simpy.Resource

    simpy is a library the program imports.  A [Resource] has a fixed
    [capacity], the list [users] of granted requests and the FIFO [queue] of
    pending ones.  [resource.request()] appends the new request to the queue
    and at once tries the head of the queue; a request is granted when
    [len(users) < capacity].  Leaving the [with] block cancels the request
    if it is still queued, removes it from [users], and lets the head of the
    queue try again.  The capacity of a [Resource] cannot be changed. *)

Record Resource : Type := mkResource {
  capacity : Z;
  users : list nat;
  queue : list nat
}.

Definition count (r : Resource) : Z := Z.of_nat (List.length (users r)).

Definition trigger_put (r : Resource) : Resource :=
  match queue r with
  | [] => r
  | rid :: q =>
      if (count r <? capacity r)%Z
      then {| capacity := capacity r; users := users r ++ [rid]; queue := q |}
      else r
  end.

Definition Resource_request (rid : nat) (r : Resource) : Resource :=
  trigger_put {| capacity := capacity r; users := users r;
                 queue := queue r ++ [rid] |}.

Definition Resource_release (rid : nat) (r : Resource) : Resource :=
  trigger_put {| capacity := capacity r;
                 users := filter (fun u => negb (Nat.eqb u rid)) (users r);
                 queue := filter (fun u => negb (Nat.eqb u rid)) (queue r) |}.

(** A request as a process holds it: the Resource object it was made on
    (an index into the store of all Resource objects) and its identity. *)
Definition Request : Type := (nat * nat)%type.

(** ** Suspended generators

    One constructor per [yield] of each generator function, with the local
    variables that are live across it; [_start] is a generator that
    [env.process] has scheduled and that has not run yet. *)

Inductive Cont : Type :=
(* produce_parts *)
| produce_parts_loop
| produce_parts_cnc (cnc_req : Request)
| produce_parts_worker (cnc_req worker_req : Request)
| produce_parts_run (cnc_req worker_req : Request) (batch_size : Z)
(* assemble_products *)
| assemble_products_loop
| assemble_products_both (assembly_req worker_req : Request)
| assemble_products_run (assembly_req worker_req : Request) (batch_size : Z)
(* product_to_qc *)
| product_to_qc_start
| product_to_qc_outage
| product_to_qc_both (qc_req worker_req : Request)
| product_to_qc_inspect (qc_req worker_req : Request)
(* the disruption processes *)
| order_cancellation_start
| order_cancellation_wait
| cnc_machine_failure_start
| cnc_machine_failure_wait
| order_spike_start
| order_spike_wait (original_rate : Q) (old_times : option (Q * Q))
| supply_chain_disruption_start
| supply_chain_disruption_wait
| worker_absence_start (max_absent : Z)
| worker_absence_wait (num_absent : Z)
| quality_control_issue_start (duration : Q)
| quality_control_issue_wait
| power_outage_event_start
| power_outage_event_wait
(* the periodic processes *)
| generate_orders_wait
| generate_disruptions_wait
| monitor_metrics_loop
| calculate_worker_costs_wait
| calculate_inventory_costs_wait
| calculate_energy_usage_wait
(* processes started on demand *)
| order_raw_materials_start
| order_raw_materials_wait (order_amount : Z)
| liquidate_inventory_start
| liquidate_inventory_wait
(* the closures of execute_one_time_strategy *)
| restore_power_risk_start (old_chance : Q)
| restore_power_risk_wait (old_chance : Q)
| bulk_delivery_start
| bulk_delivery_second (first_batch : Z)
| bulk_delivery_third (first_batch second_batch : Z)
| restore_process_times_start (old_assembly_time old_cnc_time : Q)
| restore_process_times_wait (old_assembly_time old_cnc_time : Q)
| end_overtime_start (old_assembly_time old_cnc_time : Q)
| end_overtime_wait (old_assembly_time old_cnc_time : Q)
(* a generator that has returned *)
| finished.

(** A process of the environment: [wake = Some t] when it waits for the
    clock to reach [t], [None] when it waits for requests or has returned. *)
Record Process : Type := mkProcess {
  wake : option Q;
  cont : Cont
}.

(** An entry of [self.logs]. *)
Record LogEntry : Type := mkLogEntry {
  simulationTime : Q;
  level : LogLevel.t;
  component : string;
  message : string
}.

(** The module-level variables that the program rebinds (global statements) *)
Record Globals : Type := mkGlobals {
  NUM_CNC_MACHINES : Z;
  NUM_ASSEMBLY_STATIONS : Z;
  NUM_WORKERS : Z;
  CNC_PROCESSING_TIME : Q;
  ASSEMBLY_TIME : Q;
  CNC_FAILURE_CHANCE : Q;
  SUPPLY_CHAIN_ISSUE_CHANCE : Q;
  QUALITY_ISSUE_CHANCE : Q;
  POWER_OUTAGE_CHANCE : Q;
  DURATION : dict AdaptationStrategy.t Z
}.

(** The simpy environment: clock, every Resource object ever created, suspended processes *)
Record Environment : Type := mkEnvironment {
  env_now : Q;
  resources : list Resource;
  next_request : nat;
  procs : list Process
}.

(** Status tracking for resource availability, and the four Resource handles *)
Record Pools : Type := mkPools {
  operational_cnc_machines : Z;
  available_workers : Z;
  cnc_machines : nat;
  assembly_stations : nat;
  qc_stations : nat;
  workers : nat
}.

(** Inventory, raw materials and order tracking *)
Record Ledger : Type := mkLedger {
  raw_materials : Z;
  parts_inventory : Z;
  finished_products : Z;
  backlog : Z;
  total_orders : Z;
  fulfilled_orders : Z;
  cancelled_orders : Z
}.

(** Financial metrics *)
Record Financial : Type := mkFinancial {
  revenue : Q;
  costs : Q;
  inventory_holding_costs : Q;
  energy_costs : Q;
  liquidation_revenue : Q;
  worker_salary_costs : Q
}.

(** Status tracking *)
Record Status : Type := mkStatus {
  current_order_rate : Q;
  supply_chain_disrupted : bool;
  has_quality_issue : bool;
  power_outage : bool;
  order_cancellation_active : bool
}.

(** Production metrics *)
Record Production : Type := mkProduction {
  daily_production : Z;
  cnc_utilization : Q;
  assembly_utilization : Q;
  qc_utilization : Q
}.

(** Quality metrics *)
Record Quality : Type := mkQuality {
  defect_rate : Q;
  defects_found : Z;
  total_inspected : Z;
  false_positives : Z;
  false_negatives : Z
}.

(** Maintenance metrics *)
Record Maintenance : Type := mkMaintenance {
  maintenance_events : Z;
  total_downtime : Q;
  mtbf : Q;
  mttr : Q;
  last_failure_time : Q;
  repair_times : list Q
}.

(** Sensor data of the CNC machines *)
Record Sensors : Type := mkSensors {
  cnc_temperatures : list Q;
  cnc_vibrations : list Q
}.

(** Active requests tracking *)
Record Tracking : Type := mkTracking {
  active_cnc_requests : Z;
  active_worker_requests : Z;
  active_qc_requests : Z
}.

(** Adaptation strategies *)
Record Strategies : Type := mkStrategies {
  adaptation_strategies : list AdaptationStrategy.t;
  strategy_implementation_dates : dict AdaptationStrategy.t Q;
  strategy_expiration_times : dict AdaptationStrategy.t Q;
  strategy_weekly_costs : Z
}.

(** Monitoring data *)
Record Monitoring : Type := mkMonitoring {
  profit_history : list Q;
  disruptions_history : list (Q * DisruptionType.t * string);
  strategy_changes_history : list (Q * AdaptationStrategy.t * string);
  logs : list LogEntry
}.

(** Simulation control *)
Record Control : Type := mkControl {
  paused : bool;
  current_time : Q;
  mqtt_loop : bool
}.

(** The factory object together with the interpreter state it lives in. *)
Record Factory : Type := mkFactory {
  globals :> Globals;
  env :> Environment;
  pools :> Pools;
  ledger :> Ledger;
  financial :> Financial;
  status :> Status;
  production :> Production;
  quality :> Quality;
  maintenance :> Maintenance;
  sensors :> Sensors;
  tracking :> Tracking;
  strategies :> Strategies;
  monitoring :> Monitoring;
  control :> Control
}.

(** Field updates: [set_f v st] is the state after the assignment [f = v]. *)
Definition set_globals (v : Globals) (st : Factory) : Factory :=
  {| globals := v; env := env st; pools := pools st; ledger := ledger st; financial := financial st; status := status st; production := production st; quality := quality st; maintenance := maintenance st; sensors := sensors st; tracking := tracking st; strategies := strategies st; monitoring := monitoring st; control := control st |}.
Definition set_env (v : Environment) (st : Factory) : Factory :=
  {| globals := globals st; env := v; pools := pools st; ledger := ledger st; financial := financial st; status := status st; production := production st; quality := quality st; maintenance := maintenance st; sensors := sensors st; tracking := tracking st; strategies := strategies st; monitoring := monitoring st; control := control st |}.
Definition set_pools (v : Pools) (st : Factory) : Factory :=
  {| globals := globals st; env := env st; pools := v; ledger := ledger st; financial := financial st; status := status st; production := production st; quality := quality st; maintenance := maintenance st; sensors := sensors st; tracking := tracking st; strategies := strategies st; monitoring := monitoring st; control := control st |}.
Definition set_ledger (v : Ledger) (st : Factory) : Factory :=
  {| globals := globals st; env := env st; pools := pools st; ledger := v; financial := financial st; status := status st; production := production st; quality := quality st; maintenance := maintenance st; sensors := sensors st; tracking := tracking st; strategies := strategies st; monitoring := monitoring st; control := control st |}.
Definition set_financial (v : Financial) (st : Factory) : Factory :=
  {| globals := globals st; env := env st; pools := pools st; ledger := ledger st; financial := v; status := status st; production := production st; quality := quality st; maintenance := maintenance st; sensors := sensors st; tracking := tracking st; strategies := strategies st; monitoring := monitoring st; control := control st |}.
Definition set_status (v : Status) (st : Factory) : Factory :=
  {| globals := globals st; env := env st; pools := pools st; ledger := ledger st; financial := financial st; status := v; production := production st; quality := quality st; maintenance := maintenance st; sensors := sensors st; tracking := tracking st; strategies := strategies st; monitoring := monitoring st; control := control st |}.
Definition set_production (v : Production) (st : Factory) : Factory :=
  {| globals := globals st; env := env st; pools := pools st; ledger := ledger st; financial := financial st; status := status st; production := v; quality := quality st; maintenance := maintenance st; sensors := sensors st; tracking := tracking st; strategies := strategies st; monitoring := monitoring st; control := control st |}.
Definition set_quality (v : Quality) (st : Factory) : Factory :=
  {| globals := globals st; env := env st; pools := pools st; ledger := ledger st; financial := financial st; status := status st; production := production st; quality := v; maintenance := maintenance st; sensors := sensors st; tracking := tracking st; strategies := strategies st; monitoring := monitoring st; control := control st |}.
Definition set_maintenance (v : Maintenance) (st : Factory) : Factory :=
  {| globals := globals st; env := env st; pools := pools st; ledger := ledger st; financial := financial st; status := status st; production := production st; quality := quality st; maintenance := v; sensors := sensors st; tracking := tracking st; strategies := strategies st; monitoring := monitoring st; control := control st |}.
Definition set_sensors (v : Sensors) (st : Factory) : Factory :=
  {| globals := globals st; env := env st; pools := pools st; ledger := ledger st; financial := financial st; status := status st; production := production st; quality := quality st; maintenance := maintenance st; sensors := v; tracking := tracking st; strategies := strategies st; monitoring := monitoring st; control := control st |}.
Definition set_tracking (v : Tracking) (st : Factory) : Factory :=
  {| globals := globals st; env := env st; pools := pools st; ledger := ledger st; financial := financial st; status := status st; production := production st; quality := quality st; maintenance := maintenance st; sensors := sensors st; tracking := v; strategies := strategies st; monitoring := monitoring st; control := control st |}.
Definition set_strategies (v : Strategies) (st : Factory) : Factory :=
  {| globals := globals st; env := env st; pools := pools st; ledger := ledger st; financial := financial st; status := status st; production := production st; quality := quality st; maintenance := maintenance st; sensors := sensors st; tracking := tracking st; strategies := v; monitoring := monitoring st; control := control st |}.
Definition set_monitoring (v : Monitoring) (st : Factory) : Factory :=
  {| globals := globals st; env := env st; pools := pools st; ledger := ledger st; financial := financial st; status := status st; production := production st; quality := quality st; maintenance := maintenance st; sensors := sensors st; tracking := tracking st; strategies := strategies st; monitoring := v; control := control st |}.
Definition set_control (v : Control) (st : Factory) : Factory :=
  {| globals := globals st; env := env st; pools := pools st; ledger := ledger st; financial := financial st; status := status st; production := production st; quality := quality st; maintenance := maintenance st; sensors := sensors st; tracking := tracking st; strategies := strategies st; monitoring := monitoring st; control := v |}.
Definition set_NUM_CNC_MACHINES (v : Z) (st : Factory) : Factory :=
  set_globals {| NUM_CNC_MACHINES := v; NUM_ASSEMBLY_STATIONS := NUM_ASSEMBLY_STATIONS st; NUM_WORKERS := NUM_WORKERS st; CNC_PROCESSING_TIME := CNC_PROCESSING_TIME st; ASSEMBLY_TIME := ASSEMBLY_TIME st; CNC_FAILURE_CHANCE := CNC_FAILURE_CHANCE st; SUPPLY_CHAIN_ISSUE_CHANCE := SUPPLY_CHAIN_ISSUE_CHANCE st; QUALITY_ISSUE_CHANCE := QUALITY_ISSUE_CHANCE st; POWER_OUTAGE_CHANCE := POWER_OUTAGE_CHANCE st; DURATION := DURATION st |} st.
Definition set_NUM_ASSEMBLY_STATIONS (v : Z) (st : Factory) : Factory :=
  set_globals {| NUM_CNC_MACHINES := NUM_CNC_MACHINES st; NUM_ASSEMBLY_STATIONS := v; NUM_WORKERS := NUM_WORKERS st; CNC_PROCESSING_TIME := CNC_PROCESSING_TIME st; ASSEMBLY_TIME := ASSEMBLY_TIME st; CNC_FAILURE_CHANCE := CNC_FAILURE_CHANCE st; SUPPLY_CHAIN_ISSUE_CHANCE := SUPPLY_CHAIN_ISSUE_CHANCE st; QUALITY_ISSUE_CHANCE := QUALITY_ISSUE_CHANCE st; POWER_OUTAGE_CHANCE := POWER_OUTAGE_CHANCE st; DURATION := DURATION st |} st.
Definition set_NUM_WORKERS (v : Z) (st : Factory) : Factory :=
  set_globals {| NUM_CNC_MACHINES := NUM_CNC_MACHINES st; NUM_ASSEMBLY_STATIONS := NUM_ASSEMBLY_STATIONS st; NUM_WORKERS := v; CNC_PROCESSING_TIME := CNC_PROCESSING_TIME st; ASSEMBLY_TIME := ASSEMBLY_TIME st; CNC_FAILURE_CHANCE := CNC_FAILURE_CHANCE st; SUPPLY_CHAIN_ISSUE_CHANCE := SUPPLY_CHAIN_ISSUE_CHANCE st; QUALITY_ISSUE_CHANCE := QUALITY_ISSUE_CHANCE st; POWER_OUTAGE_CHANCE := POWER_OUTAGE_CHANCE st; DURATION := DURATION st |} st.
Definition set_CNC_PROCESSING_TIME (v : Q) (st : Factory) : Factory :=
  set_globals {| NUM_CNC_MACHINES := NUM_CNC_MACHINES st; NUM_ASSEMBLY_STATIONS := NUM_ASSEMBLY_STATIONS st; NUM_WORKERS := NUM_WORKERS st; CNC_PROCESSING_TIME := v; ASSEMBLY_TIME := ASSEMBLY_TIME st; CNC_FAILURE_CHANCE := CNC_FAILURE_CHANCE st; SUPPLY_CHAIN_ISSUE_CHANCE := SUPPLY_CHAIN_ISSUE_CHANCE st; QUALITY_ISSUE_CHANCE := QUALITY_ISSUE_CHANCE st; POWER_OUTAGE_CHANCE := POWER_OUTAGE_CHANCE st; DURATION := DURATION st |} st.
Definition set_ASSEMBLY_TIME (v : Q) (st : Factory) : Factory :=
  set_globals {| NUM_CNC_MACHINES := NUM_CNC_MACHINES st; NUM_ASSEMBLY_STATIONS := NUM_ASSEMBLY_STATIONS st; NUM_WORKERS := NUM_WORKERS st; CNC_PROCESSING_TIME := CNC_PROCESSING_TIME st; ASSEMBLY_TIME := v; CNC_FAILURE_CHANCE := CNC_FAILURE_CHANCE st; SUPPLY_CHAIN_ISSUE_CHANCE := SUPPLY_CHAIN_ISSUE_CHANCE st; QUALITY_ISSUE_CHANCE := QUALITY_ISSUE_CHANCE st; POWER_OUTAGE_CHANCE := POWER_OUTAGE_CHANCE st; DURATION := DURATION st |} st.
Definition set_CNC_FAILURE_CHANCE (v : Q) (st : Factory) : Factory :=
  set_globals {| NUM_CNC_MACHINES := NUM_CNC_MACHINES st; NUM_ASSEMBLY_STATIONS := NUM_ASSEMBLY_STATIONS st; NUM_WORKERS := NUM_WORKERS st; CNC_PROCESSING_TIME := CNC_PROCESSING_TIME st; ASSEMBLY_TIME := ASSEMBLY_TIME st; CNC_FAILURE_CHANCE := v; SUPPLY_CHAIN_ISSUE_CHANCE := SUPPLY_CHAIN_ISSUE_CHANCE st; QUALITY_ISSUE_CHANCE := QUALITY_ISSUE_CHANCE st; POWER_OUTAGE_CHANCE := POWER_OUTAGE_CHANCE st; DURATION := DURATION st |} st.
Definition set_SUPPLY_CHAIN_ISSUE_CHANCE (v : Q) (st : Factory) : Factory :=
  set_globals {| NUM_CNC_MACHINES := NUM_CNC_MACHINES st; NUM_ASSEMBLY_STATIONS := NUM_ASSEMBLY_STATIONS st; NUM_WORKERS := NUM_WORKERS st; CNC_PROCESSING_TIME := CNC_PROCESSING_TIME st; ASSEMBLY_TIME := ASSEMBLY_TIME st; CNC_FAILURE_CHANCE := CNC_FAILURE_CHANCE st; SUPPLY_CHAIN_ISSUE_CHANCE := v; QUALITY_ISSUE_CHANCE := QUALITY_ISSUE_CHANCE st; POWER_OUTAGE_CHANCE := POWER_OUTAGE_CHANCE st; DURATION := DURATION st |} st.
Definition set_QUALITY_ISSUE_CHANCE (v : Q) (st : Factory) : Factory :=
  set_globals {| NUM_CNC_MACHINES := NUM_CNC_MACHINES st; NUM_ASSEMBLY_STATIONS := NUM_ASSEMBLY_STATIONS st; NUM_WORKERS := NUM_WORKERS st; CNC_PROCESSING_TIME := CNC_PROCESSING_TIME st; ASSEMBLY_TIME := ASSEMBLY_TIME st; CNC_FAILURE_CHANCE := CNC_FAILURE_CHANCE st; SUPPLY_CHAIN_ISSUE_CHANCE := SUPPLY_CHAIN_ISSUE_CHANCE st; QUALITY_ISSUE_CHANCE := v; POWER_OUTAGE_CHANCE := POWER_OUTAGE_CHANCE st; DURATION := DURATION st |} st.
Definition set_POWER_OUTAGE_CHANCE (v : Q) (st : Factory) : Factory :=
  set_globals {| NUM_CNC_MACHINES := NUM_CNC_MACHINES st; NUM_ASSEMBLY_STATIONS := NUM_ASSEMBLY_STATIONS st; NUM_WORKERS := NUM_WORKERS st; CNC_PROCESSING_TIME := CNC_PROCESSING_TIME st; ASSEMBLY_TIME := ASSEMBLY_TIME st; CNC_FAILURE_CHANCE := CNC_FAILURE_CHANCE st; SUPPLY_CHAIN_ISSUE_CHANCE := SUPPLY_CHAIN_ISSUE_CHANCE st; QUALITY_ISSUE_CHANCE := QUALITY_ISSUE_CHANCE st; POWER_OUTAGE_CHANCE := v; DURATION := DURATION st |} st.
Definition set_DURATION (v : dict AdaptationStrategy.t Z) (st : Factory) : Factory :=
  set_globals {| NUM_CNC_MACHINES := NUM_CNC_MACHINES st; NUM_ASSEMBLY_STATIONS := NUM_ASSEMBLY_STATIONS st; NUM_WORKERS := NUM_WORKERS st; CNC_PROCESSING_TIME := CNC_PROCESSING_TIME st; ASSEMBLY_TIME := ASSEMBLY_TIME st; CNC_FAILURE_CHANCE := CNC_FAILURE_CHANCE st; SUPPLY_CHAIN_ISSUE_CHANCE := SUPPLY_CHAIN_ISSUE_CHANCE st; QUALITY_ISSUE_CHANCE := QUALITY_ISSUE_CHANCE st; POWER_OUTAGE_CHANCE := POWER_OUTAGE_CHANCE st; DURATION := v |} st.
Definition set_env_now (v : Q) (st : Factory) : Factory :=
  set_env {| env_now := v; resources := resources st; next_request := next_request st; procs := procs st |} st.
Definition set_resources (v : list Resource) (st : Factory) : Factory :=
  set_env {| env_now := env_now st; resources := v; next_request := next_request st; procs := procs st |} st.
Definition set_next_request (v : nat) (st : Factory) : Factory :=
  set_env {| env_now := env_now st; resources := resources st; next_request := v; procs := procs st |} st.
Definition set_procs (v : list Process) (st : Factory) : Factory :=
  set_env {| env_now := env_now st; resources := resources st; next_request := next_request st; procs := v |} st.
Definition set_operational_cnc_machines (v : Z) (st : Factory) : Factory :=
  set_pools {| operational_cnc_machines := v; available_workers := available_workers st; cnc_machines := cnc_machines st; assembly_stations := assembly_stations st; qc_stations := qc_stations st; workers := workers st |} st.
Definition set_available_workers (v : Z) (st : Factory) : Factory :=
  set_pools {| operational_cnc_machines := operational_cnc_machines st; available_workers := v; cnc_machines := cnc_machines st; assembly_stations := assembly_stations st; qc_stations := qc_stations st; workers := workers st |} st.
Definition set_cnc_machines (v : nat) (st : Factory) : Factory :=
  set_pools {| operational_cnc_machines := operational_cnc_machines st; available_workers := available_workers st; cnc_machines := v; assembly_stations := assembly_stations st; qc_stations := qc_stations st; workers := workers st |} st.
Definition set_assembly_stations (v : nat) (st : Factory) : Factory :=
  set_pools {| operational_cnc_machines := operational_cnc_machines st; available_workers := available_workers st; cnc_machines := cnc_machines st; assembly_stations := v; qc_stations := qc_stations st; workers := workers st |} st.
Definition set_qc_stations (v : nat) (st : Factory) : Factory :=
  set_pools {| operational_cnc_machines := operational_cnc_machines st; available_workers := available_workers st; cnc_machines := cnc_machines st; assembly_stations := assembly_stations st; qc_stations := v; workers := workers st |} st.
Definition set_workers (v : nat) (st : Factory) : Factory :=
  set_pools {| operational_cnc_machines := operational_cnc_machines st; available_workers := available_workers st; cnc_machines := cnc_machines st; assembly_stations := assembly_stations st; qc_stations := qc_stations st; workers := v |} st.
Definition set_raw_materials (v : Z) (st : Factory) : Factory :=
  set_ledger {| raw_materials := v; parts_inventory := parts_inventory st; finished_products := finished_products st; backlog := backlog st; total_orders := total_orders st; fulfilled_orders := fulfilled_orders st; cancelled_orders := cancelled_orders st |} st.
Definition set_parts_inventory (v : Z) (st : Factory) : Factory :=
  set_ledger {| raw_materials := raw_materials st; parts_inventory := v; finished_products := finished_products st; backlog := backlog st; total_orders := total_orders st; fulfilled_orders := fulfilled_orders st; cancelled_orders := cancelled_orders st |} st.
Definition set_finished_products (v : Z) (st : Factory) : Factory :=
  set_ledger {| raw_materials := raw_materials st; parts_inventory := parts_inventory st; finished_products := v; backlog := backlog st; total_orders := total_orders st; fulfilled_orders := fulfilled_orders st; cancelled_orders := cancelled_orders st |} st.
Definition set_backlog (v : Z) (st : Factory) : Factory :=
  set_ledger {| raw_materials := raw_materials st; parts_inventory := parts_inventory st; finished_products := finished_products st; backlog := v; total_orders := total_orders st; fulfilled_orders := fulfilled_orders st; cancelled_orders := cancelled_orders st |} st.
Definition set_total_orders (v : Z) (st : Factory) : Factory :=
  set_ledger {| raw_materials := raw_materials st; parts_inventory := parts_inventory st; finished_products := finished_products st; backlog := backlog st; total_orders := v; fulfilled_orders := fulfilled_orders st; cancelled_orders := cancelled_orders st |} st.
Definition set_fulfilled_orders (v : Z) (st : Factory) : Factory :=
  set_ledger {| raw_materials := raw_materials st; parts_inventory := parts_inventory st; finished_products := finished_products st; backlog := backlog st; total_orders := total_orders st; fulfilled_orders := v; cancelled_orders := cancelled_orders st |} st.
Definition set_cancelled_orders (v : Z) (st : Factory) : Factory :=
  set_ledger {| raw_materials := raw_materials st; parts_inventory := parts_inventory st; finished_products := finished_products st; backlog := backlog st; total_orders := total_orders st; fulfilled_orders := fulfilled_orders st; cancelled_orders := v |} st.
Definition set_revenue (v : Q) (st : Factory) : Factory :=
  set_financial {| revenue := v; costs := costs st; inventory_holding_costs := inventory_holding_costs st; energy_costs := energy_costs st; liquidation_revenue := liquidation_revenue st; worker_salary_costs := worker_salary_costs st |} st.
Definition set_costs (v : Q) (st : Factory) : Factory :=
  set_financial {| revenue := revenue st; costs := v; inventory_holding_costs := inventory_holding_costs st; energy_costs := energy_costs st; liquidation_revenue := liquidation_revenue st; worker_salary_costs := worker_salary_costs st |} st.
Definition set_inventory_holding_costs (v : Q) (st : Factory) : Factory :=
  set_financial {| revenue := revenue st; costs := costs st; inventory_holding_costs := v; energy_costs := energy_costs st; liquidation_revenue := liquidation_revenue st; worker_salary_costs := worker_salary_costs st |} st.
Definition set_energy_costs (v : Q) (st : Factory) : Factory :=
  set_financial {| revenue := revenue st; costs := costs st; inventory_holding_costs := inventory_holding_costs st; energy_costs := v; liquidation_revenue := liquidation_revenue st; worker_salary_costs := worker_salary_costs st |} st.
Definition set_liquidation_revenue (v : Q) (st : Factory) : Factory :=
  set_financial {| revenue := revenue st; costs := costs st; inventory_holding_costs := inventory_holding_costs st; energy_costs := energy_costs st; liquidation_revenue := v; worker_salary_costs := worker_salary_costs st |} st.
Definition set_worker_salary_costs (v : Q) (st : Factory) : Factory :=
  set_financial {| revenue := revenue st; costs := costs st; inventory_holding_costs := inventory_holding_costs st; energy_costs := energy_costs st; liquidation_revenue := liquidation_revenue st; worker_salary_costs := v |} st.
Definition set_current_order_rate (v : Q) (st : Factory) : Factory :=
  set_status {| current_order_rate := v; supply_chain_disrupted := supply_chain_disrupted st; has_quality_issue := has_quality_issue st; power_outage := power_outage st; order_cancellation_active := order_cancellation_active st |} st.
Definition set_supply_chain_disrupted (v : bool) (st : Factory) : Factory :=
  set_status {| current_order_rate := current_order_rate st; supply_chain_disrupted := v; has_quality_issue := has_quality_issue st; power_outage := power_outage st; order_cancellation_active := order_cancellation_active st |} st.
Definition set_has_quality_issue (v : bool) (st : Factory) : Factory :=
  set_status {| current_order_rate := current_order_rate st; supply_chain_disrupted := supply_chain_disrupted st; has_quality_issue := v; power_outage := power_outage st; order_cancellation_active := order_cancellation_active st |} st.
Definition set_power_outage (v : bool) (st : Factory) : Factory :=
  set_status {| current_order_rate := current_order_rate st; supply_chain_disrupted := supply_chain_disrupted st; has_quality_issue := has_quality_issue st; power_outage := v; order_cancellation_active := order_cancellation_active st |} st.
Definition set_order_cancellation_active (v : bool) (st : Factory) : Factory :=
  set_status {| current_order_rate := current_order_rate st; supply_chain_disrupted := supply_chain_disrupted st; has_quality_issue := has_quality_issue st; power_outage := power_outage st; order_cancellation_active := v |} st.
Definition set_daily_production (v : Z) (st : Factory) : Factory :=
  set_production {| daily_production := v; cnc_utilization := cnc_utilization st; assembly_utilization := assembly_utilization st; qc_utilization := qc_utilization st |} st.
Definition set_cnc_utilization (v : Q) (st : Factory) : Factory :=
  set_production {| daily_production := daily_production st; cnc_utilization := v; assembly_utilization := assembly_utilization st; qc_utilization := qc_utilization st |} st.
Definition set_assembly_utilization (v : Q) (st : Factory) : Factory :=
  set_production {| daily_production := daily_production st; cnc_utilization := cnc_utilization st; assembly_utilization := v; qc_utilization := qc_utilization st |} st.
Definition set_qc_utilization (v : Q) (st : Factory) : Factory :=
  set_production {| daily_production := daily_production st; cnc_utilization := cnc_utilization st; assembly_utilization := assembly_utilization st; qc_utilization := v |} st.
Definition set_defect_rate (v : Q) (st : Factory) : Factory :=
  set_quality {| defect_rate := v; defects_found := defects_found st; total_inspected := total_inspected st; false_positives := false_positives st; false_negatives := false_negatives st |} st.
Definition set_defects_found (v : Z) (st : Factory) : Factory :=
  set_quality {| defect_rate := defect_rate st; defects_found := v; total_inspected := total_inspected st; false_positives := false_positives st; false_negatives := false_negatives st |} st.
Definition set_total_inspected (v : Z) (st : Factory) : Factory :=
  set_quality {| defect_rate := defect_rate st; defects_found := defects_found st; total_inspected := v; false_positives := false_positives st; false_negatives := false_negatives st |} st.
Definition set_false_positives (v : Z) (st : Factory) : Factory :=
  set_quality {| defect_rate := defect_rate st; defects_found := defects_found st; total_inspected := total_inspected st; false_positives := v; false_negatives := false_negatives st |} st.
Definition set_false_negatives (v : Z) (st : Factory) : Factory :=
  set_quality {| defect_rate := defect_rate st; defects_found := defects_found st; total_inspected := total_inspected st; false_positives := false_positives st; false_negatives := v |} st.
Definition set_maintenance_events (v : Z) (st : Factory) : Factory :=
  set_maintenance {| maintenance_events := v; total_downtime := total_downtime st; mtbf := mtbf st; mttr := mttr st; last_failure_time := last_failure_time st; repair_times := repair_times st |} st.
Definition set_total_downtime (v : Q) (st : Factory) : Factory :=
  set_maintenance {| maintenance_events := maintenance_events st; total_downtime := v; mtbf := mtbf st; mttr := mttr st; last_failure_time := last_failure_time st; repair_times := repair_times st |} st.
Definition set_mtbf (v : Q) (st : Factory) : Factory :=
  set_maintenance {| maintenance_events := maintenance_events st; total_downtime := total_downtime st; mtbf := v; mttr := mttr st; last_failure_time := last_failure_time st; repair_times := repair_times st |} st.
Definition set_mttr (v : Q) (st : Factory) : Factory :=
  set_maintenance {| maintenance_events := maintenance_events st; total_downtime := total_downtime st; mtbf := mtbf st; mttr := v; last_failure_time := last_failure_time st; repair_times := repair_times st |} st.
Definition set_last_failure_time (v : Q) (st : Factory) : Factory :=
  set_maintenance {| maintenance_events := maintenance_events st; total_downtime := total_downtime st; mtbf := mtbf st; mttr := mttr st; last_failure_time := v; repair_times := repair_times st |} st.
Definition set_repair_times (v : list Q) (st : Factory) : Factory :=
  set_maintenance {| maintenance_events := maintenance_events st; total_downtime := total_downtime st; mtbf := mtbf st; mttr := mttr st; last_failure_time := last_failure_time st; repair_times := v |} st.
Definition set_cnc_temperatures (v : list Q) (st : Factory) : Factory :=
  set_sensors {| cnc_temperatures := v; cnc_vibrations := cnc_vibrations st |} st.
Definition set_cnc_vibrations (v : list Q) (st : Factory) : Factory :=
  set_sensors {| cnc_temperatures := cnc_temperatures st; cnc_vibrations := v |} st.
Definition set_active_cnc_requests (v : Z) (st : Factory) : Factory :=
  set_tracking {| active_cnc_requests := v; active_worker_requests := active_worker_requests st; active_qc_requests := active_qc_requests st |} st.
Definition set_active_worker_requests (v : Z) (st : Factory) : Factory :=
  set_tracking {| active_cnc_requests := active_cnc_requests st; active_worker_requests := v; active_qc_requests := active_qc_requests st |} st.
Definition set_active_qc_requests (v : Z) (st : Factory) : Factory :=
  set_tracking {| active_cnc_requests := active_cnc_requests st; active_worker_requests := active_worker_requests st; active_qc_requests := v |} st.
Definition set_adaptation_strategies (v : list AdaptationStrategy.t) (st : Factory) : Factory :=
  set_strategies {| adaptation_strategies := v; strategy_implementation_dates := strategy_implementation_dates st; strategy_expiration_times := strategy_expiration_times st; strategy_weekly_costs := strategy_weekly_costs st |} st.
Definition set_strategy_implementation_dates (v : dict AdaptationStrategy.t Q) (st : Factory) : Factory :=
  set_strategies {| adaptation_strategies := adaptation_strategies st; strategy_implementation_dates := v; strategy_expiration_times := strategy_expiration_times st; strategy_weekly_costs := strategy_weekly_costs st |} st.
Definition set_strategy_expiration_times (v : dict AdaptationStrategy.t Q) (st : Factory) : Factory :=
  set_strategies {| adaptation_strategies := adaptation_strategies st; strategy_implementation_dates := strategy_implementation_dates st; strategy_expiration_times := v; strategy_weekly_costs := strategy_weekly_costs st |} st.
Definition set_strategy_weekly_costs (v : Z) (st : Factory) : Factory :=
  set_strategies {| adaptation_strategies := adaptation_strategies st; strategy_implementation_dates := strategy_implementation_dates st; strategy_expiration_times := strategy_expiration_times st; strategy_weekly_costs := v |} st.
Definition set_profit_history (v : list Q) (st : Factory) : Factory :=
  set_monitoring {| profit_history := v; disruptions_history := disruptions_history st; strategy_changes_history := strategy_changes_history st; logs := logs st |} st.
Definition set_disruptions_history (v : list (Q * DisruptionType.t * string)) (st : Factory) : Factory :=
  set_monitoring {| profit_history := profit_history st; disruptions_history := v; strategy_changes_history := strategy_changes_history st; logs := logs st |} st.
Definition set_strategy_changes_history (v : list (Q * AdaptationStrategy.t * string)) (st : Factory) : Factory :=
  set_monitoring {| profit_history := profit_history st; disruptions_history := disruptions_history st; strategy_changes_history := v; logs := logs st |} st.
Definition set_logs (v : list LogEntry) (st : Factory) : Factory :=
  set_monitoring {| profit_history := profit_history st; disruptions_history := disruptions_history st; strategy_changes_history := strategy_changes_history st; logs := v |} st.
Definition set_paused (v : bool) (st : Factory) : Factory :=
  set_control {| paused := v; current_time := current_time st; mqtt_loop := mqtt_loop st |} st.
Definition set_current_time (v : Q) (st : Factory) : Factory :=
  set_control {| paused := paused st; current_time := v; mqtt_loop := mqtt_loop st |} st.
Definition set_mqtt_loop (v : bool) (st : Factory) : Factory :=
  set_control {| paused := paused st; current_time := current_time st; mqtt_loop := v |} st.

(** ** The state at simulation start

    [MQTTValueFactory.__init__] and the module-level assignments.  The
    processes are listed in the order [__init__] starts them; a generator
    whose body opens with [yield self.env.timeout(d)] is entered with that
    wait already pending. *)

Definition init : Factory :=
  {| globals :=
       {| NUM_CNC_MACHINES := 5; NUM_ASSEMBLY_STATIONS := 4; NUM_WORKERS := 12;
          CNC_PROCESSING_TIME := 45; ASSEMBLY_TIME := 30;
          CNC_FAILURE_CHANCE := 0.15; SUPPLY_CHAIN_ISSUE_CHANCE := 0.08;
          QUALITY_ISSUE_CHANCE := 0.07; POWER_OUTAGE_CHANCE := 0.1;
          DURATION := StrategyDurations.DURATION_0 |};
     env :=
       {| env_now := 0;
          resources :=
            [ {| capacity := 5; users := []; queue := [] |};    (* cnc_machines *)
              {| capacity := 4; users := []; queue := [] |};    (* assembly_stations *)
              {| capacity := NUM_QC_STATIONS; users := []; queue := [] |};
              {| capacity := 12; users := []; queue := [] |} ]; (* workers *)
          next_request := 0;
          procs :=
            [ {| wake := Some (24 * 60); cont := generate_orders_wait |};
              {| wake := Some (24 * 60); cont := calculate_worker_costs_wait |};
              {| wake := Some 0; cont := monitor_metrics_loop |};
              {| wake := Some (6 * 60); cont := generate_disruptions_wait |};
              {| wake := Some 0; cont := produce_parts_loop |};
              {| wake := Some 0; cont := produce_parts_loop |};
              {| wake := Some 0; cont := produce_parts_loop |};
              {| wake := Some 0; cont := produce_parts_loop |};
              {| wake := Some 0; cont := produce_parts_loop |};
              {| wake := Some 0; cont := assemble_products_loop |};
              {| wake := Some 0; cont := assemble_products_loop |};
              {| wake := Some 0; cont := assemble_products_loop |};
              {| wake := Some 0; cont := assemble_products_loop |};
              {| wake := Some (24 * 60); cont := calculate_inventory_costs_wait |};
              {| wake := Some 60; cont := calculate_energy_usage_wait |} ] |};
     pools :=
       {| operational_cnc_machines := 5; available_workers := 12;
          cnc_machines := 0; assembly_stations := 1; qc_stations := 2;
          workers := 3 |};
     ledger :=
       {| raw_materials := INITIAL_RAW_MATERIALS;
          parts_inventory := INITIAL_INVENTORY;
          finished_products := 0; backlog := 0;
          total_orders := 0; fulfilled_orders := 0; cancelled_orders := 0 |};
     financial :=
       {| revenue := 0; costs := 0; inventory_holding_costs := 0;
          energy_costs := 0; liquidation_revenue := 0;
          worker_salary_costs := 0 |};
     status :=
       {| current_order_rate := NORMAL_ORDER_RATE;
          supply_chain_disrupted := false; has_quality_issue := false;
          power_outage := false; order_cancellation_active := false |};
     production :=
       {| daily_production := 0; cnc_utilization := 0;
          assembly_utilization := 0; qc_utilization := 0 |};
     quality :=
       {| defect_rate := 0.02; defects_found := 0; total_inspected := 0;
          false_positives := 0; false_negatives := 0 |};
     maintenance :=
       {| maintenance_events := 0; total_downtime := 0; mtbf := 0; mttr := 0;
          last_failure_time := 0; repair_times := [] |};
     sensors :=
       {| cnc_temperatures := repeat 20.0 5; cnc_vibrations := repeat 0.1 5 |};
     tracking :=
       {| active_cnc_requests := 0; active_worker_requests := 0;
          active_qc_requests := 0 |};
     strategies :=
       {| adaptation_strategies := []; strategy_implementation_dates := [];
          strategy_expiration_times := []; strategy_weekly_costs := 0 |};
     monitoring :=
       {| profit_history := []; disruptions_history := [];
          strategy_changes_history := []; logs := [] |};
     control := {| paused := false; current_time := 0; mqtt_loop := true |} |}.

(** ** Helpers shared by the methods *)

(** [self.log(level, component, message)]: the entry appended to
    [self.logs]. *)
Definition log (lvl : LogLevel.t) (comp msg : string) (st : Factory) : Factory :=
  set_logs (logs st ++ [ {| simulationTime := current_time st; level := lvl;
                            component := comp; message := msg |} ]) st.

(** [strategy in self.adaptation_strategies], [.add] and [.remove]. *)
Definition is_active (s : AdaptationStrategy.t) (st : Factory) : bool :=
  existsb (AdaptationStrategy.eqb s) (adaptation_strategies st).

Definition strategies_add (s : AdaptationStrategy.t) (st : Factory) : Factory :=
  if is_active s st then st
  else set_adaptation_strategies (adaptation_strategies st ++ [s]) st.

Definition strategies_remove (s : AdaptationStrategy.t) (st : Factory) : Factory :=
  set_adaptation_strategies
    (filter (fun x => negb (AdaptationStrategy.eqb s x)) (adaptation_strategies st))
    st.

(** [StrategyDurations.DURATION[strategy]]; every member is a key of the
    table at all times. *)
Definition DURATION_get (s : AdaptationStrategy.t) (st : Factory) : Z :=
  match dict_get AdaptationStrategy.eqb s (DURATION st) with
  | Some d => d
  | None => 0%Z
  end.

(** [self.env.process(generator)]: the new process is scheduled at the
    current time. *)
Definition env_process (k : Cont) (st : Factory) : Factory :=
  set_procs (procs st ++ [ {| wake := Some (env_now st); cont := k |} ]) st.

(** [simpy.Resource(self.env, capacity=c)]: a new object with no users; the
    result is its handle. *)
Definition simpy_Resource (c : Z) (st : Factory) : nat * Factory :=
  (List.length (resources st),
   set_resources (resources st ++ [ {| capacity := c; users := []; queue := [] |} ]) st).

(** An operation [f] on the Resource object with handle [res]. *)
Definition update_resource (res : nat) (f : Resource -> Resource)
    (st : Factory) : Factory :=
  set_resources (list_update res f (resources st)) st.

(** [resource.request()] on the Resource object with handle [res]. *)
Definition request (res : nat) (st : Factory) : Request * Factory :=
  let rid := next_request st in
  ((res, rid), set_next_request (S rid) (update_resource res (Resource_request rid) st)).

(** Leaving the [with] block of a request. *)
Definition release (req : Request) (st : Factory) : Factory :=
  update_resource (fst req) (Resource_release (snd req)) st.

(** Whether the request event has been triggered. *)
Definition granted (req : Request) (st : Factory) : bool :=
  match nth_error (resources st) (fst req) with
  | Some r => existsb (Nat.eqb (snd req)) (users r)
  | None => false
  end.

(** What a piece of a generator hands to the scheduler. *)
Inductive Yield : Type :=
| Timeout (delay : Q) (k : Cont)   (* yield self.env.timeout(delay) *)
| Await (k : Cont)                 (* yield request, or request & request *)
| Return.

(** ** The adaptation strategy manager *)

(** [process_backlog] *)
Definition process_backlog (st : Factory) : Factory :=
  let available_products := Z.min (finished_products st) (backlog st) in
  if (available_products >? 0)%Z then
    let st := set_finished_products (finished_products st - available_products) st in
    let st := set_backlog (backlog st - available_products) st in
    let st := set_fulfilled_orders (fulfilled_orders st + available_products) st in
    let st := set_daily_production (daily_production st + available_products) st in
    let product_price := 1500%Z in
    let batch_revenue := (available_products * product_price)%Z in
    let st := set_revenue (revenue st + #batch_revenue) st in
    if (available_products >=? 10)%Z
    then log LogLevel.INFO "Sales" "Shipped {available_products} products for revenue of ${batch_revenue}" st
    else st
  else st.

(** [liquidate_inventory], up to its [yield]. *)
Definition liquidate_inventory (st : Factory) : Yield * Factory :=
  if negb (is_active INVENTORY_LIQUIDATION st) then (Return, st)
  else
    let excess_finished_products :=
      Z.max 0 (finished_products st - backlog st - 10) in
    if (excess_finished_products <=? 0)%Z then (Return, st)
    else
      let discount_factor := 0.65 in
      let product_price := 1500 in
      let discount_price := product_price * discount_factor in
      let liquidation_revenue_ := #excess_finished_products * discount_price in
      let st := set_finished_products (finished_products st - excess_finished_products) st in
      let st := set_liquidation_revenue (liquidation_revenue st + liquidation_revenue_) st in
      let st := log LogLevel.INFO "Inventory"
                  "Liquidated {excess_finished_products} finished products at discount" st in
      (Timeout (12 * 60) liquidate_inventory_wait, st).

(** [liquidate_inventory], after its [yield]. *)
Definition liquidate_inventory_resume (st : Factory) : Yield * Factory :=
  if is_active INVENTORY_LIQUIDATION st
  then (Return, env_process liquidate_inventory_start st)
  else (Return, st).

(** [apply_strategy_effects] has two parts: it records the change and
    charges or stops the costs, then applies or removes the effect of the
    strategy. *)
Definition record_strategy_change (strategy : AdaptationStrategy.t)
    (activate : bool) (st : Factory) : Factory :=
  (* Record the strategy change *)
  let st := set_strategy_changes_history
              (strategy_changes_history st ++
               [ (env_now st, strategy,
                  if activate then "Activated"%string else "Deactivated"%string) ]) st in
  if activate then
    let implementation_cost := StrategyCosts.IMPLEMENTATION strategy in
    let st := set_costs (costs st + #implementation_cost) st in
    let st := set_strategy_implementation_dates
                (dict_set AdaptationStrategy.eqb strategy (env_now st)
                   (strategy_implementation_dates st)) st in
    let duration := DURATION_get strategy st in
    let expiration_time := env_now st + #duration in
    let st := set_strategy_expiration_times
                (dict_set AdaptationStrategy.eqb strategy expiration_time
                   (strategy_expiration_times st)) st in
    let st := log LogLevel.STRATEGY "Implementation"
                "Strategy '{strategy.value}' implemented" st in
    set_strategy_weekly_costs
      (strategy_weekly_costs st + StrategyCosts.WEEKLY strategy) st
  else
    let st := set_strategy_weekly_costs
                (strategy_weekly_costs st - StrategyCosts.WEEKLY strategy) st in
    let st := set_strategy_expiration_times
                (dict_del AdaptationStrategy.eqb strategy
                   (strategy_expiration_times st)) st in
    log LogLevel.STRATEGY "Deactivation"
      "Strategy '{strategy.value}' deactivated" st.

Definition strategy_effect (strategy : AdaptationStrategy.t)
    (activate : bool) (st : Factory) : Factory :=
  (* Apply or remove effects based on the strategy *)
  match strategy with
  | PREVENTIVE_MAINTENANCE =>
      let factor := if activate then 0.2 else 5.0 in
      set_CNC_FAILURE_CHANCE (CNC_FAILURE_CHANCE st * factor) st
  | JUST_IN_TIME_REPLENISHMENT =>
      if activate then
        let additional_raw := py_int (#INITIAL_RAW_MATERIALS * 0.5) in
        let additional_parts := py_int (#INITIAL_INVENTORY * 0.5) in
        let st := set_raw_materials (raw_materials st + additional_raw) st in
        let st := set_parts_inventory (parts_inventory st + additional_parts) st in
        log LogLevel.INFO "Inventory"
          "JIT system added {additional_raw} raw materials and {additional_parts} parts" st
      else st
  | FLEXIBLE_WORKFORCE =>
      let factor := if activate then 0.7 else (1 / 0.7) in
      let st := set_ASSEMBLY_TIME (ASSEMBLY_TIME st * factor) st in
      set_CNC_PROCESSING_TIME (CNC_PROCESSING_TIME st * factor) st
  | SUPPLIER_DIVERSIFICATION =>
      let factor := if activate then 0.25 else 4.0 in
      set_SUPPLY_CHAIN_ISSUE_CHANCE (SUPPLY_CHAIN_ISSUE_CHANCE st * factor) st
  | QUALITY_MONITORING =>
      let factor := if activate then 0.2 else 5.0 in
      let st := set_QUALITY_ISSUE_CHANCE (QUALITY_ISSUE_CHANCE st * factor) st in
      if activate
      then set_defect_rate (defect_rate st * 0.4) st
      else set_defect_rate (defect_rate st / 0.4) st
  | PEAK_LOAD_OPTIMIZATION =>
      if activate
      then set_POWER_OUTAGE_CHANCE (POWER_OUTAGE_CHANCE st * 0.6) st
      else set_POWER_OUTAGE_CHANCE (POWER_OUTAGE_CHANCE st / 0.6) st
  | INVENTORY_LIQUIDATION =>
      if activate then env_process liquidate_inventory_start st else st
  | KPI_MONITORING =>
      if activate then
        let st := set_CNC_FAILURE_CHANCE (CNC_FAILURE_CHANCE st * 0.85) st in
        set_QUALITY_ISSUE_CHANCE (QUALITY_ISSUE_CHANCE st * 0.85) st
      else
        let st := set_CNC_FAILURE_CHANCE (CNC_FAILURE_CHANCE st / 0.85) st in
        set_QUALITY_ISSUE_CHANCE (QUALITY_ISSUE_CHANCE st / 0.85) st
  | _ => st
  end.

Definition apply_strategy_effects (strategy : AdaptationStrategy.t)
    (activate : bool) (st : Factory) : Factory :=
  strategy_effect strategy activate (record_strategy_change strategy activate st).

(** [check_strategy_expiration] *)
Definition expired_strategies (st : Factory) : list AdaptationStrategy.t :=
  map fst
    (filter (fun kv => Qleb (snd kv) (env_now st) && is_active (fst kv) st)
       (strategy_expiration_times st)).

Definition expire (st : Factory) (strategy : AdaptationStrategy.t) : Factory :=
  let st := log LogLevel.STRATEGY "Expiration"
              "Strategy '{strategy.value}' has expired" st in
  let st := strategies_remove strategy st in
  apply_strategy_effects strategy false st.

Definition check_strategy_expiration (st : Factory) : Factory :=
  fold_left expire (expired_strategies st) st.

(** ** Methods that raise

    [Returns v st] is the value and the state at the [return] of a method,
    [Raises e st] the exception and the state at the [raise]: what the
    method has written by then stays written. *)
Inductive Outcome (A : Type) : Type :=
| Returns (value : A) (st : Factory)
| Raises (e : Exception) (st : Factory).

Arguments Returns {A} value st.
Arguments Raises {A} e st.

(** The state that a call leaves, whichever way it ends. *)
Definition outcome_state {A : Type} (r : Outcome A) : Factory :=
  match r with
  | Returns _ st => st
  | Raises _ st => st
  end.

(** [execute_one_time_strategy].  The method declares its globals in three
    [global] statements, and [CNC_FAILURE_CHANCE] is not among them; the
    EXPEDITE_MAINTENANCE branch assigns to that name, which makes it a local
    variable of the whole method.  When no machine is down the branch first
    reads it, and that read raises [UnboundLocalError]: the rest of the
    branch (the scaling of the failure chance, the reset of the sensor
    arrays and the process [restore_failure_chance]) is never run. *)
Definition execute_one_time_strategy (strategy : AdaptationStrategy.t)
    (st : Factory) : Outcome unit :=
  let st := log LogLevel.STRATEGY "Execution"
              "Executing one-time strategy: {strategy.value}" st in
  match strategy with
  | PURCHASE_CNC_MACHINE =>
      let st := set_NUM_CNC_MACHINES (NUM_CNC_MACHINES st + 1) st in
      let st := set_operational_cnc_machines (operational_cnc_machines st + 1) st in
      let '(new_cnc, st) := simpy_Resource (NUM_CNC_MACHINES st) st in
      let st := set_cnc_machines new_cnc st in
      let st := set_cnc_temperatures (cnc_temperatures st ++ [20.0]) st in
      let st := set_cnc_vibrations (cnc_vibrations st ++ [0.1]) st in
      Returns tt (log LogLevel.INFO "Equipment" "New CNC machine purchased and installed." st)
  | SELL_CNC_MACHINE =>
      if (NUM_CNC_MACHINES st >? 1)%Z then
        let st := set_NUM_CNC_MACHINES (NUM_CNC_MACHINES st - 1) st in
        let st := if (operational_cnc_machines st >? 0)%Z
                  then set_operational_cnc_machines (operational_cnc_machines st - 1) st
                  else st in
        let '(new_cnc, st) := simpy_Resource (NUM_CNC_MACHINES st) st in
        let st := set_cnc_machines new_cnc st in
        let st := if (0 <? List.length (cnc_temperatures st))%nat
                  then set_cnc_temperatures (list_pop (cnc_temperatures st)) st
                  else st in
        let st := if (0 <? List.length (cnc_vibrations st))%nat
                  then set_cnc_vibrations (list_pop (cnc_vibrations st)) st
                  else st in
        let sale_revenue := 75000 in
        let st := set_revenue (revenue st + sale_revenue) st in
        Returns tt (log LogLevel.INFO "Equipment" "CNC machine sold." st)
      else
        Returns tt (log LogLevel.WARNING "Equipment"
          "Cannot sell the last CNC machine. Sale cancelled." st)
  | HIRE_WORKERS =>
      let new_workers := 3%Z in
      let st := set_NUM_WORKERS (NUM_WORKERS st + new_workers) st in
      let st := set_available_workers (available_workers st + new_workers) st in
      let '(new_workers_resource, st) := simpy_Resource (NUM_WORKERS st) st in
      let st := set_workers new_workers_resource st in
      Returns tt (log LogLevel.INFO "Workforce" "Hired {new_workers} new workers." st)
  | REDUCE_WORKFORCE =>
      if (NUM_WORKERS st >? 3)%Z then
        let workers_to_layoff := Z.min 3 (NUM_WORKERS st - 3) in
        let st := set_NUM_WORKERS (NUM_WORKERS st - workers_to_layoff) st in
        let st := set_available_workers
                    (Z.min (available_workers st) (NUM_WORKERS st)) st in
        let '(new_workers_resource, st) := simpy_Resource (NUM_WORKERS st) st in
        let st := set_workers new_workers_resource st in
        Returns tt (log LogLevel.INFO "Workforce"
          "Reduced workforce by {workers_to_layoff} workers." st)
      else
        Returns tt (log LogLevel.WARNING "Workforce"
          "Cannot reduce workforce below minimum required staffing. Action cancelled." st)
  | EMERGENCY_MATERIALS =>
      let emergency_materials := 1000%Z in
      let st := set_raw_materials (raw_materials st + emergency_materials) st in
      Returns tt (log LogLevel.INFO "Inventory"
        "Emergency raw materials order arrived: +{emergency_materials} units" st)
  | UPGRADE_ASSEMBLY =>
      let factor := 0.7 in
      let st := set_ASSEMBLY_TIME (ASSEMBLY_TIME st * factor) st in
      let st := set_NUM_ASSEMBLY_STATIONS (NUM_ASSEMBLY_STATIONS st + 1) st in
      let '(new_assembly, st) := simpy_Resource (NUM_ASSEMBLY_STATIONS st) st in
      let st := set_assembly_stations new_assembly st in
      Returns tt (log LogLevel.INFO "Equipment" "Assembly stations upgraded" st)
  | INSTALL_BACKUP_GENERATOR =>
      let st := if power_outage st
                then log LogLevel.INFO "Infrastructure"
                       "Backup generator restored power to the facility"
                       (set_power_outage false st)
                else st in
      let old_chance := POWER_OUTAGE_CHANCE st in
      let st := set_POWER_OUTAGE_CHANCE (POWER_OUTAGE_CHANCE st * 0.1) st in
      let st := env_process (restore_power_risk_start old_chance) st in
      Returns tt (log LogLevel.INFO "Infrastructure"
        "Emergency backup generator installed for 24 hours." st)
  | EXPEDITE_MAINTENANCE =>
      if (operational_cnc_machines st <? NUM_CNC_MACHINES st)%Z then
        let st := set_operational_cnc_machines (NUM_CNC_MACHINES st) st in
        Returns tt (log LogLevel.INFO "Maintenance"
          "Emergency maintenance completed. {machines_repaired} CNC machines repaired." st)
      else
        (* old_failure_chance = CNC_FAILURE_CHANCE: the name is local to the
           method and has no value yet *)
        Raises UnboundLocalError st
  | BULK_ORDER_MATERIALS =>
      let st := env_process bulk_delivery_start st in
      Returns tt (log LogLevel.INFO "Inventory"
        "Placed bulk order for {bulk_order_size} raw material units." st)
  | CANCEL_PENDING_ORDERS =>
      if (backlog st >? 10)%Z then
        let cancellation_rate := 0.4 in
        let orders_to_cancel := py_int (#(backlog st) * cancellation_rate) in
        let st := set_backlog (backlog st - orders_to_cancel) st in
        let st := set_cancelled_orders (cancelled_orders st + orders_to_cancel) st in
        let cancellation_fee_rate := 0.15 in
        let cancellation_revenue :=
          #orders_to_cancel * 1500 * cancellation_fee_rate in
        let st := set_revenue (revenue st + cancellation_revenue) st in
        Returns tt (log LogLevel.INFO "Orders"
          "Cancelled {orders_to_cancel} pending orders, received ${cancellation_revenue} in fees" st)
      else
        Returns tt (log LogLevel.INFO "Orders"
          "Backlog too small to cancel orders effectively" st)
  | REALLOCATE_WORKERS =>
      let old_assembly_time := ASSEMBLY_TIME st in
      let old_cnc_time := CNC_PROCESSING_TIME st in
      let st := set_ASSEMBLY_TIME (ASSEMBLY_TIME st * 0.8) st in
      let st := set_CNC_PROCESSING_TIME (CNC_PROCESSING_TIME st * 0.8) st in
      let st := env_process
                  (restore_process_times_start old_assembly_time old_cnc_time) st in
      Returns tt (log LogLevel.INFO "Workforce"
        "Workers reallocated for optimal efficiency. Processing times reduced by 20% for 8 hours." st)
  | SCHEDULE_OVERTIME =>
      let old_assembly_time := ASSEMBLY_TIME st in
      let old_cnc_time := CNC_PROCESSING_TIME st in
      let st := set_ASSEMBLY_TIME (ASSEMBLY_TIME st * 0.67) st in
      let st := set_CNC_PROCESSING_TIME (CNC_PROCESSING_TIME st * 0.67) st in
      let st := env_process (end_overtime_start old_assembly_time old_cnc_time) st in
      Returns tt (log LogLevel.INFO "Workforce"
        "Weekend overtime shift scheduled. Processing times reduced by 33% for 24 hours." st)
  | _ => Returns tt st
  end.

(** The closures that [execute_one_time_strategy] starts as processes. *)
Definition restore_power_risk (old_chance : Q) (st : Factory) : Yield * Factory :=
  (Timeout (24 * 60) (restore_power_risk_wait old_chance), st).

Definition restore_power_risk_resume (old_chance : Q) (st : Factory) : Yield * Factory :=
  let st := set_POWER_OUTAGE_CHANCE old_chance st in
  (Return, log LogLevel.INFO "Infrastructure"
             "Temporary backup generator removed. Power outage risk returns to normal." st).

Definition bulk_order_size : Z := 2000.

Definition bulk_delivery (st : Factory) : Yield * Factory :=
  let first_batch := (bulk_order_size / 3)%Z in
  let st := set_raw_materials (raw_materials st + first_batch) st in
  let st := log LogLevel.INFO "Inventory"
              "First bulk materials batch arrived: +{first_batch} units" st in
  (Timeout (24 * 60) (bulk_delivery_second first_batch), st).

Definition bulk_delivery_resume_second (first_batch : Z) (st : Factory)
    : Yield * Factory :=
  let second_batch := (bulk_order_size / 3)%Z in
  let st := set_raw_materials (raw_materials st + second_batch) st in
  let st := log LogLevel.INFO "Inventory"
              "Second bulk materials batch arrived: +{second_batch} units" st in
  (Timeout (24 * 60) (bulk_delivery_third first_batch second_batch), st).

Definition bulk_delivery_resume_third (first_batch second_batch : Z)
    (st : Factory) : Yield * Factory :=
  let third_batch := (bulk_order_size - first_batch - second_batch)%Z in
  let st := set_raw_materials (raw_materials st + third_batch) st in
  (Return, log LogLevel.INFO "Inventory"
             "Final bulk materials batch arrived: +{third_batch} units" st).

Definition restore_process_times (old_assembly_time old_cnc_time : Q)
    (st : Factory) : Yield * Factory :=
  (Timeout (8 * 60) (restore_process_times_wait old_assembly_time old_cnc_time), st).

Definition restore_process_times_resume (old_assembly_time old_cnc_time : Q)
    (st : Factory) : Yield * Factory :=
  let st := set_ASSEMBLY_TIME old_assembly_time st in
  let st := set_CNC_PROCESSING_TIME old_cnc_time st in
  (Return, log LogLevel.INFO "Workforce"
             "Worker reallocation shift ended. Processing times return to normal." st).

Definition end_overtime (old_assembly_time old_cnc_time : Q) (st : Factory)
    : Yield * Factory :=
  (Timeout (24 * 60) (end_overtime_wait old_assembly_time old_cnc_time), st).

Definition end_overtime_resume (old_assembly_time old_cnc_time : Q)
    (st : Factory) : Yield * Factory :=
  let st := set_ASSEMBLY_TIME old_assembly_time st in
  let st := set_CNC_PROCESSING_TIME old_cnc_time st in
  (Return, log LogLevel.INFO "Workforce"
             "Overtime shift completed. Processing times return to normal." st).

(** The profit test that [modify_strategy] makes before charging a
    strategy; it only decides whether a warning is logged. *)
Definition warn_if_unaffordable (strategy : AdaptationStrategy.t)
    (st : Factory) : Factory :=
  let implementation_cost := StrategyCosts.IMPLEMENTATION strategy in
  let revenue_ := revenue st + liquidation_revenue st in
  let costs_ := costs st + inventory_holding_costs st + energy_costs st in
  let current_profit := revenue_ - costs_ in
  if Qltb (current_profit + 10000) (#implementation_cost)
  then log LogLevel.WARNING "Strategy"
         "WARNING: Strategy '{strategy.value}' costs more than current profit, but implementing anyway" st
  else st.

(** [modify_strategy(strategy_idx, activate, custom_duration=None)] *)
Definition modify_strategy (strategy_idx : Z) (activate : bool)
    (custom_duration : option Z) (st : Factory) : Outcome string :=
  let strategies := AdaptationStrategy.members in
  if ((0 <=? strategy_idx) && (strategy_idx <? Z.of_nat (List.length strategies)))%Z then
    match nth_error strategies (Z.to_nat strategy_idx) with
    | None => Returns "Invalid strategy index"%string st
    | Some strategy =>
        let is_one_time := ONE_TIME_STRATEGIES strategy in
        if activate then
          if is_one_time then
            let st := warn_if_unaffordable strategy st in
            let implementation_cost := StrategyCosts.IMPLEMENTATION strategy in
            let st := set_costs (costs st + #implementation_cost) st in
            match execute_one_time_strategy strategy st with
            | Raises e st => Raises e st
            | Returns _ st =>
                let st := set_strategy_changes_history
                            (strategy_changes_history st ++
                             [ (env_now st, strategy, "Executed (one-time)"%string) ]) st in
                Returns
                  ("One-time strategy executed: " ++ AdaptationStrategy.value strategy)%string
                  st
            end
          else if negb (is_active strategy st) then
            let st := warn_if_unaffordable strategy st in
            let st := strategies_add strategy st in
            let original_duration :=
              match custom_duration with
              | Some d => if (d >? 0)%Z then Some (DURATION_get strategy st) else None
              | None => None
              end in
            let st :=
              match custom_duration, original_duration with
              | Some d, Some _ =>
                  log LogLevel.INFO "Strategy"
                    "Using custom duration of {duration_days} days for strategy '{strategy.value}'"
                    (set_DURATION (dict_set AdaptationStrategy.eqb strategy d (DURATION st)) st)
              | _, _ => st
              end in
            let st := apply_strategy_effects strategy true st in
            let st :=
              match original_duration with
              | Some d0 =>
                  set_DURATION (dict_set AdaptationStrategy.eqb strategy d0 (DURATION st)) st
              | None => st
              end in
            Returns ("Strategy activated: " ++ AdaptationStrategy.value strategy)%string st
          else Returns "No change (strategy already active)"%string st
        else if negb is_one_time && is_active strategy st then
          let implementation_time :=
            env_now st -
            match dict_get AdaptationStrategy.eqb strategy
                    (strategy_implementation_dates st) with
            | Some t => t
            | None => 0
            end in
          let implementation_hours := implementation_time / 60 in
          let st := if Qltb implementation_hours 24
                    then log LogLevel.WARNING "Strategy"
                           "Strategy '{strategy.value}' deactivated after only {implementation_hours} hours" st
                    else st in
          let st := strategies_remove strategy st in
          let st := apply_strategy_effects strategy false st in
          Returns ("Strategy deactivated: " ++ AdaptationStrategy.value strategy)%string st
        else Returns "No change needed"%string st
    end
  else Returns "Invalid strategy index"%string st.

(** ** The accounting and monitoring processes *)

(** [publish_disruption]: the MQTT publishes aside, one log entry. *)
Definition publish_disruption (disruption_type : DisruptionType.t)
    (description : string) (st : Factory) : Factory :=
  log LogLevel.DISRUPTION (DisruptionType.value disruption_type) description st.

(** The dictionary appended to [self.disruptions_history]. *)
Definition record_disruption (disruption_type : DisruptionType.t)
    (description : string) (st : Factory) : Factory :=
  set_disruptions_history
    (disruptions_history st ++ [ (env_now st, disruption_type, description) ]) st.

(** [calculate_worker_costs], one turn of its loop. *)
Definition calculate_worker_costs (st : Factory) : Yield * Factory :=
  let daily_worker_hours := WORKER_SHIFT_HOURS * WORKER_SHIFTS_PER_DAY in
  let total_worker_hours := #(available_workers st) * daily_worker_hours in
  let daily_worker_cost :=
    total_worker_hours * WORKER_HOURLY_WAGE * WORKER_BENEFITS_FACTOR in
  let st := set_costs (costs st + daily_worker_cost) st in
  let st := set_worker_salary_costs (worker_salary_costs st + daily_worker_cost) st in
  let st := log LogLevel.INFO "Finance"
              "Applied daily worker costs: ${daily_worker_cost} for {self.available_workers} workers" st in
  (Timeout (24 * 60) calculate_worker_costs_wait, st).

(** [calculate_inventory_costs], one turn of its loop. *)
Definition calculate_inventory_costs (st : Factory) : Yield * Factory :=
  let raw_materials_cost :=
    #(raw_materials st) * RAW_MATERIAL_COST * INVENTORY_HOLDING_COST_RATE in
  let parts_cost :=
    #(parts_inventory st) * PARTS_VALUE * INVENTORY_HOLDING_COST_RATE in
  let finished_goods_cost :=
    #(finished_products st) * FINISHED_PRODUCT_VALUE * INVENTORY_HOLDING_COST_RATE in
  let daily_holding_cost := raw_materials_cost + parts_cost + finished_goods_cost in
  let st := set_inventory_holding_costs
              (inventory_holding_costs st + daily_holding_cost) st in
  (Timeout (24 * 60) calculate_inventory_costs_wait, st).

(** [calculate_energy_usage], one turn of its loop; of the sums it keeps,
    only [energy_costs] is read elsewhere. *)
Definition calculate_energy_usage (st : Factory) : Yield * Factory :=
  if power_outage st then (Timeout 60 calculate_energy_usage_wait, st)
  else
    let hourly_cnc_energy :=
      #(operational_cnc_machines st) * CNC_ENERGY_USAGE * (cnc_utilization st / 100) in
    let hourly_assembly_energy :=
      #(NUM_ASSEMBLY_STATIONS st) * ASSEMBLY_ENERGY_USAGE * (assembly_utilization st / 100) in
    let hourly_qc_energy :=
      #NUM_QC_STATIONS * QC_ENERGY_USAGE * (qc_utilization st / 100) in
    let hourly_facility_energy := FACILITY_BASE_ENERGY in
    let peak_hours :=
      Qleb (8 * 60) (Qmod (current_time st) (24 * 60)) &&
      Qleb (Qmod (current_time st) (24 * 60)) (17 * 60) in
    let '(hourly_cnc_energy, hourly_assembly_energy, hourly_qc_energy,
          hourly_facility_energy) :=
      if is_active PEAK_LOAD_OPTIMIZATION st then
        if peak_hours then
          let energy_reduction := 0.15 in
          (hourly_cnc_energy * (1 - energy_reduction),
           hourly_assembly_energy * (1 - energy_reduction),
           hourly_qc_energy * (1 - energy_reduction),
           hourly_facility_energy)
        else
          let energy_reduction := 0.05 in
          (hourly_cnc_energy, hourly_assembly_energy, hourly_qc_energy,
           hourly_facility_energy * (1 - energy_reduction))
      else (hourly_cnc_energy, hourly_assembly_energy, hourly_qc_energy,
            hourly_facility_energy) in
    let hourly_total_energy :=
      hourly_cnc_energy + hourly_assembly_energy + hourly_qc_energy +
      hourly_facility_energy in
    let st := set_energy_costs
                (energy_costs st + hourly_total_energy * ENERGY_COST_PER_KWH) st in
    (Timeout 60 calculate_energy_usage_wait, st).

(** [check_critical_conditions] *)
Definition check_critical_conditions (st : Factory) : Factory :=
  let st := if (raw_materials st <? 100)%Z
            then log LogLevel.WARNING "Inventory"
                   "Low raw materials: {self.raw_materials} units" st
            else st in
  let st := if Qltb (current_order_rate st * 5) (#(backlog st))
            then log LogLevel.WARNING "Production"
                   "High backlog: {self.backlog} orders waiting" st
            else st in
  let st :=
    if (24 <=? List.length (profit_history st))%nat then
      let recent_profits :=
        skipn (List.length (profit_history st) - 24) (profit_history st) in
      if forallb (fun p => Qltb p 0) recent_profits
      then log LogLevel.WARNING "Finance"
             "Negative profits for 24 consecutive hours" st
      else st
    else st in
  let st := if Qltb (#(operational_cnc_machines st)) (#(NUM_CNC_MACHINES st) / 2)
            then log LogLevel.WARNING "Equipment"
                   "Critical equipment shortage" st
            else st in
  if Qltb (#(available_workers st)) (#(NUM_WORKERS st) / 2)
  then log LogLevel.WARNING "Workforce" "Critical worker shortage" st
  else st.

(** [monitor_metrics], one turn of its loop.  Of [metrics_history] only the
    profit series is read back. *)
Definition monitor_metrics (st : Factory) : Yield * Factory :=
  let st := set_current_time (env_now st) st in
  let st := set_profit_history
              (profit_history st ++
               [ revenue st + liquidation_revenue st - costs st -
                 inventory_holding_costs st - energy_costs st ]) st in
  let active_cnc_ratio :=
    Qmin 1.0 (#(active_cnc_requests st) / #(Z.max 1 (operational_cnc_machines st))) in
  let st := set_cnc_utilization (active_cnc_ratio * 100) st in
  let assembly_utilization_ :=
    Qmin 1.0 (#(active_worker_requests st) / #(Z.max 1 (available_workers st))) in
  let st := set_assembly_utilization (assembly_utilization_ * 100) st in
  let qc_utilization_ :=
    Qmin 1.0 (#(active_qc_requests st) / #(Z.max 1 NUM_QC_STATIONS)) in
  let st := set_qc_utilization (qc_utilization_ * 100) st in
  let st :=
    if Qltb 0 (current_time st) && Qltb (Qmod (current_time st) (7 * 24 * 60)) 60 then
      if (strategy_weekly_costs st >? 0)%Z then
        let st := set_costs (costs st + #(strategy_weekly_costs st)) st in
        log LogLevel.INFO "Finance"
          "Applied weekly strategy maintenance costs: ${self.strategy_weekly_costs}" st
      else st
    else st in
  let st := check_critical_conditions st in
  let st := check_strategy_expiration st in
  (Timeout 60 monitor_metrics_loop, st).

(** ** Orders and raw materials *)

(** [order_raw_materials], up to its [yield]. *)
Definition order_raw_materials (st : Factory) : Yield * Factory :=
  let jit := is_active JUST_IN_TIME_REPLENISHMENT st in
  let order_amount := 500%Z in
  let '(order_amount, st) :=
    if jit then
      let backlog_demand := (backlog st * PARTS_PER_PRODUCT)%Z in
      let daily_part_demand := current_order_rate st * #PARTS_PER_PRODUCT in
      let safety_factor := 1.15 in
      let needed_parts :=
        #(Z.max 0 (backlog_demand - parts_inventory st)) + daily_part_demand * 5 in
      let needed_raw := needed_parts * safety_factor in
      let order_amount := Z.max 500 (Z.min 1000 (py_int needed_raw)) in
      (order_amount,
       log LogLevel.INFO "Inventory"
         "JIT system optimized order: {order_amount} raw materials based on demand analysis" st)
    else (order_amount, st) in
  let st := set_costs (costs st + #order_amount * RAW_MATERIAL_COST) st in
  let delivery_time := DELIVERY_TIME in
  let delivery_time := if jit then delivery_time * 0.7 else delivery_time in
  let delivery_time :=
    if supply_chain_disrupted st then delivery_time * 2 else delivery_time in
  (Timeout delivery_time (order_raw_materials_wait order_amount), st).

(** [order_raw_materials], after its [yield]. *)
Definition order_raw_materials_resume (order_amount : Z) (st : Factory)
    : Yield * Factory :=
  (Return, set_raw_materials (raw_materials st + order_amount) st).

(** [generate_orders], one turn of its loop; [variation] is
    [random.uniform(0.6, 1.4)]. *)
Definition generate_orders (variation : Q) (st : Factory) : Yield * Factory :=
  let st := set_daily_production 0 st in
  let daily_orders := py_int (current_order_rate st) in
  let daily_orders := py_int (#daily_orders * variation) in
  let st := set_total_orders (total_orders st + daily_orders) st in
  let st := set_backlog (backlog st + daily_orders) st in
  let st := process_backlog st in
  let st := if (raw_materials st <? 200)%Z && negb (supply_chain_disrupted st)
            then env_process order_raw_materials_start st
            else st in
  (Timeout (24 * 60) generate_orders_wait, st).

(** ** The disruption processes *)

(** [order_cancellation], up to its [yield]; [cancellation_rate] is
    [random.uniform(0.2, 0.5)] and [hours] is [random.randint(4, 12)]. *)
Definition order_cancellation (cancellation_rate : Q) (hours : Z)
    (st : Factory) : Yield * Factory :=
  if negb (order_cancellation_active st) && (backlog st >? 0)%Z then
    let description := "Customer cancelled significant portion of orders"%string in
    let st := record_disruption DisruptionType.ORDER_CANCELLATION description st in
    let st := publish_disruption DisruptionType.ORDER_CANCELLATION description st in
    let st := set_order_cancellation_active true st in
    let orders_to_cancel := py_int (#(backlog st) * cancellation_rate) in
    let '(orders_to_cancel, st) :=
      if is_active INVENTORY_LIQUIDATION st then
        let orders_to_cancel := py_int (#orders_to_cancel * 0.6) in
        let st := log LogLevel.INFO "Inventory"
                    "Rapid Inventory Liquidation reduced order cancellation impact" st in
        (orders_to_cancel, env_process liquidate_inventory_start st)
      else (orders_to_cancel, st) in
    let st := set_backlog (backlog st - orders_to_cancel) st in
    let st := set_cancelled_orders (cancelled_orders st + orders_to_cancel) st in
    let st := log LogLevel.WARNING "Orders"
                "Order Cancellation: {orders_to_cancel} orders cancelled" st in
    let cancellation_fee_rate := 0.1 in
    let cancellation_revenue := #orders_to_cancel * 1500 * cancellation_fee_rate in
    let st := set_revenue (revenue st + cancellation_revenue) st in
    let st := if Qltb 0 cancellation_revenue
              then log LogLevel.INFO "Finance"
                     "Received ${cancellation_revenue} in cancellation fees" st
              else st in
    let disruption_duration := #(hours * 60) in
    (Timeout disruption_duration order_cancellation_wait, st)
  else (Return, st).

(** [order_cancellation], after its [yield]. *)
Definition order_cancellation_resume (st : Factory) : Yield * Factory :=
  let st := set_order_cancellation_active false st in
  (Return, log LogLevel.INFO "Orders" "Order cancellation event ended" st).

(** [sum(self.repair_times)] *)
Definition Qsum (l : list Q) : Q := fold_left Qplus l 0.

(** [cnc_machine_failure], up to its [yield]; [hours] is
    [random.randint(8, 36)]. *)
Definition cnc_machine_failure (hours : Z) (st : Factory) : Yield * Factory :=
  if (operational_cnc_machines st >? 0)%Z then
    let description := "A CNC machine has broken down"%string in
    let st := record_disruption DisruptionType.CNC_FAILURE description st in
    let st := publish_disruption DisruptionType.CNC_FAILURE description st in
    let st := set_maintenance_events (maintenance_events st + 1) st in
    let st :=
      if Qltb 0 (last_failure_time st) then
        let time_between_failures := env_now st - last_failure_time st in
        if (maintenance_events st >? 1)%Z
        then set_mtbf ((mtbf st * #(maintenance_events st - 1) + time_between_failures)
                       / #(maintenance_events st)) st
        else set_mtbf time_between_failures st
      else st in
    let st := set_last_failure_time (env_now st) st in
    let st := set_operational_cnc_machines (operational_cnc_machines st - 1) st in
    let repair_time := #(hours * 60) in
    let repair_cost_base := 5000 in
    let '(repair_time, st) :=
      if is_active MODULAR_REPAIR_KITS st
      then (repair_time * 0.6,
            log LogLevel.INFO "Maintenance" "Modular repair kits enabled faster repairs" st)
      else (repair_time, st) in
    let '(repair_time, repair_cost_base, st) :=
      if is_active KPI_MONITORING st
      then (repair_time * 0.85, repair_cost_base * 0.9,
            log LogLevel.INFO "Maintenance"
              "Real-time KPI monitoring enabled early issue detection" st)
      else (repair_time, repair_cost_base, st) in
    let hourly_rate := 250 in
    let repair_cost := repair_cost_base + (repair_time / 60) * hourly_rate in
    let st := set_costs (costs st + repair_cost) st in
    let st := log LogLevel.INFO "Maintenance"
                "CNC repair will take {repair_time/60} hours and cost ${repair_cost}" st in
    let st := set_total_downtime (total_downtime st + repair_time) st in
    let st := set_repair_times (repair_times st ++ [repair_time]) st in
    let st := set_mttr (Qsum (repair_times st) / #(Z.of_nat (List.length (repair_times st)))) st in
    (Timeout repair_time cnc_machine_failure_wait, st)
  else (Return, st).

(** [cnc_machine_failure], after its [yield]. *)
Definition cnc_machine_failure_resume (st : Factory) : Yield * Factory :=
  let st := set_operational_cnc_machines (operational_cnc_machines st + 1) st in
  (Return, log LogLevel.INFO "Maintenance"
             "CNC machine repair completed and returned to service" st).

(** [order_spike], up to its [yield]; [spike_multiplier] is
    [random.uniform(2.0, 4.0)] and [days] is [random.randint(1, 3)]. *)
Definition order_spike (spike_multiplier : Q) (days : Z) (st : Factory)
    : Yield * Factory :=
  let description := "Received a sudden surge in orders"%string in
  let st := record_disruption DisruptionType.ORDER_SPIKE description st in
  let st := publish_disruption DisruptionType.ORDER_SPIKE description st in
  let original_rate := current_order_rate st in
  let st := set_current_order_rate (original_rate * spike_multiplier) st in
  let spike_duration := #(days * 24 * 60) in
  let additional_orders :=
    py_int ((current_order_rate st - original_rate) * (spike_duration / (24 * 60))) in
  let st := log LogLevel.INFO "Orders"
              "Order spike: {additional_orders} additional orders" st in
  let st :=
    if is_active OUTSOURCING st then
      let outsourced_orders := py_int (#additional_orders * 0.6) in
      let st := set_fulfilled_orders (fulfilled_orders st + outsourced_orders) st in
      let outsource_revenue := (outsourced_orders * 1500)%Z in
      let outsource_cost := (outsourced_orders * 1200)%Z in
      let st := set_revenue (revenue st + #outsource_revenue) st in
      let st := set_costs (costs st + #outsource_cost) st in
      log LogLevel.INFO "Production"
        "Outsourced {outsourced_orders} orders" st
    else st in
  if is_active OVERTIME_POLICY st then
    let overtime_factor := 1.3 in
    let old_assembly_time := ASSEMBLY_TIME st in
    let old_cnc_time := CNC_PROCESSING_TIME st in
    let st := set_ASSEMBLY_TIME (ASSEMBLY_TIME st / overtime_factor) st in
    let st := set_CNC_PROCESSING_TIME (CNC_PROCESSING_TIME st / overtime_factor) st in
    let overtime_hours := spike_duration / 60 in
    let overtime_workers :=
      Z.min (NUM_WORKERS st) (NUM_CNC_MACHINES st + NUM_ASSEMBLY_STATIONS st) in
    let overtime_rate := 50 in
    let overtime_cost := overtime_hours * #overtime_workers * overtime_rate * 0.5 in
    let st := set_costs (costs st + overtime_cost) st in
    let st := log LogLevel.INFO "Workforce"
                "Implemented overtime policy at cost of ${overtime_cost}" st in
    (Timeout spike_duration
       (order_spike_wait original_rate (Some (old_assembly_time, old_cnc_time))), st)
  else
    (Timeout spike_duration (order_spike_wait original_rate None), st).

(** [order_spike], after its [yield] (either branch). *)
Definition order_spike_resume (original_rate : Q) (old_times : option (Q * Q))
    (st : Factory) : Yield * Factory :=
  let st :=
    match old_times with
    | Some (old_assembly_time, old_cnc_time) =>
        set_CNC_PROCESSING_TIME old_cnc_time (set_ASSEMBLY_TIME old_assembly_time st)
    | None => st
    end in
  let st := set_current_order_rate original_rate st in
  (Return, log LogLevel.INFO "Orders" "Order rate returned to normal" st).

(** [supply_chain_disruption], up to its [yield]; [days] is
    [random.randint(2, 7)]. *)
Definition supply_chain_disruption (days : Z) (st : Factory) : Yield * Factory :=
  if negb (supply_chain_disrupted st) then
    let description :=
      "Supply chain disruption affecting raw material delivery"%string in
    let st := record_disruption DisruptionType.SUPPLY_CHAIN description st in
    let st := publish_disruption DisruptionType.SUPPLY_CHAIN description st in
    let st := set_supply_chain_disrupted true st in
    let disruption_duration := #(days * 24 * 60) in
    let disruption_duration :=
      if is_active SUPPLIER_DIVERSIFICATION st
      then disruption_duration * 0.5 else disruption_duration in
    (Timeout disruption_duration supply_chain_disruption_wait, st)
  else (Return, st).

(** [supply_chain_disruption], after its [yield]. *)
Definition supply_chain_disruption_resume (st : Factory) : Yield * Factory :=
  (Return, set_supply_chain_disrupted false st).

(** [worker_absence(max_absent)], up to its [yield]; [drawn] is
    [random.randint(1, max_absent)] and [days] is [random.randint(1, 3)]. *)
Definition worker_absence (max_absent : Z) (drawn days : Z) (st : Factory)
    : Yield * Factory :=
  let num_absent := drawn in
  let num_absent := Z.min num_absent (available_workers st) in
  if (num_absent >? 0)%Z then
    let description := "{num_absent} workers absent"%string in
    let st := record_disruption DisruptionType.WORKER_ABSENCE description st in
    let st := publish_disruption DisruptionType.WORKER_ABSENCE description st in
    let st := set_available_workers (available_workers st - num_absent) st in
    let absence_duration := #(days * 24 * 60) in
    let st :=
      if is_active OVERTIME_POLICY st then
        let effective_absent := #num_absent * 0.6 in
        set_costs (costs st + absence_duration / 60 * effective_absent * 30) st
      else st in
    (Timeout absence_duration (worker_absence_wait num_absent), st)
  else (Return, st).

(** [worker_absence], after its [yield]. *)
Definition worker_absence_resume (num_absent : Z) (st : Factory) : Yield * Factory :=
  (Return, set_available_workers (available_workers st + num_absent) st).

(** [quality_control_issue(duration)], up to its [yield]. *)
Definition quality_control_issue (duration : Q) (st : Factory) : Yield * Factory :=
  if negb (has_quality_issue st) then
    let description := "Quality control issue detected in production"%string in
    let st := record_disruption DisruptionType.QUALITY_ISSUE description st in
    let st := publish_disruption DisruptionType.QUALITY_ISSUE description st in
    let st := set_has_quality_issue true st in
    let defective_rate := 0.4 in
    let defective_rate :=
      if is_active QUALITY_MONITORING st then 0.15 else defective_rate in
    let defective_products := py_int (#(finished_products st) * defective_rate) in
    let st := set_finished_products (finished_products st - defective_products) st in
    let st := set_defect_rate defective_rate st in
    let st := set_defects_found (defects_found st + defective_products) st in
    let st := set_costs (costs st + #(defective_products * 300)) st in
    (Timeout duration quality_control_issue_wait, st)
  else (Return, st).

(** [quality_control_issue], after its [yield]. *)
Definition quality_control_issue_resume (st : Factory) : Yield * Factory :=
  let st := set_has_quality_issue false st in
  (Return, set_defect_rate 0.02 st).

(** [power_outage_event], up to its [yield]; [minutes] is
    [random.randint(45, 360)]. *)
Definition power_outage_event (minutes : Z) (st : Factory) : Yield * Factory :=
  if negb (power_outage st) then
    let description := "Power outage affecting entire factory"%string in
    let st := record_disruption DisruptionType.POWER_OUTAGE description st in
    let st := publish_disruption DisruptionType.POWER_OUTAGE description st in
    let st := set_power_outage true st in
    let outage_duration := #minutes in
    let hourly_production_rate := current_order_rate st / 24 in
    let estimated_lost_production := hourly_production_rate * (outage_duration / 60) in
    let '(outage_duration, st) :=
      if is_active PEAK_LOAD_OPTIMIZATION st
      then (outage_duration * 0.6,
            log LogLevel.INFO "Power" "Peak load optimization reduced outage" st)
      else (outage_duration, st) in
    let restart_cost := 5000 in
    let lost_production_cost := estimated_lost_production * FINISHED_PRODUCT_VALUE in
    let equipment_stress_cost := 250 * #(operational_cnc_machines st) in
    let total_outage_cost :=
      restart_cost + lost_production_cost + equipment_stress_cost in
    let st := set_costs (costs st + total_outage_cost) st in
    let st := log LogLevel.WARNING "Power"
                "Power outage will last {outage_duration} minutes" st in
    let st := set_total_downtime (total_downtime st + outage_duration) st in
    (Timeout outage_duration power_outage_event_wait, st)
  else (Return, st).

(** [power_outage_event], after its [yield]. *)
Definition power_outage_event_resume (st : Factory) : Yield * Factory :=
  let st := set_power_outage false st in
  (Return, log LogLevel.INFO "Power"
             "Power has been restored, restarting production" st).

(** The seven draws of one turn of [generate_disruptions], and the two that
    the [and] of a strategy test makes only when the test gets that far. *)
Record DisruptionDraws : Type := mkDisruptionDraws {
  draw_cnc_failure : Q;
  draw_failure_prevented : Q;
  draw_order_spike : Q;
  draw_supply_chain : Q;
  draw_supply_avoided : Q;
  draw_worker_absence : Q;
  draw_quality_issue : Q;
  draw_power_outage : Q;
  draw_order_cancellation : Q
}.

(** [generate_disruptions], one turn of its loop. *)
Definition generate_disruptions (d : DisruptionDraws) (st : Factory)
    : Yield * Factory :=
  (* 1. CNC Machine Failure *)
  let st :=
    if Qltb (draw_cnc_failure d) (CNC_FAILURE_CHANCE st / 4) then
      if is_active PREVENTIVE_MAINTENANCE st && Qltb (draw_failure_prevented d) 0.7
      then st
      else env_process cnc_machine_failure_start st
    else st in
  (* 2. Sudden Order Spike *)
  let st :=
    if Qltb (draw_order_spike d) (SUDDEN_ORDER_SPIKE_CHANCE / 4)
    then env_process order_spike_start st
    else st in
  (* 3. Supply Chain Issue *)
  let st :=
    if Qltb (draw_supply_chain d) (SUPPLY_CHAIN_ISSUE_CHANCE st / 4) then
      if is_active SUPPLIER_DIVERSIFICATION st && Qltb (draw_supply_avoided d) 0.8
      then st
      else env_process supply_chain_disruption_start st
    else st in
  (* 4. Worker Absence *)
  let st :=
    if Qltb (draw_worker_absence d) (WORKER_ABSENCE_CHANCE / 4) then
      if is_active FLEXIBLE_WORKFORCE st
      then env_process (worker_absence_start 1) st
      else env_process (worker_absence_start 3) st
    else st in
  (* 5. Quality Issue *)
  let st :=
    if Qltb (draw_quality_issue d) (QUALITY_ISSUE_CHANCE st / 4) then
      if is_active QUALITY_MONITORING st
      then env_process (quality_control_issue_start (4 * 60)) st
      else env_process (quality_control_issue_start (12 * 60)) st
    else st in
  (* 6. Power Outage *)
  let st :=
    if Qltb (draw_power_outage d) (POWER_OUTAGE_CHANCE st / 4)
    then env_process power_outage_event_start st
    else st in
  (* 7. Order Cancellation *)
  let st :=
    if Qltb (draw_order_cancellation d) (ORDER_CANCELLATION_CHANCE / 4)
    then env_process order_cancellation_start st
    else st in
  (Timeout (6 * 60) generate_disruptions_wait, st).

(** ** The production pipeline *)

(** [produce_parts], from the top of its loop to the next [yield]. *)
Definition produce_parts (st : Factory) : Yield * Factory :=
  if power_outage st then (Timeout 10 produce_parts_loop, st)
  else if (raw_materials st <=? 0)%Z || (operational_cnc_machines st <=? 0)%Z
          || (available_workers st <=? 0)%Z
  then (Timeout 10 produce_parts_loop, st)
  else
    let '(cnc_req, st) := request (cnc_machines st) st in
    (Await (produce_parts_cnc cnc_req), st).

(** [produce_parts], resumed with the CNC machine. *)
Definition produce_parts_got_cnc (cnc_req : Request) (st : Factory)
    : Yield * Factory :=
  let '(worker_req, st) := request (workers st) st in
  (Await (produce_parts_worker cnc_req worker_req), st).

(** [produce_parts], resumed with the worker. *)
Definition produce_parts_got_worker (cnc_req worker_req : Request)
    (st : Factory) : Yield * Factory :=
  let st := set_active_cnc_requests (active_cnc_requests st + 1) st in
  let st := set_active_worker_requests (active_worker_requests st + 1) st in
  let batch_size := Z.min 15 (raw_materials st) in
  if (batch_size <=? 0)%Z then
    let st := set_active_cnc_requests (active_cnc_requests st - 1) st in
    let st := set_active_worker_requests (active_worker_requests st - 1) st in
    (* continue: both with blocks are left, then the loop starts over *)
    let st := release worker_req st in
    let st := release cnc_req st in
    produce_parts st
  else
    let st := set_raw_materials (raw_materials st - batch_size) st in
    let process_time := CNC_PROCESSING_TIME st * #batch_size in
    let process_time :=
      if is_active LEAN_MANUFACTURING st then process_time * 0.8 else process_time in
    (Timeout process_time (produce_parts_run cnc_req worker_req batch_size), st).

(** [produce_parts], resumed when production is complete. *)
Definition produce_parts_done (cnc_req worker_req : Request) (batch_size : Z)
    (st : Factory) : Yield * Factory :=
  let st := set_parts_inventory (parts_inventory st + batch_size) st in
  let st := set_costs (costs st + #(batch_size * 30)) st in
  let st := set_active_cnc_requests (active_cnc_requests st - 1) st in
  let st := set_active_worker_requests (active_worker_requests st - 1) st in
  let st := release worker_req st in
  let st := release cnc_req st in
  produce_parts st.

(** [assemble_products], from the top of its loop to the next [yield]. *)
Definition assemble_products (st : Factory) : Yield * Factory :=
  if power_outage st then (Timeout 10 assemble_products_loop, st)
  else if (parts_inventory st <? PARTS_PER_PRODUCT)%Z || (available_workers st <=? 0)%Z
  then (Timeout 60 assemble_products_loop, st)
  else
    let st := set_active_worker_requests (active_worker_requests st + 1) st in
    if (active_worker_requests st >? available_workers st)%Z then
      let st := set_active_worker_requests (active_worker_requests st - 1) st in
      (Timeout 60 assemble_products_loop, st)
    else
      let '(assembly_req, st) := request (assembly_stations st) st in
      let '(worker_req, st) := request (workers st) st in
      (Await (assemble_products_both assembly_req worker_req), st).

(** [assemble_products], resumed with both requests granted. *)
Definition assemble_products_got_both (assembly_req worker_req : Request)
    (st : Factory) : Yield * Factory :=
  let max_products := (parts_inventory st / PARTS_PER_PRODUCT)%Z in
  let batch_size := Z.min 5 max_products in
  let st := set_parts_inventory (parts_inventory st - batch_size * PARTS_PER_PRODUCT) st in
  let assembly_time := ASSEMBLY_TIME st * #batch_size in
  let assembly_time :=
    if is_active LEAN_MANUFACTURING st then assembly_time * 0.8 else assembly_time in
  (Timeout assembly_time (assemble_products_run assembly_req worker_req batch_size), st).

(** [assemble_products], resumed when assembly is complete; [r] is the
    [random.random()] that the test of [has_quality_issue] may call. *)
Definition assemble_products_done (assembly_req worker_req : Request)
    (batch_size : Z) (r : Q) (st : Factory) : Yield * Factory :=
  let assembled_products :=
    if has_quality_issue st && Qltb r 0.3
    then py_int (#batch_size * 0.7)
    else batch_size in
  let st := set_costs (costs st + #(batch_size * 50)) st in
  let st := fold_left (fun (st : Factory) (_ : nat) => env_process product_to_qc_start st)
              (seq 0 (Z.to_nat assembled_products)) st in
  let st := set_active_worker_requests (active_worker_requests st - 1) st in
  let st := release worker_req st in
  let st := release assembly_req st in
  assemble_products st.

(** [product_to_qc], up to its first [yield]. *)
Definition product_to_qc (st : Factory) : Yield * Factory :=
  if power_outage st then (Timeout 10 product_to_qc_outage, st)
  else
    let st := set_active_qc_requests (active_qc_requests st + 1) st in
    let '(qc_req, st) := request (qc_stations st) st in
    let '(worker_req, st) := request (workers st) st in
    (Await (product_to_qc_both qc_req worker_req), st).

(** [product_to_qc], resumed with both requests granted. *)
Definition product_to_qc_got_both (qc_req worker_req : Request) (st : Factory)
    : Yield * Factory :=
  let inspection_time := QC_INSPECTION_TIME in
  (Timeout inspection_time (product_to_qc_inspect qc_req worker_req), st).

(** The classification of one unit: [r1] and [r2] are the two
    [random.random()] calls; the result tells whether a defect was
    reported. *)
Definition inspect (r1 r2 : Q) (st : Factory) : bool * Factory :=
  let st := set_total_inspected (total_inspected st + 1) st in
  let is_defective := Qltb r1 (defect_rate st) in
  if is_defective then
    let detection_chance :=
      if is_active QUALITY_MONITORING st then 0.98 else 0.9 in
    if Qltb r2 detection_chance
    then (true, set_defects_found (defects_found st + 1) st)
    else (false, set_false_negatives (false_negatives st + 1) st)
  else
    let false_positive_chance :=
      if is_active QUALITY_MONITORING st then 0.02 else 0.05 in
    if Qltb r2 false_positive_chance
    then (true, set_false_positives (false_positives st + 1) st)
    else (false, st).

(** [product_to_qc], resumed when the inspection time has passed. *)
Definition product_to_qc_done (qc_req worker_req : Request) (r1 r2 : Q)
    (st : Factory) : Yield * Factory :=
  let '(defect_detected, st) := inspect r1 r2 st in
  let st := if negb defect_detected
            then set_finished_products (finished_products st + 1) st
            else st in
  let st := set_active_qc_requests (active_qc_requests st - 1) st in
  let st := process_backlog st in
  let st := release worker_req st in
  let st := release qc_req st in
  (Return, st).

(** ** Command ingress (the MQTT callbacks)

    A message is a topic and a payload.  [json.loads] is a library call: the
    handlers are given its result, a JSON value, or [None] when it raised.
    A number without fraction or exponent is an [int]; any other number,
    [Infinity] and [NaN] included, is a binary64 [float].  Payload bytes are
    taken to be valid UTF-8. *)

#[local] Set Warnings "-register-all".
Inductive json : Type :=
| JNull
| JBool (b : bool)
| JInt (n : Z)
| JFloat (x : float)
| JString (s : string)
| JArray (items : list json)
| JObject (members : list (string * json)).

(** [payload[key]] on the dict of a JSON object: the last of several equal
    keys wins. *)
Definition json_get (key : string) (members : list (string * json)) : option json :=
  dict_get String.eqb key (rev members).

Definition is_JString (key : string) (v : json) : bool :=
  match v with JString s => String.eqb s key | _ => false end.

(** [sub in s] on strings. *)
Definition contains (sub s : string) : bool :=
  match String.index 0 sub s with Some _ => true | None => false end.

(** [key in payload]; [None] when Python raises [TypeError]. *)
Definition py_in (key : string) (payload : json) : option bool :=
  match payload with
  | JObject members =>
      Some (match json_get key members with Some _ => true | None => false end)
  | JArray items => Some (existsb (is_JString key) items)
  | JString s => Some (contains key s)
  | JNull | JBool _ | JInt _ | JFloat _ => None
  end.

(** [payload[key]] for a string key; [None] when Python raises
    ([TypeError] on lists and strings, [KeyError] on a dict without the
    key). *)
Definition py_getitem (payload : json) (key : string) : option json :=
  match payload with
  | JObject members => json_get key members
  | _ => None
  end.

(** [float(n)] on an [int]: the nearest binary64 value, ties to even;
    [OverflowError] when it is out of range. *)
Definition float_of_int (n : Z) : Try float :=
  match binary_normalize prec emax n 0 false with
  | S754_infinity _ => Except OverflowError
  | x => Value (SF2Prim x)
  end.

(** [float(v)].  [py_float_str] is [float] on a [str], [None] when the
    text is not a number ([ValueError]). *)
Definition py_float (py_float_str : string -> option float) (v : json) : Try float :=
  match v with
  | JFloat x => Value x
  | JInt n => float_of_int n
  | JBool b => Value (if b then 1 else 0)%float
  | JString s =>
      match py_float_str s with
      | Some x => Value x
      | None => Except ValueError
      end
  | JNull | JArray _ | JObject _ => Except TypeError
  end.

(** [int(x)] on a [float]: truncation toward zero; [OverflowError] on an
    infinity and [ValueError] on NaN. *)
Definition int_of_float (x : float) : Try Z :=
  match Prim2SF x with
  | S754_zero _ => Value 0%Z
  | S754_finite s m e =>
      let a := (if (0 <=? e)%Z then Z.pos m * 2 ^ e else Z.pos m / 2 ^ (- e))%Z in
      Value (if s then (- a)%Z else a)
  | S754_infinity _ => Except OverflowError
  | S754_nan => Except ValueError
  end.

(** [days = float(v); int(days * 24 * 60)], in binary64. *)
Definition duration_minutes (py_float_str : string -> option float) (v : json)
    : Try Z :=
  match py_float py_float_str v with
  | Value days => int_of_float (days * 24 * 60)%float
  | Except e => Except e
  end.

(** [s.lower()] on ASCII letters. *)
Definition lower_ascii (c : ascii) : ascii :=
  let n := nat_of_ascii c in
  if ((65 <=? n) && (n <=? 90))%nat then ascii_of_nat (n + 32) else c.

Fixpoint lower (s : string) : string :=
  match s with
  | EmptyString => EmptyString
  | String c s' => String (lower_ascii c) (lower s')
  end.

(** [topic.split('/')[-1]] *)
Fixpoint last_segment_from (acc s : string) : string :=
  match s with
  | EmptyString => acc
  | String c s' =>
      if Ascii.eqb c "/"%char
      then last_segment_from EmptyString s'
      else last_segment_from (acc ++ String c EmptyString)%string s'
  end.

Definition last_segment (topic : string) : string :=
  last_segment_from EmptyString topic.

(** [[s for s in AdaptationStrategy if s.name == strategy_name]] *)
Definition matching_strategies (strategy_name : string) : list AdaptationStrategy.t :=
  filter (fun s => String.eqb (AdaptationStrategy.name s) strategy_name)
    AdaptationStrategy.members.

(** [list(AdaptationStrategy).index(strategy)] *)
Fixpoint index_in (s : AdaptationStrategy.t) (l : list AdaptationStrategy.t) : Z :=
  match l with
  | [] => 0
  | x :: l' => if AdaptationStrategy.eqb x s then 0 else (1 + index_in s l')%Z
  end.

Definition strategy_index (s : AdaptationStrategy.t) : Z :=
  index_in s AdaptationStrategy.members.

(** [handle_simulation_command] *)
Definition handle_simulation_command (payload : json) (st : Factory) : Factory :=
  let raised :=
    log LogLevel.ERROR "Simulation" "Error processing simulation command: {e}" st in
  match py_in "command" payload with
  | None => raised
  | Some true =>
      match py_getitem payload "command" with
      | None => raised
      | Some (JString s) =>
          let command := lower s in
          if String.eqb command "pause" then
            log LogLevel.INFO "Simulation" "Simulation paused via MQTT command"
              (set_paused true st)
          else if String.eqb command "resume" then
            log LogLevel.INFO "Simulation" "Simulation resumed via MQTT command"
              (set_paused false st)
          else if String.eqb command "stop" then
            (* self.mqtt_client.loop_stop(); sys.exit(0) *)
            set_mqtt_loop false
              (log LogLevel.INFO "Simulation"
                 "Simulation stop requested via MQTT command" st)
          else
            log LogLevel.WARNING "Simulation" "Unknown simulation command: {command}" st
      | Some _ =>
          (* str() of null, a boolean, a number, a list or a dict is none of
             the three command words *)
          log LogLevel.WARNING "Simulation" "Unknown simulation command: {command}" st
      end
  | Some false =>
      log LogLevel.ERROR "Simulation"
        "Missing 'command' field in simulation command payload" st
  end.

(** [handle_direct_strategy_command].  The inner [try] catches the
    [ValueError] and [TypeError] of the duration; every other exception,
    the one of the duration or one out of [modify_strategy], ends in the
    outer [except Exception], which logs an error on the state as it is
    then. *)
Definition handle_direct_strategy_command (py_float_str : string -> option float)
    (topic : string) (payload : json) (st : Factory) : Factory :=
  let strategy_name := last_segment topic in
  let raised (st : Factory) :=
    log LogLevel.ERROR "Strategy" "Error processing direct strategy command: {e}" st in
  let invalid :=
    log LogLevel.WARNING "Strategy"
      "Missing or invalid 'trigger' field in strategy command: {payload}" st in
  let unknown :=
    log LogLevel.ERROR "Strategy" "Unknown strategy name in topic: {strategy_name}" st in
  match py_in "trigger" payload with
  | None => raised st
  | Some false => invalid
  | Some true =>
      match py_getitem payload "trigger" with
      | None => raised st
      | Some (JBool true) =>
          match matching_strategies strategy_name with
          | strategy :: _ =>
              let strategy_idx := strategy_index strategy in
              let activate (custom_duration : option Z) (st : Factory) :=
                match modify_strategy strategy_idx true custom_duration st with
                | Returns result st =>
                    log LogLevel.STRATEGY "Command"
                      ("Strategy {strategy.name} activated via direct command: " ++ result)
                      st
                | Raises _ st => raised st
                end in
              match py_getitem payload "duration" with
              | Some v =>
                  match duration_minutes py_float_str v with
                  | Value minutes => activate (Some minutes) st
                  | Except ValueError | Except TypeError =>
                      activate None
                        (log LogLevel.WARNING "Strategy"
                           "Invalid duration value: {payload['duration']}. Using default duration." st)
                  | Except _ => raised st
                  end
              | None => activate None st
              end
          | [] => unknown
          end
      | Some (JBool false) =>
          match matching_strategies strategy_name with
          | strategy :: _ =>
              let strategy_idx := strategy_index strategy in
              match modify_strategy strategy_idx false None st with
              | Returns result st =>
                  log LogLevel.STRATEGY "Command"
                    ("Strategy {strategy.name} deactivated via direct command: " ++ result)
                    st
              | Raises _ st => raised st
              end
          | [] => unknown
          end
      | Some _ => invalid
      end
  end.

(** [on_mqtt_message]; [payload] is the result of [json.loads], [None] when
    it raised: the message is printed to the console and nothing else
    happens.  The method [handle_strategy_command] that the first branch
    calls is not defined anywhere in the class: the call raises
    [AttributeError], which the enclosing [except Exception] prints to the
    console. *)
Definition on_mqtt_message (py_float_str : string -> option float)
    (topic : string) (payload : option json) (st : Factory) : Factory :=
  match payload with
  | None => st
  | Some payload =>
      if String.eqb topic MQTTTopics.STRATEGY_COMMAND then st
      else if String.eqb topic MQTTTopics.SIMULATION_COMMAND
      then handle_simulation_command payload st
      else if String.prefix "factory/command/" topic
      then handle_direct_strategy_command py_float_str topic payload st
      else st
  end.

(** ** The scheduler

    simpy keeps the pending events ordered by time; [env.run] pops the
    earliest, sets [env.now] to its time and resumes the process that waits
    for it.  A granted request is an event at the current time.  The
    embedding resumes any one process whose wait is over: among several
    events with the same time it admits every order, of which simpy's
    (priority, then insertion order) is one. *)

(** The value of one call to the [random] module. *)
Inductive Draw : Type :=
| random_random (r : Q)      (* random.random(), in [0, 1) *)
| random_uniform (u : Q)     (* random.uniform(a, b), in [a, b] *)
| random_randint (n : Z).    (* random.randint(a, b), in a..b *)

Definition in_unit (r : Q) : bool := Qleb 0 r && Qltb r 1.
Definition within (a b x : Q) : bool := Qleb a x && Qleb x b.
Definition withinZ (a b n : Z) : bool := ((a <=? n) && (n <=? b))%Z.

Definition valid_disruption_draws (d : DisruptionDraws) : bool :=
  in_unit (draw_cnc_failure d) && in_unit (draw_failure_prevented d) &&
  in_unit (draw_order_spike d) && in_unit (draw_supply_chain d) &&
  in_unit (draw_supply_avoided d) && in_unit (draw_worker_absence d) &&
  in_unit (draw_quality_issue d) && in_unit (draw_power_outage d) &&
  in_unit (draw_order_cancellation d).

Definition guard {A : Type} (b : bool) (x : A) : option A :=
  if b then Some x else None.

(** Resuming a suspended generator: the piece of code that follows its
    [yield], given the values of the [random] calls that piece makes.
    [None] when the draws are not ones the calls can return. *)
Definition resume (k : Cont) (draws : list Draw) (st : Factory)
    : option (Yield * Factory) :=
  match k, draws with
  | produce_parts_loop, [] => Some (produce_parts st)
  | produce_parts_cnc c, [] => Some (produce_parts_got_cnc c st)
  | produce_parts_worker c w, [] => Some (produce_parts_got_worker c w st)
  | produce_parts_run c w b, [] => Some (produce_parts_done c w b st)
  | assemble_products_loop, [] => Some (assemble_products st)
  | assemble_products_both a w, [] => Some (assemble_products_got_both a w st)
  | assemble_products_run a w b, [random_random r] =>
      guard (in_unit r) (assemble_products_done a w b r st)
  | product_to_qc_start, [] => Some (product_to_qc st)
  | product_to_qc_outage, [] => Some (Return, st)
  | product_to_qc_both q w, [] => Some (product_to_qc_got_both q w st)
  | product_to_qc_inspect q w, [random_random r1; random_random r2] =>
      guard (in_unit r1 && in_unit r2) (product_to_qc_done q w r1 r2 st)
  | order_cancellation_start, [random_uniform u; random_randint n] =>
      guard (within 0.2 0.5 u && withinZ 4 12 n) (order_cancellation u n st)
  | order_cancellation_wait, [] => Some (order_cancellation_resume st)
  | cnc_machine_failure_start, [random_randint n] =>
      guard (withinZ 8 36 n) (cnc_machine_failure n st)
  | cnc_machine_failure_wait, [] => Some (cnc_machine_failure_resume st)
  | order_spike_start, [random_uniform u; random_randint n] =>
      guard (within 2.0 4.0 u && withinZ 1 3 n) (order_spike u n st)
  | order_spike_wait r o, [] => Some (order_spike_resume r o st)
  | supply_chain_disruption_start, [random_randint n] =>
      guard (withinZ 2 7 n) (supply_chain_disruption n st)
  | supply_chain_disruption_wait, [] => Some (supply_chain_disruption_resume st)
  | worker_absence_start m, [random_randint k; random_randint n] =>
      guard (withinZ 1 m k && withinZ 1 3 n) (worker_absence m k n st)
  | worker_absence_wait n, [] => Some (worker_absence_resume n st)
  | quality_control_issue_start d, [] => Some (quality_control_issue d st)
  | quality_control_issue_wait, [] => Some (quality_control_issue_resume st)
  | power_outage_event_start, [random_randint n] =>
      guard (withinZ 45 360 n) (power_outage_event n st)
  | power_outage_event_wait, [] => Some (power_outage_event_resume st)
  | generate_orders_wait, [random_uniform u] =>
      guard (within 0.6 1.4 u) (generate_orders u st)
  | generate_disruptions_wait,
    [random_random r1; random_random r2; random_random r3; random_random r4;
     random_random r5; random_random r6; random_random r7; random_random r8;
     random_random r9] =>
      let d := mkDisruptionDraws r1 r2 r3 r4 r5 r6 r7 r8 r9 in
      guard (valid_disruption_draws d) (generate_disruptions d st)
  | monitor_metrics_loop, [] => Some (monitor_metrics st)
  | calculate_worker_costs_wait, [] => Some (calculate_worker_costs st)
  | calculate_inventory_costs_wait, [] => Some (calculate_inventory_costs st)
  | calculate_energy_usage_wait, [] => Some (calculate_energy_usage st)
  | order_raw_materials_start, [] => Some (order_raw_materials st)
  | order_raw_materials_wait a, [] => Some (order_raw_materials_resume a st)
  | liquidate_inventory_start, [] => Some (liquidate_inventory st)
  | liquidate_inventory_wait, [] => Some (liquidate_inventory_resume st)
  | restore_power_risk_start o, [] => Some (restore_power_risk o st)
  | restore_power_risk_wait o, [] => Some (restore_power_risk_resume o st)
  | bulk_delivery_start, [] => Some (bulk_delivery st)
  | bulk_delivery_second f, [] => Some (bulk_delivery_resume_second f st)
  | bulk_delivery_third f s, [] => Some (bulk_delivery_resume_third f s st)
  | restore_process_times_start a c, [] => Some (restore_process_times a c st)
  | restore_process_times_wait a c, [] => Some (restore_process_times_resume a c st)
  | end_overtime_start a c, [] => Some (end_overtime a c st)
  | end_overtime_wait a c, [] => Some (end_overtime_resume a c st)
  | _, _ => None
  end.

(** The requests a suspended generator waits for. *)
Definition awaited (k : Cont) : list Request :=
  match k with
  | produce_parts_cnc c => [c]
  | produce_parts_worker _ w => [w]
  | assemble_products_both a w => [a; w]
  | product_to_qc_both q w => [q; w]
  | _ => []
  end.

(** The requests whose slot a suspended generator has to give back: those
    of the [with] blocks it is inside. *)
Definition held (k : Cont) : list Request :=
  match k with
  | produce_parts_cnc c => [c]
  | produce_parts_worker c w => [c; w]
  | produce_parts_run c w _ => [c; w]
  | assemble_products_both a w => [a; w]
  | assemble_products_run a w _ => [a; w]
  | product_to_qc_both q w => [q; w]
  | product_to_qc_inspect q w => [q; w]
  | _ => []
  end.

(** A process that waits for requests, all of which have been granted. *)
Definition requests_granted (p : Process) (st : Factory) : bool :=
  match wake p, awaited (cont p) with
  | None, r :: rs => forallb (fun r => granted r st) (r :: rs)
  | _, _ => false
  end.

(** No event is pending before time [t]; the event of a granted request is
    pending at the current time. *)
Definition earliest (t : Q) (st : Factory) : bool :=
  forallb (fun p => match wake p with
                    | Some t' => Qleb t t'
                    | None => negb (requests_granted p st) || Qleb t (env_now st)
                    end) (procs st).

(** What the scheduler records for a process after it has run. *)
Definition suspend (pid : nat) (y : Yield) (st : Factory) : Factory :=
  let p :=
    match y with
    | Timeout delay k => {| wake := Some (env_now st + delay); cont := k |}
    | Await k => {| wake := None; cont := k |}
    | Return => {| wake := None; cont := finished |}
    end in
  set_procs (list_set pid p (procs st)) st.

(** What can happen next.
    - [Resume pid draws]: [env.run] resumes process [pid].  [run_simulation]
      tests [paused] before it calls [env.run], not during the call, and the
      MQTT thread can set the flag while a call is under way: a resumption
      can find the flag set.
    - [Message topic payload str_float]: the MQTT thread delivers a message;
      [str_float] is the value of [float] on a [str] duration.
    - [RunUntil t]: [env.run(until=t)] returns with nothing left to do
      before [t]. *)
Inductive Label : Type :=
| Resume (pid : nat) (draws : list Draw)
| Message (topic : string) (payload : option json) (str_float : option float)
| RunUntil (t : Q).

Definition step (l : Label) (st : Factory) : option Factory :=
  match l with
  | Resume pid draws =>
      match nth_error (procs st) pid with
      | None => None
      | Some p =>
          let go (st : Factory) :=
            match resume (cont p) draws st with
            | Some (y, st') => Some (suspend pid y st')
            | None => None
            end in
          match wake p with
          | Some t => if earliest t st then go (set_env_now t st) else None
          | None => if requests_granted p st then go st else None
          end
      end
  | Message topic payload str_float =>
      if mqtt_loop st
      then Some (on_mqtt_message (fun _ => str_float) topic payload st)
      else None
  | RunUntil t =>
      if Qleb (env_now st) t && earliest t st
      then Some (set_env_now t st)
      else None
  end.

Fixpoint run (ls : list Label) (st : Factory) : option Factory :=
  match ls with
  | [] => Some st
  | l :: ls' =>
      match step l st with
      | Some st' => run ls' st'
      | None => None
      end
  end.

(** ** The loop of [run_simulation] *)

(** An event of process [p] is pending before time [until]. *)
Definition due_before (until : Q) (p : Process) (st : Factory) : bool :=
  match wake p with
  | Some t => Qltb t until
  | None => Qltb (env_now st) until
  end.

(** [env.run(until=t)] when no message arrives during the call: the
    resumptions [rs] in turn, each of a process with an event pending before
    [t], and the return once nothing is left before [t]. *)
Fixpoint env_run (until : Q) (rs : list (nat * list Draw)) (st : Factory)
    : option Factory :=
  match rs with
  | [] => step (RunUntil until) st
  | (pid, draws) :: rs' =>
      match nth_error (procs st) pid with
      | Some p =>
          if due_before until p st then
            match step (Resume pid draws) st with
            | Some st' => env_run until rs' st'
            | None => None
            end
          else None
      | None => None
      end
  end.

(** One turn of the [while] loop of [run_simulation], with its counter
    [next_sim_step]; [target_sim_minutes] is what the wall clock gives.  A
    turn that finds the factory paused sleeps and does nothing else. *)
Definition run_simulation_turn (target_sim_minutes : Q)
    (rs : list (nat * list Draw)) (next_sim_step : Z) (st : Factory)
    : option (Z * Factory) :=
  if paused st then Some (next_sim_step, st)
  else if Qltb (#next_sim_step) target_sim_minutes then
    match env_run (#(next_sim_step + 1)) rs st with
    | Some st' => Some ((next_sim_step + 1)%Z, st')
    | None => None
    end
  else Some (next_sim_step, st).

(** The states of the simulation. *)
Inductive reachable : Factory -> Prop :=
| reachable_init : reachable init
| reachable_step (l : Label) (st st' : Factory) :
    reachable st -> step l st = Some st' -> reachable st'.

(** ** The publisher's rate limit

    [can_publish] reads the wall clock with [time.time()]; its value is the
    parameter [current_time].  [self.last_publish_time] maps a topic to the
    time of its last accepted publish. *)

Definition MQTT_MIN_PUBLISH_INTERVAL : Q := 1.

(** [can_publish]: the answer and the new [last_publish_time]. *)
Definition can_publish (current_time : Q) (topic : string)
    (last_publish_time : dict string Q) : bool * dict string Q :=
  match dict_get String.eqb topic last_publish_time with
  | None =>
      (true, dict_set String.eqb topic current_time last_publish_time)
  | Some last =>
      if Qleb MQTT_MIN_PUBLISH_INTERVAL (current_time - last)
      then (true, dict_set String.eqb topic current_time last_publish_time)
      else (false, last_publish_time)
  end.

(** The MQTT client as far as [rate_limited_publish] uses it: the table of
    [can_publish] and the messages handed to [mqtt_client.publish]. *)
Record Publisher : Type := mkPublisher {
  last_publish_time : dict string Q;
  published : list (string * string)
}.

(** [rate_limited_publish] *)
Definition rate_limited_publish (current_time : Q) (topic payload : string)
    (p : Publisher) : bool * Publisher :=
  let '(ok, table) := can_publish current_time topic (last_publish_time p) in
  if ok
  then (true, {| last_publish_time := table;
                 published := published p ++ [(topic, payload)] |})
  else (false, {| last_publish_time := table; published := published p |}).

(** A series of calls of [rate_limited_publish], each with the wall-clock
    time at which it is made: the calls that publish, in order. *)
Fixpoint accepted (calls : list (Q * string * string)) (p : Publisher)
    : list (Q * string * string) :=
  match calls with
  | [] => []
  | (t, topic, payload) :: rest =>
      let '(ok, p') := rate_limited_publish t topic payload p in
      if ok then (t, topic, payload) :: accepted rest p' else accepted rest p'
  end.

(** The publisher after the calls. *)
Fixpoint after_calls (calls : list (Q * string * string)) (p : Publisher)
    : Publisher :=
  match calls with
  | [] => p
  | (t, topic, payload) :: rest =>
      after_calls rest (snd (rate_limited_publish t topic payload p))
  end.

(** ** Timestamps *)

(** [str(n)] of an [int]. *)
Definition py_str (n : Z) : string := NilZero.string_of_int (Z.to_int n).

(** The format [{n:02d}]. *)
Definition format_02d (n : Z) : string :=
  let s := py_str n in
  if (String.length s <? 2)%nat then ("0" ++ s)%string else s.

(** The three fields of [format_time]: [//] and [%] on [int] are floor
    division and its remainder. *)
Definition time_fields (minutes : Z) : Z * Z * Z :=
  let days := (minutes / (24 * 60))%Z in
  let hours := ((minutes mod (24 * 60)) / 60)%Z in
  let mins := (minutes mod 60)%Z in
  (days, hours, mins).

(** [format_time(minutes)], for an [int]; the method is only called with
    [self.current_time], which the monitor sets at its ticks, all of them at
    whole minutes. *)
Definition format_time (minutes : Z) : string :=
  let '(days, hours, mins) := time_fields minutes in
  ("Day " ++ py_str days ++ ", " ++ format_02d hours ++ ":" ++ format_02d mins)%string.

(** ** Overall equipment effectiveness

    The four OEE attributes of the factory object, which only
    [calculate_oee] and [quality_control] write. *)

Module OEE.
Record t : Type := mk {
  availability : Q;
  performance : Q;
  quality : Q;
  oee : Q
}.

(** The values set by [__init__]. *)
Definition initial : t :=
  {| availability := 1.0; performance := 1.0; quality := 1.0; oee := 1.0 |}.
End OEE.

(** [calculate_oee], one turn of its loop after the [yield]; [None] when
    the division by [CNC_PROCESSING_TIME] raises [ZeroDivisionError]. *)
Definition calculate_oee (o : OEE.t) (st : Factory) : option OEE.t :=
  if power_outage st then Some o
  else
    let total_machines := NUM_CNC_MACHINES st in
    let availability :=
      if (total_machines >? 0)%Z
      then #(operational_cnc_machines st) / #total_machines
      else 0 in
    if Qeq_bool (CNC_PROCESSING_TIME st) 0 then None
    else
      let max_daily_production :=
        (24 * 60) / CNC_PROCESSING_TIME st * #(operational_cnc_machines st)
        / #PARTS_PER_PRODUCT in
      let performance :=
        if Qltb 0 max_daily_production
        then Qmin 1.0 (#(daily_production st) / max_daily_production)
        else 0 in
      let quality := 1.0 - defect_rate st in
      Some {| OEE.availability := availability;
              OEE.performance := performance;
              OEE.quality := quality;
              OEE.oee := availability * performance * quality |}.

(** [quality_control], one turn of its loop after the [yield]. *)
Definition quality_control (o : OEE.t) (st : Factory) : OEE.t :=
  let quality :=
    if (total_inspected st >? 0)%Z then
      let rejection_rate :=
        #(defects_found st + false_positives st) / #(total_inspected st) in
      1.0 - rejection_rate
    else 1.0 in
  {| OEE.availability := OEE.availability o;
     OEE.performance := OEE.performance o;
     OEE.quality := quality;
     OEE.oee := OEE.oee o |}.

(** ** The sensor sampler

    [update_sensor_data] keeps the two ambient readings, which nothing else
    uses, and rewrites the sensor arrays of the CNC machines. *)

Record Ambient : Type := mkAmbient {
  ambient_temperature : Q;
  ambient_humidity : Q
}.

(** The draws of one turn of [update_sensor_data]: the two
    [random.uniform] of the ambient readings, the [random.random()] that the
    warning test of machine 0 makes, and per machine the
    [random.uniform(-3, 3)], [random.uniform(-0.1, 0.1)] and
    [random.uniform(0.5, 1.5)]. *)
Record SensorDraws : Type := mkSensorDraws {
  draw_ambient_temperature : Q;
  draw_ambient_humidity : Q;
  draw_warning : Q;
  draw_temperature : nat -> Q;
  draw_vibration : nat -> Q;
  draw_cooling : nat -> Q
}.

(** [l[i] = v] and [l[i]] for [i >= 0]; [None] is [IndexError]. *)
Definition list_store {A : Type} (i : nat) (v : A) (l : list A) : option (list A) :=
  if (i <? List.length l)%nat then Some (list_set i v l) else None.

(** The body of the loop over the machines, for machine [i]. *)
Definition update_machine (d : SensorDraws) (ambient : Ambient) (i : nat)
    (st : Factory) : option Factory :=
  if (Z.of_nat i <? operational_cnc_machines st)%Z then
    let base_temp := 20 + (cnc_utilization st / 100) * 40 in
    let '(operation_factor, failure_warning) :=
      if (i =? 0)%nat && Qltb (draw_warning d) (CNC_FAILURE_CHANCE st / 50)
         && negb (is_active PREVENTIVE_MAINTENANCE st)
      then (1.2, 2.0) else (1.0, 1.0) in
    match list_store i (base_temp * operation_factor + draw_temperature d i)
            (cnc_temperatures st) with
    | None => None
    | Some temperatures =>
        let st := set_cnc_temperatures temperatures st in
        let base_vibration := 0.1 + (cnc_utilization st / 100) * 1.5 in
        match list_store i (base_vibration * failure_warning + draw_vibration d i)
                (cnc_vibrations st) with
        | None => None
        | Some vibrations => Some (set_cnc_vibrations vibrations st)
        end
    end
  else
    match nth_error (cnc_temperatures st) i with
    | None => None
    | Some temperature =>
        let cooled :=
          if Qltb (ambient_temperature ambient) temperature then
            list_store i
              (Qmax (ambient_temperature ambient) (temperature - draw_cooling d i))
              (cnc_temperatures st)
          else Some (cnc_temperatures st) in
        match cooled with
        | None => None
        | Some temperatures =>
            let st := set_cnc_temperatures temperatures st in
            match list_store i 0.0 (cnc_vibrations st) with
            | None => None
            | Some vibrations => Some (set_cnc_vibrations vibrations st)
            end
        end
    end.

Fixpoint update_machines (d : SensorDraws) (ambient : Ambient)
    (machines : list nat) (st : Factory) : option Factory :=
  match machines with
  | [] => Some st
  | i :: rest =>
      match update_machine d ambient i st with
      | Some st' => update_machines d ambient rest st'
      | None => None
      end
  end.

(** [update_sensor_data], one turn of its loop after the [yield]. *)
Definition update_sensor_data (d : SensorDraws) (ambient : Ambient)
    (st : Factory) : option (Ambient * Factory) :=
  if power_outage st then Some (ambient, st)
  else
    let ambient :=
      {| ambient_temperature :=
           Qmax 15 (Qmin 30 (ambient_temperature ambient + draw_ambient_temperature d));
         ambient_humidity :=
           Qmax 30 (Qmin 70 (ambient_humidity ambient + draw_ambient_humidity d)) |} in
    match update_machines d ambient (seq 0 (Z.to_nat (NUM_CNC_MACHINES st))) st with
    | Some st' => Some (ambient, st')
    | None => None
    end.

(** ** States and traces used in the statements below *)

(** The state after PREVENTIVE_MAINTENANCE has been activated at start. *)
Definition preventive_maintenance_active : Factory :=
  outcome_state (modify_strategy (strategy_index PREVENTIVE_MAINTENANCE) true None init).

(** The one case in which [execute_one_time_strategy] raises:
    EXPEDITE_MAINTENANCE when no machine is down. *)
Definition expedite_raises (s : AdaptationStrategy.t) (st : Factory) : bool :=
  match s with
  | EXPEDITE_MAINTENANCE =>
      negb (operational_cnc_machines st <? NUM_CNC_MACHINES st)%Z
  | _ => false
  end.

(** [r] is the outcome of executing the one-time strategy [s] in [st]: the
    answer of an execution, or in that one case [UnboundLocalError]. *)
Definition executed (s : AdaptationStrategy.t) (st : Factory)
    (r : Outcome string) : Prop :=
  if expedite_raises s st
  then exists st', r = Raises UnboundLocalError st'
  else exists st',
         r = Returns ("One-time strategy executed: " ++ AdaptationStrategy.value s)%string
               st'.

(** The first 150 minutes of a run without disruptions: at time 0 the
    monitor samples, the five producers take a CNC machine and a worker and
    start a batch of 15, the four assemblers take a station and a worker and
    start a batch of 5; the monitor and the energy meter tick at 60 and 120;
    at 150 the first three assemblers finish.  The first two start another
    batch (5 products, then 1), which leaves 2 parts. *)
Definition first_assembly_trace : list Label :=
  [ Resume 2 [];
    Resume 4 []; Resume 4 []; Resume 4 [];
    Resume 5 []; Resume 5 []; Resume 5 [];
    Resume 6 []; Resume 6 []; Resume 6 [];
    Resume 7 []; Resume 7 []; Resume 7 [];
    Resume 8 []; Resume 8 []; Resume 8 [];
    Resume 9 []; Resume 9 []; Resume 10 []; Resume 10 [];
    Resume 11 []; Resume 11 []; Resume 12 []; Resume 12 [];
    Resume 2 []; Resume 14 []; Resume 2 []; Resume 14 [];
    Resume 9 [random_random 0.99]; Resume 9 [];
    Resume 10 [random_random 0.99]; Resume 10 [];
    Resume 11 [random_random 0.99] ].

Definition after_first_assembly : Factory :=
  match run first_assembly_trace init with
  | Some st => st
  | None => init
  end.

(** The payload [{"trigger": true}] and [{"trigger": false}]. *)
Definition trigger_on : option json := Some (JObject [("trigger"%string, JBool true)]).
Definition trigger_off : option json := Some (JObject [("trigger"%string, JBool false)]).

(** At time 0 four producers ask for a CNC machine and get one; an operator
    sells a machine, twice; then the fifth producer asks for a machine. *)
Definition sell_twice_trace : list Label :=
  [ Resume 4 []; Resume 5 []; Resume 6 []; Resume 7 [];
    Message "factory/command/SELL_CNC_MACHINE" trigger_on None;
    Message "factory/command/SELL_CNC_MACHINE" trigger_on None;
    Resume 8 [] ].

Definition after_sell_twice : Factory :=
  match run sell_twice_trace init with
  | Some st => st
  | None => init
  end.

(** The pool that a resizing strategy replaces, the capacity of its
    replacement, and whether the strategy resizes at all in a state. *)
Definition resized_pool (s : AdaptationStrategy.t) (st : Factory) : nat :=
  match s with
  | PURCHASE_CNC_MACHINE | SELL_CNC_MACHINE => cnc_machines st
  | _ => workers st
  end.

Definition resized_capacity (s : AdaptationStrategy.t) (st : Factory) : Z :=
  match s with
  | PURCHASE_CNC_MACHINE => NUM_CNC_MACHINES st + 1
  | SELL_CNC_MACHINE => NUM_CNC_MACHINES st - 1
  | HIRE_WORKERS => NUM_WORKERS st + 3
  | _ => NUM_WORKERS st - Z.min 3 (NUM_WORKERS st - 3)
  end.

Definition resizes (s : AdaptationStrategy.t) (st : Factory) : bool :=
  match s with
  | PURCHASE_CNC_MACHINE | HIRE_WORKERS => true
  | SELL_CNC_MACHINE => (NUM_CNC_MACHINES st >? 1)%Z
  | REDUCE_WORKFORCE => (NUM_WORKERS st >? 3)%Z
  | _ => false
  end.

(** The run of [first_assembly_trace], after which four of the inspections
    that the first assembler started at 150 begin; there are three QC
    stations. *)
Definition qc_queue_trace : list Label :=
  first_assembly_trace ++ [ Resume 15 []; Resume 16 []; Resume 17 []; Resume 18 [] ].

Definition after_qc_queue : Factory :=
  match run qc_queue_trace init with
  | Some st => st
  | None => init
  end.

(** The same run, stopped when three inspections have begun. *)
Definition three_inspections_trace : list Label :=
  first_assembly_trace ++ [ Resume 15 []; Resume 16 []; Resume 17 [] ].

Definition after_three_inspections : Factory :=
  match run three_inspections_trace init with
  | Some st => st
  | None => init
  end.

(** A pool with a free slot and nobody queued, and a pool without a free
    slot. *)
Definition has_room (r : Resource) : Prop :=
  queue r = [] /\ (count r < capacity r)%Z.

Definition is_full (r : Resource) : Prop := (capacity r <= count r)%Z.

(** The rate parameters that persistent strategies scale: two states agree
    on them. *)
Definition same_rates (st st' : Factory) : Prop :=
  CNC_FAILURE_CHANCE st' == CNC_FAILURE_CHANCE st /\
  SUPPLY_CHAIN_ISSUE_CHANCE st' == SUPPLY_CHAIN_ISSUE_CHANCE st /\
  QUALITY_ISSUE_CHANCE st' == QUALITY_ISSUE_CHANCE st /\
  POWER_OUTAGE_CHANCE st' == POWER_OUTAGE_CHANCE st /\
  ASSEMBLY_TIME st' == ASSEMBLY_TIME st /\
  CNC_PROCESSING_TIME st' == CNC_PROCESSING_TIME st /\
  defect_rate st' == defect_rate st.

(** Quality monitoring is switched on at start; a quality issue begins
    (with monitoring active the generator starts it with four hours) and
    ends; then monitoring is switched off by command, or expires at the
    hourly tick after thirty days. *)
Definition quality_monitoring_on : Factory :=
  outcome_state (modify_strategy (strategy_index QUALITY_MONITORING) true None init).

Definition quality_issue_started : Factory :=
  snd (quality_control_issue (4 * 60) quality_monitoring_on).

Definition quality_issue_over : Factory :=
  snd (quality_control_issue_resume quality_issue_started).

Definition quality_monitoring_off : Factory :=
  outcome_state (modify_strategy (strategy_index QUALITY_MONITORING) false None
         quality_issue_over).

Definition quality_monitoring_expired : Factory :=
  snd (monitor_metrics (set_env_now (30 * 24 * 60) quality_issue_over)).




(** ** The invariants of the simulation *)

(** A Resource object never has more users than its capacity. *)
Definition resource_ok (r : Resource) : Prop := (0 <= count r <= capacity r)%Z.

(** The pool behind handle [h] exists and is within its capacity. *)
Definition pool_ok (h : nat) (st : Factory) : Prop :=
  exists r, nth_error (resources st) h = Some r /\ resource_ok r.

Definition ledger_ok (st : Factory) : Prop :=
  (0 <= raw_materials st /\ 0 <= parts_inventory st /\
   0 <= finished_products st /\ 0 <= backlog st /\
   0 <= total_orders st /\ 0 <= fulfilled_orders st /\
   0 <= cancelled_orders st)%Z.

(** Every order received is in the backlog, fulfilled or cancelled. *)
Definition orders_accounted (st : Factory) : Prop :=
  (total_orders st <= backlog st + fulfilled_orders st + cancelled_orders st)%Z.

(** The head counts from which new pools are sized. *)
Definition sizes_ok (st : Factory) : Prop :=
  (1 <= NUM_CNC_MACHINES st /\ 0 <= NUM_ASSEMBLY_STATIONS st /\
   3 <= NUM_WORKERS st)%Z.

(** The four handles point into the store of Resource objects. *)
Definition handles_ok (st : Factory) : Prop :=
  (cnc_machines st < List.length (resources st) /\
   assembly_stations st < List.length (resources st) /\
   qc_stations st < List.length (resources st) /\
   workers st < List.length (resources st))%nat.

Definition staffing_ok (st : Factory) : Prop :=
  (0 <= operational_cnc_machines st /\ 0 <= available_workers st)%Z.

(** One temperature and one vibration reading per CNC machine. *)
Definition sensors_ok (st : Factory) : Prop :=
  List.length (cnc_temperatures st) = Z.to_nat (NUM_CNC_MACHINES st) /\
  List.length (cnc_vibrations st) = Z.to_nat (NUM_CNC_MACHINES st).

(** The processing times stay positive: a batch always takes time. *)
Definition times_ok (st : Factory) : Prop :=
  0 < CNC_PROCESSING_TIME st /\ 0 < ASSEMBLY_TIME st.

(** The weekly costs of a set of strategies. *)
Definition sum_weekly (l : list AdaptationStrategy.t) : Z :=
  fold_right (fun s acc => (StrategyCosts.WEEKLY s + acc)%Z) 0%Z l.

Definition strategies_ok (st : Factory) : Prop :=
  NoDup (adaptation_strategies st) /\
  NoDup (map fst (strategy_expiration_times st)) /\
  strategy_weekly_costs st = sum_weekly (adaptation_strategies st).

(** What holds of the object and the globals, the processes aside. *)
Definition static_ok (st : Factory) : Prop :=
  ledger_ok st /\ orders_accounted st /\ 0 <= current_order_rate st /\
  Forall resource_ok (resources st) /\ handles_ok st /\ sizes_ok st /\
  staffing_ok st /\ sensors_ok st /\ times_ok st /\
  DURATION st = StrategyDurations.DURATION_0 /\ strategies_ok st /\
  (0 <= daily_production st)%Z.

(** What holds of the local variables of a suspended generator. *)
Definition cont_ok (k : Cont) : Prop :=
  match k with
  | produce_parts_run _ _ batch_size => (0 <= batch_size)%Z
  | order_raw_materials_wait order_amount => (0 <= order_amount)%Z
  | bulk_delivery_second first_batch =>
      (0 <= bulk_order_size - first_batch - bulk_order_size / 3)%Z
  | bulk_delivery_third first_batch second_batch =>
      (0 <= bulk_order_size - first_batch - second_batch)%Z
  | order_spike_wait original_rate old_times =>
      0 <= original_rate /\
      match old_times with
      | Some (old_assembly_time, old_cnc_time) =>
          0 < old_assembly_time /\ 0 < old_cnc_time
      | None => True
      end
  | worker_absence_wait num_absent => (0 <= num_absent)%Z
  | quality_control_issue_start duration => 0 <= duration
  | restore_process_times_start old_assembly_time old_cnc_time
  | restore_process_times_wait old_assembly_time old_cnc_time
  | end_overtime_start old_assembly_time old_cnc_time
  | end_overtime_wait old_assembly_time old_cnc_time =>
      0 < old_assembly_time /\ 0 < old_cnc_time
  | _ => True
  end.

(** The generator that the scheduler keeps for a process after a piece of
    it has run. *)
Definition next_cont (y : Yield) : Cont :=
  match y with
  | Timeout _ k => k
  | Await k => k
  | Return => finished
  end.

(** [env.timeout] raises [ValueError] on a negative delay. *)
Definition yield_ok (y : Yield) : Prop :=
  match y with
  | Timeout delay _ => 0 <= delay
  | _ => True
  end.

(** A generator that has been handed to [env.process] and has not run. *)
Definition starting (k : Cont) : bool :=
  match k with
  | product_to_qc_start | order_cancellation_start | cnc_machine_failure_start
  | order_spike_start | supply_chain_disruption_start | worker_absence_start _
  | quality_control_issue_start _ | power_outage_event_start
  | order_raw_materials_start | liquidate_inventory_start
  | restore_power_risk_start _
  | bulk_delivery_start | restore_process_times_start _ _
  | end_overtime_start _ _ => true
  | _ => false
  end.

(** An instance of a disruption kind is active from the moment its process
    has taken effect until its duration has passed: the process is suspended
    at the [yield] of its duration. *)
Definition waiting (d : DisruptionType.t) (k : Cont) : bool :=
  match d, k with
  | DisruptionType.CNC_FAILURE, cnc_machine_failure_wait => true
  | DisruptionType.ORDER_SPIKE, order_spike_wait _ _ => true
  | DisruptionType.SUPPLY_CHAIN, supply_chain_disruption_wait => true
  | DisruptionType.WORKER_ABSENCE, worker_absence_wait _ => true
  | DisruptionType.QUALITY_ISSUE, quality_control_issue_wait => true
  | DisruptionType.POWER_OUTAGE, power_outage_event_wait => true
  | DisruptionType.ORDER_CANCELLATION, order_cancellation_wait => true
  | _, _ => false
  end.

Definition active_instances (d : DisruptionType.t) (st : Factory) : nat :=
  List.length (filter (fun p => waiting d (cont p)) (procs st)).

(** The kinds whose process tests a flag of its own before it takes effect,
    a flag that nothing else writes; and that flag. *)
Definition checked_at_start (d : DisruptionType.t) : bool :=
  match d with
  | DisruptionType.SUPPLY_CHAIN | DisruptionType.QUALITY_ISSUE
  | DisruptionType.ORDER_CANCELLATION => true
  | _ => false
  end.

Definition in_effect (d : DisruptionType.t) (st : Factory) : bool :=
  match d with
  | DisruptionType.SUPPLY_CHAIN => supply_chain_disrupted st
  | DisruptionType.QUALITY_ISSUE => has_quality_issue st
  | DisruptionType.ORDER_CANCELLATION => order_cancellation_active st
  | DisruptionType.POWER_OUTAGE => power_outage st
  | _ => false
  end.

Definition flags_ok (st : Factory) : Prop :=
  forall d, checked_at_start d = true ->
    active_instances d st = Nat.b2n (in_effect d st).

Definition procs_ok (st : Factory) : Prop :=
  Forall (fun p => cont_ok (cont p)) (procs st).

(** No process is due before the current time. *)
Definition clock_ok (st : Factory) : Prop :=
  Forall (fun p => match wake p with
                   | Some t => env_now st <= t
                   | None => True
                   end) (procs st).

Definition state_ok (st : Factory) : Prop := static_ok st /\ procs_ok st.

Definition factory_invariant (st : Factory) : Prop :=
  state_ok st /\ flags_ok st /\ clock_ok st.

(** What [static_ok] reads of a state. *)
Definition core (st : Factory) :=
  (NUM_CNC_MACHINES st, NUM_ASSEMBLY_STATIONS st, NUM_WORKERS st,
   CNC_PROCESSING_TIME st, ASSEMBLY_TIME st, DURATION st,
   resources st, pools st, ledger st, sensors st, strategies st,
   current_order_rate st, daily_production st,
   (supply_chain_disrupted st, has_quality_issue st, order_cancellation_active st)).

(** [st'] has the processes of [st] and after them newly started ones, due
    at the current time, which is that of [st]. *)
Definition spawned (st st' : Factory) : Prop :=
  env_now st' = env_now st /\
  exists new, procs st' = procs st ++ new /\
              Forall (fun p => starting (cont p) = true /\
                               wake p = Some (env_now st)) new.

(** [st'] keeps what the invariant needs of [st]: an operation of the
    strategy manager or of the command ingress, or part of a piece of a
    generator. *)
Definition keeps (st st' : Factory) : Prop :=
  (state_ok st -> state_ok st') /\ spawned st st' /\
  (forall d, checked_at_start d = true -> in_effect d st' = in_effect d st).

(** What one piece of a generator, entered as [k] in state [st] and leaving
    [y] and [st'], keeps of the invariant. *)
Record segment_ok (k : Cont) (st : Factory) (y : Yield) (st' : Factory) : Prop := {
  segment_static :
    state_ok st -> cont_ok k ->
    state_ok st' /\ cont_ok (next_cont y) /\ yield_ok y;
  segment_spawned : spawned st st';
  segment_flags : forall d, checked_at_start d = true ->
    (waiting d k = true -> in_effect d st = true) ->
    (Nat.b2n (in_effect d st') + Nat.b2n (waiting d k) =
     Nat.b2n (in_effect d st) + Nat.b2n (waiting d (next_cont y)))%nat
}.

(** The state after the first tick of the monitor, at time 0. *)
Definition after_first_tick : Factory :=
  match step (Resume 2 []) init with
  | Some st => st
  | None => init
  end.

(** The payload [{"command": c}]. *)
Definition command (c : string) : option json :=
  Some (JObject [("command"%string, JString c)]).

(** What [env.run(until=1)] resumes in a run from the start: the monitor,
    the five producers up to the start of their batch and the four
    assemblers up to the start of theirs. *)
Definition first_minute : list (nat * list Draw) :=
  [ (2, []);
    (4, []); (4, []); (4, []); (5, []); (5, []); (5, []);
    (6, []); (6, []); (6, []); (7, []); (7, []); (7, []);
    (8, []); (8, []); (8, []);
    (9, []); (9, []); (10, []); (10, []);
    (11, []); (11, []); (12, []); (12, []) ]%nat.

(** The messages that write the pause flag: a [pause] or [resume] command
    on the simulation topic. *)
Definition pause_or_resume (l : Label) : bool :=
  match l with
  | Message topic (Some payload) _ =>
      String.eqb topic MQTTTopics.SIMULATION_COMMAND &&
      match py_getitem payload "command" with
      | Some (JString s) =>
          String.eqb (lower s) "pause" || String.eqb (lower s) "resume"
      | _ => false
      end
  | _ => false
  end.

(** The duration that an activation uses: the custom one if it is given
    and positive, else the one of the table. *)
Definition effective_duration (s : AdaptationStrategy.t)
    (custom_duration : option Z) (st : Factory) : Z :=
  match custom_duration with
  | Some d => if (d >? 0)%Z then d else DURATION_get s st
  | None => DURATION_get s st
  end.

(** * Properties *)

(** ** Reading fields through updates *)

Ltac record_simpl :=
  cbn [ globals set_globals NUM_CNC_MACHINES set_NUM_CNC_MACHINES NUM_ASSEMBLY_STATIONS set_NUM_ASSEMBLY_STATIONS
        NUM_WORKERS set_NUM_WORKERS CNC_PROCESSING_TIME set_CNC_PROCESSING_TIME ASSEMBLY_TIME set_ASSEMBLY_TIME
        CNC_FAILURE_CHANCE set_CNC_FAILURE_CHANCE SUPPLY_CHAIN_ISSUE_CHANCE set_SUPPLY_CHAIN_ISSUE_CHANCE QUALITY_ISSUE_CHANCE set_QUALITY_ISSUE_CHANCE
        POWER_OUTAGE_CHANCE set_POWER_OUTAGE_CHANCE DURATION set_DURATION env set_env
        env_now set_env_now resources set_resources next_request set_next_request
        procs set_procs pools set_pools operational_cnc_machines set_operational_cnc_machines
        available_workers set_available_workers cnc_machines set_cnc_machines assembly_stations set_assembly_stations
        qc_stations set_qc_stations workers set_workers ledger set_ledger
        raw_materials set_raw_materials parts_inventory set_parts_inventory finished_products set_finished_products
        backlog set_backlog total_orders set_total_orders fulfilled_orders set_fulfilled_orders
        cancelled_orders set_cancelled_orders financial set_financial revenue set_revenue
        costs set_costs inventory_holding_costs set_inventory_holding_costs energy_costs set_energy_costs
        liquidation_revenue set_liquidation_revenue worker_salary_costs set_worker_salary_costs status set_status
        current_order_rate set_current_order_rate supply_chain_disrupted set_supply_chain_disrupted has_quality_issue set_has_quality_issue
        power_outage set_power_outage order_cancellation_active set_order_cancellation_active production set_production
        daily_production set_daily_production cnc_utilization set_cnc_utilization assembly_utilization set_assembly_utilization
        qc_utilization set_qc_utilization quality set_quality defect_rate set_defect_rate
        defects_found set_defects_found total_inspected set_total_inspected false_positives set_false_positives
        false_negatives set_false_negatives maintenance set_maintenance maintenance_events set_maintenance_events
        total_downtime set_total_downtime mtbf set_mtbf mttr set_mttr
        last_failure_time set_last_failure_time repair_times set_repair_times sensors set_sensors
        cnc_temperatures set_cnc_temperatures cnc_vibrations set_cnc_vibrations tracking set_tracking
        active_cnc_requests set_active_cnc_requests active_worker_requests set_active_worker_requests active_qc_requests set_active_qc_requests
        strategies set_strategies adaptation_strategies set_adaptation_strategies strategy_implementation_dates set_strategy_implementation_dates
        strategy_expiration_times set_strategy_expiration_times strategy_weekly_costs set_strategy_weekly_costs monitoring set_monitoring
        profit_history set_profit_history disruptions_history set_disruptions_history strategy_changes_history set_strategy_changes_history
        logs set_logs control set_control paused set_paused
        current_time set_current_time mqtt_loop set_mqtt_loop
        log env_process record_disruption publish_disruption update_resource
        release strategies_add strategies_remove outcome_state fst snd ] in *.

(** ** Boolean tests on integers *)

Lemma Zgtb_false (a b : Z) : (a <= b)%Z -> (a >? b)%Z = false.
Proof. intros H. rewrite Z.gtb_ltb. apply Z.ltb_ge. exact H. Qed.

Lemma Zgtb_true (a b : Z) : (b < a)%Z -> (a >? b)%Z = true.
Proof. intros H. rewrite Z.gtb_ltb. apply Z.ltb_lt. exact H. Qed.

(** ** The strategy table *)

Lemma strategy_index_range (s : AdaptationStrategy.t) :
  (0 <= strategy_index s < 24)%Z.
Proof. destruct s; vm_compute; split; congruence. Qed.

Lemma nth_strategy_index (s : AdaptationStrategy.t) :
  nth_error AdaptationStrategy.members (Z.to_nat (strategy_index s)) = Some s.
Proof. destruct s; reflexivity. Qed.

Lemma strategy_index_guard (s : AdaptationStrategy.t) :
  ((0 <=? strategy_index s) &&
   (strategy_index s <? Z.of_nat (List.length AdaptationStrategy.members)))%Z = true.
Proof. destruct s; reflexivity. Qed.

(** [modify_strategy] at the index of a strategy, with the index lookup
    done. *)
Lemma modify_strategy_at (s : AdaptationStrategy.t) (activate : bool)
    (custom_duration : option Z) (st : Factory) :
  modify_strategy (strategy_index s) activate custom_duration st =
  if activate then
    if ONE_TIME_STRATEGIES s then
      let st := warn_if_unaffordable s st in
      let st := set_costs (costs st + #(StrategyCosts.IMPLEMENTATION s)) st in
      match execute_one_time_strategy s st with
      | Raises e st => Raises e st
      | Returns _ st =>
          let st := set_strategy_changes_history
                      (strategy_changes_history st ++
                       [ (env_now st, s, "Executed (one-time)"%string) ]) st in
          Returns ("One-time strategy executed: " ++ AdaptationStrategy.value s)%string st
      end
    else if negb (is_active s st) then
      let st := warn_if_unaffordable s st in
      let st := strategies_add s st in
      let original_duration :=
        match custom_duration with
        | Some d => if (d >? 0)%Z then Some (DURATION_get s st) else None
        | None => None
        end in
      let st :=
        match custom_duration, original_duration with
        | Some d, Some _ =>
            log LogLevel.INFO "Strategy"
              "Using custom duration of {duration_days} days for strategy '{strategy.value}'"
              (set_DURATION (dict_set AdaptationStrategy.eqb s d (DURATION st)) st)
        | _, _ => st
        end in
      let st := apply_strategy_effects s true st in
      let st :=
        match original_duration with
        | Some d0 =>
            set_DURATION (dict_set AdaptationStrategy.eqb s d0 (DURATION st)) st
        | None => st
        end in
      Returns ("Strategy activated: " ++ AdaptationStrategy.value s)%string st
    else Returns "No change (strategy already active)"%string st
  else if negb (ONE_TIME_STRATEGIES s) && is_active s st then
    let implementation_time :=
      env_now st -
      match dict_get AdaptationStrategy.eqb s (strategy_implementation_dates st) with
      | Some t => t
      | None => 0
      end in
    let implementation_hours := implementation_time / 60 in
    let st := if Qltb implementation_hours 24
              then log LogLevel.WARNING "Strategy"
                     "Strategy '{strategy.value}' deactivated after only {implementation_hours} hours" st
              else st in
    let st := strategies_remove s st in
    let st := apply_strategy_effects s false st in
    Returns ("Strategy deactivated: " ++ AdaptationStrategy.value s)%string st
  else Returns "No change needed"%string st.
Proof.
  unfold modify_strategy.
  rewrite strategy_index_guard, nth_strategy_index. reflexivity.
Qed.

(** [warn_if_unaffordable] writes the log and nothing else. *)
Lemma warn_if_unaffordable_logs (s : AdaptationStrategy.t) (st : Factory) :
  exists l, warn_if_unaffordable s st = set_logs l st.
Proof.
  unfold warn_if_unaffordable.
  destruct (Qltb _ _); [ eexists; reflexivity | ].
  exists (logs st). destruct st as [? ? ? ? ? ? ? ? ? ? ? ? [] ?]. reflexivity.
Qed.

(** ** Lists updated by index *)

Lemma length_list_set {A : Type} (i : nat) (v : A) (l : list A) :
  List.length (list_set i v l) = List.length l.
Proof.
  revert i. induction l as [| x l IH]; intros [| i]; cbn; try reflexivity.
  now rewrite IH.
Qed.

Lemma nth_error_list_set_eq {A : Type} (i : nat) (v : A) (l : list A) :
  (i < List.length l)%nat -> nth_error (list_set i v l) i = Some v.
Proof.
  revert i. induction l as [| x l IH]; intros [| i] H; cbn in *; try lia.
  - reflexivity.
  - apply IH. lia.
Qed.

Lemma nth_error_list_set_neq {A : Type} (i j : nat) (v : A) (l : list A) :
  i <> j -> nth_error (list_set i v l) j = nth_error l j.
Proof.
  revert i j. induction l as [| x l IH]; intros [| i] [| j] H; cbn;
    try reflexivity; try congruence.
  apply IH. congruence.
Qed.

Lemma Forall_list_set {A : Type} (P : A -> Prop) (i : nat) (v : A) (l : list A) :
  Forall P l -> P v -> Forall P (list_set i v l).
Proof.
  intros Hl Hv. revert i. induction Hl as [| x l Hx Hl IH]; intros [| i]; cbn;
    constructor; auto.
Qed.

(** ** Reachability *)

Lemma run_reachable (ls : list Label) (st st' : Factory) :
  reachable st -> run ls st = Some st' -> reachable st'.
Proof.
  revert st. induction ls as [| l ls IH]; intros st Hr Hrun; cbn [run] in Hrun.
  - injection Hrun as <-. exact Hr.
  - destruct (step l st) as [st1 |] eqn:Hs; [| discriminate ].
    apply (IH st1); [| exact Hrun ].
    exact (reachable_step l st st1 Hr Hs).
Qed.
(** ** C7: idempotence of the strategy commands *)

Lemma set_sensors_eta (st : Factory) : set_sensors (sensors st) st = st.
Proof. destruct st; reflexivity. Qed.

(** A one-time action never touches the set of active strategies, whether
    it returns or raises. *)
Lemma execute_one_time_strategy_active_set (s : AdaptationStrategy.t)
    (st : Factory) :
  adaptation_strategies (outcome_state (execute_one_time_strategy s st))
  = adaptation_strategies st.
Proof.
  unfold execute_one_time_strategy, simpy_Resource.
  destruct s; record_simpl; try reflexivity;
    repeat match goal with
           | |- context [if ?c then _ else _] => destruct c
           end;
    record_simpl; reflexivity.
Qed.

(** [execute_one_time_strategy] raises in one case only, and then
    [UnboundLocalError]. *)
Lemma execute_one_time_strategy_raises (s : AdaptationStrategy.t) (st : Factory) :
  if expedite_raises s st
  then exists st', execute_one_time_strategy s st = Raises UnboundLocalError st'
  else exists st', execute_one_time_strategy s st = Returns tt st'.
Proof.
  unfold execute_one_time_strategy, expedite_raises, simpy_Resource.
  destruct s; record_simpl;
    repeat match goal with
           | |- context [negb ?c] => destruct c; cbn [negb]
           | |- context [if ?c then _ else _] => destruct c
           end;
    eexists; reflexivity.
Qed.

(** Activating a one-time strategy executes it. *)
Lemma modify_strategy_executed (s : AdaptationStrategy.t) (d : option Z)
    (st : Factory) :
  ONE_TIME_STRATEGIES s = true ->
  executed s st (modify_strategy (strategy_index s) true d st).
Proof.
  intros Ho. rewrite modify_strategy_at, Ho. cbv zeta. unfold executed.
  destruct (warn_if_unaffordable_logs s st) as [l ->].
  pose proof (execute_one_time_strategy_raises s
                (set_costs (costs (set_logs l st) + #(StrategyCosts.IMPLEMENTATION s))
                   (set_logs l st))) as H.
  replace (expedite_raises s
             (set_costs (costs (set_logs l st) + #(StrategyCosts.IMPLEMENTATION s))
                (set_logs l st)))
    with (expedite_raises s st) in H by (destruct s; reflexivity).
  destruct (expedite_raises s st); destruct H as [st' ->]; eexists; reflexivity.
Qed.

(** C7.  For every strategy [s] and state:
    - activating a persistent strategy that is already active returns the
      no-op answer and the state unchanged;
    - deactivating a persistent strategy that is not active, or any one-time
      strategy, returns the no-op answer and the state unchanged;
    - activating a one-time strategy executes it: the call returns the
      answer of an execution, except for EXPEDITE_MAINTENANCE when no machine
      is down, where the execution raises [UnboundLocalError]; either way
      the active set is as it was, and a second activation on the resulting
      state executes the strategy again. *)
Theorem C7_activate_deactivate_idempotent
    (s : AdaptationStrategy.t) (d : option Z) (st : Factory) :
  (ONE_TIME_STRATEGIES s = false -> is_active s st = true ->
     modify_strategy (strategy_index s) true d st
     = Returns "No change (strategy already active)"%string st) /\
  (ONE_TIME_STRATEGIES s = false -> is_active s st = false ->
     modify_strategy (strategy_index s) false d st
     = Returns "No change needed"%string st) /\
  (ONE_TIME_STRATEGIES s = true ->
     modify_strategy (strategy_index s) false d st
     = Returns "No change needed"%string st /\
     let r := modify_strategy (strategy_index s) true d st in
     executed s st r /\
     adaptation_strategies (outcome_state r) = adaptation_strategies st /\
     forall d',
       executed s (outcome_state r)
         (modify_strategy (strategy_index s) true d' (outcome_state r))).
Proof.
  split; [| split].
  - intros Hp Ha. rewrite modify_strategy_at, Hp, Ha. reflexivity.
  - intros Hp Ha. rewrite modify_strategy_at, Hp, Ha. reflexivity.
  - intros Ho. split; [| split; [| split]].
    + rewrite modify_strategy_at, Ho. reflexivity.
    + apply modify_strategy_executed. exact Ho.
    + rewrite modify_strategy_at, Ho. cbv zeta.
      destruct (warn_if_unaffordable_logs s st) as [l ->].
      match goal with
      | |- context [execute_one_time_strategy s ?x] =>
          pose proof (execute_one_time_strategy_active_set s x) as H;
          destruct (execute_one_time_strategy s x)
      end; exact H.
    + intros d'. apply modify_strategy_executed. exact Ho.
Qed.

Lemma C7_activate_deactivate_idempotent_witness :
  (ONE_TIME_STRATEGIES PREVENTIVE_MAINTENANCE = false /\
   is_active PREVENTIVE_MAINTENANCE preventive_maintenance_active = true /\
   modify_strategy (strategy_index PREVENTIVE_MAINTENANCE) true None
     preventive_maintenance_active
   = Returns "No change (strategy already active)"%string
       preventive_maintenance_active) /\
  (is_active PREVENTIVE_MAINTENANCE init = false /\
   modify_strategy (strategy_index PREVENTIVE_MAINTENANCE) false None init
   = Returns "No change needed"%string init) /\
  (ONE_TIME_STRATEGIES HIRE_WORKERS = true /\
   modify_strategy (strategy_index HIRE_WORKERS) false None init
   = Returns "No change needed"%string init) /\
  (ONE_TIME_STRATEGIES EXPEDITE_MAINTENANCE = true /\
   executed EXPEDITE_MAINTENANCE init
     (modify_strategy (strategy_index EXPEDITE_MAINTENANCE) true None init)).
Proof.
  destruct (C7_activate_deactivate_idempotent PREVENTIVE_MAINTENANCE None
              preventive_maintenance_active) as (H1 & _ & _).
  destruct (C7_activate_deactivate_idempotent PREVENTIVE_MAINTENANCE None init)
    as (_ & H2 & _).
  destruct (C7_activate_deactivate_idempotent HIRE_WORKERS None init)
    as (_ & _ & H3).
  destruct (C7_activate_deactivate_idempotent EXPEDITE_MAINTENANCE None init)
    as (_ & _ & H4).
  split; [| split; [| split ] ].
  - split; [ reflexivity | split; [ reflexivity | ] ].
    apply H1; reflexivity.
  - split; [ reflexivity | ]. apply H2; reflexivity.
  - split; [ reflexivity | ]. apply H3. reflexivity.
  - split; [ reflexivity | ].
    pose proof (H4 eq_refl) as H. cbv zeta in H. destruct H as (_ & H & _). exact H.
Defined.

(** ** C6: order fulfilment *)

Lemma inspect_frame (r1 r2 : Q) (st : Factory) :
  exists q, snd (inspect r1 r2 st) = set_quality q st.
Proof.
  unfold inspect.
  repeat match goal with
         | |- context [if ?c then _ else _] => destruct c
         end; cbn [snd]; eexists; reflexivity.
Qed.

(** C6.  With non-negative counters, [process_backlog] moves exactly
    [min(finished_products, backlog)] units: both counters go down by that
    amount, [fulfilled_orders] goes up by it, and revenue grows by 1500 per
    unit.  It is called on the state in which a unit that passed inspection
    has just been credited, and on the state in which the daily orders have
    just been added. *)
Theorem C6_process_backlog (st : Factory) :
  (0 <= finished_products st)%Z -> (0 <= backlog st)%Z ->
  let n := Z.min (finished_products st) (backlog st) in
  let st' := process_backlog st in
  finished_products st' = (finished_products st - n)%Z /\
  backlog st' = (backlog st - n)%Z /\
  fulfilled_orders st' = (fulfilled_orders st + n)%Z /\
  revenue st' == revenue st + #(n * 1500) /\
  (forall (qc_req worker_req : Request) (r1 r2 : Q),
     fst (inspect r1 r2 st) = false ->
     exists st1 : Factory,
       finished_products st1 = (finished_products st + 1)%Z /\
       backlog st1 = backlog st /\
       product_to_qc_done qc_req worker_req r1 r2 st
       = (Return, release qc_req (release worker_req (process_backlog st1)))) /\
  (forall variation : Q,
     exists (st1 : Factory) (daily_orders : Z),
       daily_orders = py_int (#(py_int (current_order_rate st)) * variation) /\
       backlog st1 = (backlog st + daily_orders)%Z /\
       total_orders st1 = (total_orders st + daily_orders)%Z /\
       finished_products st1 = finished_products st /\
       ledger (snd (generate_orders variation st)) = ledger (process_backlog st1)).
Proof.
  intros Hf Hb n st'.
  assert (Hpb : forall s : Factory,
            let k := Z.min (finished_products s) (backlog s) in
            (0 <= k)%Z ->
            finished_products (process_backlog s) = (finished_products s - k)%Z /\
            backlog (process_backlog s) = (backlog s - k)%Z /\
            fulfilled_orders (process_backlog s) = (fulfilled_orders s + k)%Z /\
            revenue (process_backlog s) == revenue s + #(k * 1500)).
  { intros s k Hk. unfold process_backlog. fold k.
    destruct (Z.gtb_spec k 0) as [Hpos | Hzero].
    - destruct (k >=? 10)%Z; record_simpl; repeat split; reflexivity.
    - assert (k = 0%Z) by lia. replace k with 0%Z.
      repeat split; try lia. change (#(0 * 1500)) with 0. ring. }
  destruct (Hpb st) as (H1 & H2 & H3 & H4); [ subst n; lia | ].
  repeat split; try assumption.
  - intros qc_req worker_req r1 r2 Hpass.
    unfold product_to_qc_done.
    destruct (inspect r1 r2 st) as [detected st0] eqn:Hi.
    cbn [fst] in Hpass. subst detected. cbn [negb].
    destruct (inspect_frame r1 r2 st) as [q Hq]. rewrite Hi in Hq. cbn [snd] in Hq.
    subst st0.
    eexists. split; [| split; [| reflexivity ] ]; record_simpl; reflexivity.
  - intros variation. unfold generate_orders.
    eexists. eexists. split; [ reflexivity |].
    split; [| split; [| split ] ];
      [ | | | destruct (_ && _); record_simpl; reflexivity ];
      record_simpl; reflexivity.
Qed.

Lemma C6_process_backlog_witness :
  let st := set_backlog 3 (set_finished_products 5 init) in
  (0 <= finished_products st)%Z /\ (0 <= backlog st)%Z /\
  finished_products (process_backlog st) = 2%Z /\
  backlog (process_backlog st) = 0%Z /\
  fulfilled_orders (process_backlog st) = 3%Z.
Proof.
  intros st.
  assert (Hf : (0 <= finished_products st)%Z) by (vm_compute; congruence).
  assert (Hb : (0 <= backlog st)%Z) by (vm_compute; congruence).
  destruct (C6_process_backlog st Hf Hb) as (H1 & H2 & H3 & _).
  repeat split; assumption.
Defined.

(** ** C8: re-poll delays of the production pipeline *)

Lemma after_first_assembly_run :
  run first_assembly_trace init = Some after_first_assembly.
Proof. vm_compute. reflexivity. Qed.

(** C8, as stated, fails: in a state of the simulation where power is on
    and fewer than PARTS_PER_PRODUCT parts are in stock, the assembler's
    parts-availability check waits 60 minutes, not 10. *)
Lemma C8_assembler_parts_check_waits_60 :
  reachable after_first_assembly /\
  power_outage after_first_assembly = false /\
  parts_inventory after_first_assembly = 2%Z /\
  (parts_inventory after_first_assembly <? PARTS_PER_PRODUCT)%Z = true /\
  fst (assemble_products after_first_assembly) = Timeout 60 assemble_products_loop /\
  ~ (60 == 10).
Proof.
  split; [ exact (run_reachable _ _ _ reachable_init after_first_assembly_run) |].
  repeat split; try (vm_compute; reflexivity).
  intros H. vm_compute in H. discriminate.
Qed.

(** C8, amended.  A cycle that finds nothing to do waits a fixed positive
    time and changes nothing: the producer 10 minutes (power outage; no raw
    materials, no operational machine or no available worker; also when the
    materials are gone by the time it holds both resources); the assembler
    10 minutes on a power outage and 60 minutes when parts or workers are
    missing or when its request would exceed the available workers. *)
Theorem C8_repoll_delays (st : Factory) :
  (power_outage st = true ->
     produce_parts st = (Timeout 10 produce_parts_loop, st)) /\
  (power_outage st = false ->
     (raw_materials st <= 0 \/ operational_cnc_machines st <= 0
      \/ available_workers st <= 0)%Z ->
     produce_parts st = (Timeout 10 produce_parts_loop, st)) /\
  (forall cnc_req worker_req,
     power_outage st = false -> (raw_materials st <= 0)%Z ->
     fst (produce_parts_got_worker cnc_req worker_req st)
     = Timeout 10 produce_parts_loop) /\
  (power_outage st = true ->
     assemble_products st = (Timeout 10 assemble_products_loop, st)) /\
  (power_outage st = false ->
     (parts_inventory st < PARTS_PER_PRODUCT \/ available_workers st <= 0)%Z ->
     assemble_products st = (Timeout 60 assemble_products_loop, st)) /\
  (power_outage st = false ->
     (PARTS_PER_PRODUCT <= parts_inventory st)%Z ->
     (0 < available_workers st)%Z ->
     (active_worker_requests st + 1 > available_workers st)%Z ->
     fst (assemble_products st) = Timeout 60 assemble_products_loop /\
     resources (snd (assemble_products st)) = resources st /\
     ledger (snd (assemble_products st)) = ledger st /\
     active_worker_requests (snd (assemble_products st))
     = (active_worker_requests st + 1 - 1)%Z).
Proof.
  split; [| split; [| split; [| split; [| split ] ] ] ].
  - intros Hp. unfold produce_parts. rewrite Hp. reflexivity.
  - intros Hp Hg. unfold produce_parts. rewrite Hp.
    replace ((raw_materials st <=? 0)%Z || (operational_cnc_machines st <=? 0)%Z
             || (available_workers st <=? 0)%Z) with true; [ reflexivity |].
    symmetry. rewrite !orb_true_iff, !Z.leb_le. tauto.
  - intros cnc_req worker_req Hp Hr. unfold produce_parts_got_worker.
    record_simpl.
    replace (Z.min 15 (raw_materials st) <=? 0)%Z with true
      by (symmetry; apply Z.leb_le; lia).
    unfold produce_parts. record_simpl. rewrite Hp.
    replace (raw_materials st <=? 0)%Z with true
      by (symmetry; apply Z.leb_le; lia).
    reflexivity.
  - intros Hp. unfold assemble_products. rewrite Hp. reflexivity.
  - intros Hp Hg. unfold assemble_products. rewrite Hp.
    replace ((parts_inventory st <? PARTS_PER_PRODUCT)%Z
             || (available_workers st <=? 0)%Z) with true; [ reflexivity |].
    symmetry. rewrite orb_true_iff, Z.ltb_lt, Z.leb_le. tauto.
  - intros Hp Hparts Hw Hact. unfold assemble_products. rewrite Hp.
    replace ((parts_inventory st <? PARTS_PER_PRODUCT)%Z
             || (available_workers st <=? 0)%Z) with false.
    + record_simpl. rewrite Zgtb_true by lia. repeat split; reflexivity.
    + symmetry. rewrite orb_false_iff, Z.ltb_ge, Z.leb_gt. split; lia.
Qed.

Lemma C8_repoll_delays_witness :
  power_outage after_first_assembly = false /\
  (parts_inventory after_first_assembly < PARTS_PER_PRODUCT)%Z /\
  assemble_products after_first_assembly
  = (Timeout 60 assemble_products_loop, after_first_assembly).
Proof.
  assert (Hp : power_outage after_first_assembly = false) by (vm_compute; reflexivity).
  assert (Hparts : (parts_inventory after_first_assembly < PARTS_PER_PRODUCT)%Z)
    by (vm_compute; reflexivity).
  destruct (C8_repoll_delays after_first_assembly) as (_ & _ & _ & _ & H & _).
  split; [ exact Hp | split; [ exact Hparts |] ].
  apply H; [ exact Hp | left; exact Hparts ].
Defined.
(** ** C10: cancelling orders with a small backlog *)

(** C10.  When CANCEL_PENDING_ORDERS is executed with [backlog <= 10], the
    execution returns and itself only writes to the log (two entries: the
    "Executing" line and the "Backlog too small" line): backlog, cancelled
    orders and revenue keep their values; [modify_strategy] has by then
    added the implementation cost of 20000 to [costs]. *)
Theorem C10_cancel_pending_orders_small_backlog
    (custom_duration : option Z) (st : Factory) :
  (backlog st <= 10)%Z ->
  let r := modify_strategy (strategy_index CANCEL_PENDING_ORDERS)
             true custom_duration st in
  let st' := outcome_state r in
  r = Returns "One-time strategy executed: Cancel Low-Priority Orders"%string st' /\
  (forall st0 : Factory, (backlog st0 <= 10)%Z ->
     exists l, execute_one_time_strategy CANCEL_PENDING_ORDERS st0
               = Returns tt (set_logs (logs st0 ++ l) st0)) /\
  backlog st' = backlog st /\
  cancelled_orders st' = cancelled_orders st /\
  revenue st' = revenue st /\
  costs st' = costs st + 20000.
Proof.
  intros Hb r st'. split; [| split ].
  - subst st' r. rewrite modify_strategy_at.
    cbn [ONE_TIME_STRATEGIES].
    destruct (warn_if_unaffordable_logs CANCEL_PENDING_ORDERS st) as [l ->].
    unfold execute_one_time_strategy. record_simpl.
    replace (backlog st >? 10)%Z with false
      by (symmetry; apply Zgtb_false; exact Hb).
    reflexivity.
  - intros st0 H0. unfold execute_one_time_strategy.
    replace (backlog (log LogLevel.STRATEGY "Execution"
              "Executing one-time strategy: {strategy.value}" st0) >? 10)%Z
      with false by (record_simpl; symmetry; apply Zgtb_false; exact H0).
    eexists. unfold log. record_simpl. rewrite <- app_assoc. reflexivity.
  - subst st' r. rewrite modify_strategy_at.
    cbn [ONE_TIME_STRATEGIES].
    destruct (warn_if_unaffordable_logs CANCEL_PENDING_ORDERS st) as [l ->].
    unfold execute_one_time_strategy. record_simpl.
    replace (backlog st >? 10)%Z with false
      by (symmetry; apply Zgtb_false; exact Hb).
    record_simpl. repeat split; reflexivity.
Qed.

Lemma C10_cancel_pending_orders_small_backlog_witness :
  (backlog init <= 10)%Z /\
  let st' := outcome_state (modify_strategy (strategy_index CANCEL_PENDING_ORDERS)
                              true None init) in
  backlog st' = backlog init /\ costs st' = costs init + 20000.
Proof.
  assert (H : (backlog init <= 10)%Z) by (vm_compute; congruence).
  split; [ exact H | ].
  destruct (C10_cancel_pending_orders_small_backlog None init H)
    as (_ & _ & H1 & _ & _ & H2).
  split; assumption.
Defined.

(** ** C4: resizing a resource pool *)

Lemma after_sell_twice_run :
  run sell_twice_trace init = Some after_sell_twice.
Proof. vm_compute. reflexivity. Qed.

(** C4, as stated, fails.  Four producers hold a CNC machine when two
    machines are sold; the pool now has capacity 3 and four slots are in
    use.  No slot has been released, yet the request that the fifth producer
    makes next is granted on the spot. *)
Lemma C4_acquisition_succeeds_above_new_capacity :
  reachable after_sell_twice /\
  NUM_CNC_MACHINES after_sell_twice = 3%Z /\
  cnc_machines after_sell_twice = 5%nat /\
  nth_error (resources after_sell_twice) 0
  = Some {| capacity := 5; users := [0; 1; 2; 3]%nat; queue := [] |} /\
  nth_error (resources after_sell_twice) 5
  = Some {| capacity := 3; users := [4%nat]; queue := [] |} /\
  nth_error (procs after_sell_twice) 8
  = Some {| wake := None; cont := produce_parts_cnc (5%nat, 4%nat) |} /\
  granted (5%nat, 4%nat) after_sell_twice = true.
Proof.
  split; [ exact (run_reachable _ _ _ reachable_init after_sell_twice_run) |].
  repeat split; vm_compute; reflexivity.
Qed.

Lemma nth_error_app_old {A : Type} (l l' : list A) (h : nat) (x : A) :
  nth_error l h = Some x -> nth_error (l ++ l') h = Some x.
Proof.
  intros H. rewrite nth_error_app1; [ exact H |].
  apply nth_error_Some. congruence.
Qed.

Lemma nth_error_app_new {A : Type} (l : list A) (x : A) :
  nth_error (l ++ [x]) (List.length l) = Some x.
Proof.
  rewrite nth_error_app2 by lia. rewrite Nat.sub_diag. reflexivity.
Qed.

(** A request on a Resource object without users is granted at once when
    the capacity is positive. *)
Lemma request_on_fresh_pool (h : nat) (c : Z) (st : Factory) :
  nth_error (resources st) h = Some {| capacity := c; users := []; queue := [] |} ->
  (0 < c)%Z ->
  granted (fst (request h st)) (snd (request h st)) = true.
Proof.
  intros Hh Hc. unfold request, granted. cbn [fst snd]. record_simpl.
  unfold list_update.
  rewrite Hh. rewrite nth_error_list_set_eq
    by (apply nth_error_Some; congruence).
  unfold Resource_request, trigger_put, count. cbn.
  replace (0 <? c)%Z with true by (symmetry; apply Z.ltb_lt; exact Hc).
  cbn. rewrite Nat.eqb_refl. reflexivity.
Qed.

(** C4, amended.  Purchasing or selling a CNC machine and hiring or
    reducing workers replace the pool by a new Resource object of the new
    capacity, with no users and no queue.  Every Resource object that
    existed before is unchanged, so no holder loses its slot.  A request on
    the new pool is granted at once, however many slots of the replaced pool
    are still held. *)
Theorem C4_resize_replaces_pool (s : AdaptationStrategy.t) (st : Factory) :
  resizes s st = true ->
  let st' := outcome_state (execute_one_time_strategy s st) in
  execute_one_time_strategy s st = Returns tt st' /\
  resized_pool s st' = List.length (resources st) /\
  nth_error (resources st') (resized_pool s st')
  = Some {| capacity := resized_capacity s st; users := []; queue := [] |} /\
  (forall h r, nth_error (resources st) h = Some r ->
               nth_error (resources st') h = Some r) /\
  ((0 < resized_capacity s st)%Z ->
   granted (fst (request (resized_pool s st') st'))
           (snd (request (resized_pool s st') st')) = true).
Proof.
  intros Hr st'.
  assert (H12 :
    execute_one_time_strategy s st = Returns tt st' /\
    resized_pool s st' = List.length (resources st) /\
    nth_error (resources st') (resized_pool s st')
    = Some {| capacity := resized_capacity s st; users := []; queue := [] |} /\
    (forall h r, nth_error (resources st) h = Some r ->
                 nth_error (resources st') h = Some r)).
  { subst st'. unfold execute_one_time_strategy, simpy_Resource.
    destruct s; try discriminate Hr; cbn [resizes] in Hr;
      record_simpl; try rewrite Hr;
      repeat match goal with
             | |- context [if ?c then _ else _] => destruct c
             end;
      cbn [resized_pool resized_capacity]; record_simpl;
      (split; [ reflexivity
              | split; [ reflexivity
                       | split; [ apply nth_error_app_new
                                | intros h r Hh; apply nth_error_app_old; exact Hh ] ] ]). }
  destruct H12 as (H0 & H1 & H2 & H3).
  repeat split; try assumption.
  intros Hc. exact (request_on_fresh_pool _ _ _ H2 Hc).
Qed.

Lemma C4_resize_replaces_pool_witness :
  resizes SELL_CNC_MACHINE init = true /\
  let st' := outcome_state (execute_one_time_strategy SELL_CNC_MACHINE init) in
  nth_error (resources st') (cnc_machines st')
  = Some {| capacity := 4; users := []; queue := [] |} /\
  nth_error (resources st') 0 = nth_error (resources init) 0.
Proof.
  assert (H : resizes SELL_CNC_MACHINE init = true) by reflexivity.
  split; [ exact H |].
  destruct (C4_resize_replaces_pool SELL_CNC_MACHINE init H) as (_ & _ & H2 & H3 & _).
  split; [ exact H2 | apply H3; reflexivity ].
Defined.

(** ** C5: acquiring two pools together *)

Lemma after_qc_queue_run : run qc_queue_trace init = Some after_qc_queue.
Proof. vm_compute. reflexivity. Qed.

Lemma after_three_inspections_run :
  run three_inspections_trace init = Some after_three_inspections.
Proof. vm_compute. reflexivity. Qed.

(** C5, as stated, fails.  150 minutes into a run without disruptions the
    first assembler has handed five units to inspection and there are three
    QC stations.  The fourth inspection (process 18) made its two requests
    together: the worker request 29 was granted, the station request 28 is
    queued.  The process is blocked, and it holds a worker. *)
Lemma C5_inspector_holds_worker_while_waiting :
  reachable after_qc_queue /\
  nth_error (procs after_qc_queue) 18
  = Some {| wake := None;
            cont := product_to_qc_both (2%nat, 28%nat) (3%nat, 29%nat) |} /\
  qc_stations after_qc_queue = 2%nat /\ workers after_qc_queue = 3%nat /\
  granted (3%nat, 29%nat) after_qc_queue = true /\
  granted (2%nat, 28%nat) after_qc_queue = false /\
  option_map queue (nth_error (resources after_qc_queue) 2) = Some [28%nat] /\
  requests_granted
    {| wake := None;
       cont := product_to_qc_both (2%nat, 28%nat) (3%nat, 29%nat) |}
    after_qc_queue = false.
Proof.
  split; [ exact (run_reachable _ _ _ reachable_init after_qc_queue_run) |].
  repeat split; vm_compute; reflexivity.
Qed.

(** What a pool does with a new request. *)
Lemma Resource_request_room (rid : nat) (r : Resource) :
  has_room r ->
  Resource_request rid r
  = {| capacity := capacity r; users := users r ++ [rid]; queue := [] |}.
Proof.
  intros [Hq Hc]. unfold Resource_request, trigger_put. cbn. rewrite Hq. cbn.
  unfold count in *. cbn.
  replace (Z.of_nat (List.length (users r)) <? capacity r)%Z with true
    by (symmetry; apply Z.ltb_lt; exact Hc).
  reflexivity.
Qed.

Lemma Resource_request_full (rid : nat) (r : Resource) :
  is_full r ->
  Resource_request rid r
  = {| capacity := capacity r; users := users r; queue := queue r ++ [rid] |}.
Proof.
  intros Hf. unfold Resource_request, trigger_put, is_full, count in *. cbn.
  destruct (queue r ++ [rid]) as [| x q] eqn:Hq; [ reflexivity |].
  replace (Z.of_nat (List.length (users r)) <? capacity r)%Z with false
    by (symmetry; apply Z.ltb_ge; exact Hf).
  reflexivity.
Qed.

(** Two requests made one after the other on two different pools. *)
Lemma request_pair (a b : nat) (ra rb : Resource) (st : Factory) :
  nth_error (resources st) a = Some ra ->
  nth_error (resources st) b = Some rb ->
  a <> b ->
  let n := next_request st in
  let st2 := snd (request b (snd (request a st))) in
  fst (request a st) = (a, n) /\
  fst (request b (snd (request a st))) = (b, S n) /\
  nth_error (resources st2) a = Some (Resource_request n ra) /\
  nth_error (resources st2) b = Some (Resource_request (S n) rb).
Proof.
  intros Ha Hb Hab n st2. subst st2 n. unfold request. cbn [fst snd]. record_simpl.
  unfold list_update.
  rewrite Ha. rewrite (nth_error_list_set_neq a b) by exact Hab. rewrite Hb.
  split; [ reflexivity |]. split; [ reflexivity |]. split.
  - rewrite nth_error_list_set_neq by congruence.
    apply nth_error_list_set_eq. apply nth_error_Some. congruence.
  - apply nth_error_list_set_eq. rewrite length_list_set.
    apply nth_error_Some. congruence.
Qed.

Lemma existsb_eqb_In (x : nat) (l : list nat) :
  existsb (Nat.eqb x) l = true <-> In x l.
Proof.
  rewrite existsb_exists. split.
  - intros (y & Hy & He). apply Nat.eqb_eq in He. now subst.
  - intros H. exists x. split; [ exact H | apply Nat.eqb_refl ].
Qed.

Lemma existsb_eqb_not_In (x : nat) (l : list nat) :
  ~ In x l -> existsb (Nat.eqb x) l = false.
Proof.
  intros H. destruct (existsb (Nat.eqb x) l) eqn:E; [| reflexivity ].
  apply existsb_eqb_In in E. contradiction.
Qed.

(** C5, amended.  The two requests of a compound acquisition are made one
    after the other and each is decided by its own pool alone; the process
    resumes only when both are granted.  So when the assembly stations have
    a free slot and the workers have none, the assembler, once past its
    guards, takes a station slot at once and waits in the workers' queue
    holding it; and when a worker is free and no QC station is, the
    inspector takes a worker slot at once and waits in the stations' queue
    holding it. *)
Theorem C5_compound_requests_are_independent (st : Factory) (r1 r2 : Resource) :
  let n := next_request st in
  (* the assembler: station free, workers all taken *)
  (power_outage st = false ->
   (PARTS_PER_PRODUCT <= parts_inventory st)%Z ->
   (0 < available_workers st)%Z ->
   (active_worker_requests st + 1 <= available_workers st)%Z ->
   nth_error (resources st) (assembly_stations st) = Some r1 ->
   nth_error (resources st) (workers st) = Some r2 ->
   assembly_stations st <> workers st ->
   has_room r1 -> is_full r2 -> ~ In (S n) (users r2) ->
   let a := (assembly_stations st, n) in
   let w := (workers st, S n) in
   let st' := snd (assemble_products st) in
   fst (assemble_products st) = Await (assemble_products_both a w) /\
   granted a st' = true /\ granted w st' = false /\
   option_map queue (nth_error (resources st') (workers st)) = Some (queue r2 ++ [S n]) /\
   requests_granted {| wake := None; cont := assemble_products_both a w |} st' = false) /\
  (* the inspector: worker free, QC stations all taken *)
  (power_outage st = false ->
   nth_error (resources st) (qc_stations st) = Some r1 ->
   nth_error (resources st) (workers st) = Some r2 ->
   qc_stations st <> workers st ->
   is_full r1 -> has_room r2 -> ~ In n (users r1) ->
   let q := (qc_stations st, n) in
   let w := (workers st, S n) in
   let st' := snd (product_to_qc st) in
   fst (product_to_qc st) = Await (product_to_qc_both q w) /\
   granted q st' = false /\ granted w st' = true /\
   option_map queue (nth_error (resources st') (qc_stations st)) = Some (queue r1 ++ [n]) /\
   requests_granted {| wake := None; cont := product_to_qc_both q w |} st' = false) /\
  (* either process resumes only with both requests granted *)
  (forall a w s,
     requests_granted {| wake := None; cont := assemble_products_both a w |} s
     = granted a s && granted w s /\
     requests_granted {| wake := None; cont := product_to_qc_both a w |} s
     = granted a s && granted w s).
Proof.
  intros n. split; [| split ].
  - intros Hp Hparts Hw Hact H1 H2 Hne Hroom Hfull Hfresh a w st'.
    assert (E : assemble_products st
                = (Await (assemble_products_both a w),
                   snd (request (workers st)
                          (snd (request (assembly_stations st)
                                  (set_active_worker_requests
                                     (active_worker_requests st + 1) st)))))).
    { unfold assemble_products. rewrite Hp.
      replace ((parts_inventory st <? PARTS_PER_PRODUCT)%Z
               || (available_workers st <=? 0)%Z) with false
        by (symmetry; rewrite orb_false_iff, Z.ltb_ge, Z.leb_gt; split; lia).
      record_simpl. rewrite Zgtb_false by lia.
      unfold request. record_simpl. reflexivity. }
    subst st'. rewrite E. cbn [fst snd].
    destruct (request_pair (assembly_stations st) (workers st) r1 r2
                (set_active_worker_requests (active_worker_requests st + 1) st))
      as (_ & _ & Ha & Hb); try assumption.
    record_simpl. fold n in Ha, Hb.
    unfold granted, a, w. cbn [fst snd]. rewrite Ha, Hb.
    rewrite (Resource_request_room n r1 Hroom).
    rewrite (Resource_request_full (S n) r2 Hfull). cbn [users queue option_map].
    assert (G1 : existsb (Nat.eqb n) (users r1 ++ [n]) = true).
    { apply existsb_eqb_In, in_or_app. right. left. reflexivity. }
    assert (G2 : existsb (Nat.eqb (S n)) (users r2) = false)
      by (apply existsb_eqb_not_In; exact Hfresh).
    split; [ reflexivity |]. split; [ exact G1 |]. split; [ exact G2 |].
    split; [ reflexivity |].
    unfold requests_granted. cbn [wake cont awaited forallb].
    unfold granted. cbn [fst snd]. rewrite Ha, Hb.
    rewrite (Resource_request_room n r1 Hroom).
    rewrite (Resource_request_full (S n) r2 Hfull). cbn [users].
    rewrite G1, G2. reflexivity.
  - intros Hp H1 H2 Hne Hfull Hroom Hfresh q w st'.
    assert (E : product_to_qc st
                = (Await (product_to_qc_both q w),
                   snd (request (workers st)
                          (snd (request (qc_stations st)
                                  (set_active_qc_requests
                                     (active_qc_requests st + 1) st)))))).
    { unfold product_to_qc. rewrite Hp. unfold request. record_simpl. reflexivity. }
    subst st'. rewrite E. cbn [fst snd].
    destruct (request_pair (qc_stations st) (workers st) r1 r2
                (set_active_qc_requests (active_qc_requests st + 1) st))
      as (_ & _ & Ha & Hb); try assumption.
    record_simpl. fold n in Ha, Hb.
    unfold granted, q, w. cbn [fst snd]. rewrite Ha, Hb.
    rewrite (Resource_request_full n r1 Hfull).
    rewrite (Resource_request_room (S n) r2 Hroom). cbn [users queue option_map].
    assert (G1 : existsb (Nat.eqb n) (users r1) = false)
      by (apply existsb_eqb_not_In; exact Hfresh).
    assert (G2 : existsb (Nat.eqb (S n)) (users r2 ++ [S n]) = true).
    { apply existsb_eqb_In, in_or_app. right. left. reflexivity. }
    split; [ reflexivity |]. split; [ exact G1 |]. split; [ exact G2 |].
    split; [ reflexivity |].
    unfold requests_granted. cbn [wake cont awaited forallb].
    unfold granted. cbn [fst snd]. rewrite Ha, Hb.
    rewrite (Resource_request_full n r1 Hfull).
    rewrite (Resource_request_room (S n) r2 Hroom). cbn [users].
    rewrite G1, G2. reflexivity.
  - intros a w s. unfold requests_granted. cbn [wake cont awaited forallb].
    rewrite !andb_true_r. split; reflexivity.
Qed.

Lemma C5_compound_requests_are_independent_witness :
  let st := after_three_inspections in
  let r1 := {| capacity := 3; users := [22; 24; 26]%nat; queue := [] |} in
  let r2 := {| capacity := 12;
               users := [1; 3; 5; 7; 9; 17; 19; 21; 23; 25; 27]%nat;
               queue := [] |} in
  power_outage st = false /\
  nth_error (resources st) (qc_stations st) = Some r1 /\
  nth_error (resources st) (workers st) = Some r2 /\
  granted (qc_stations st, next_request st) (snd (product_to_qc st)) = false /\
  granted (workers st, S (next_request st)) (snd (product_to_qc st)) = true.
Proof.
  intros st r1 r2.
  assert (Hp : power_outage st = false) by (vm_compute; reflexivity).
  assert (H1 : nth_error (resources st) (qc_stations st) = Some r1)
    by (vm_compute; reflexivity).
  assert (H2 : nth_error (resources st) (workers st) = Some r2)
    by (vm_compute; reflexivity).
  destruct (C5_compound_requests_are_independent st r1 r2) as (_ & H & _).
  destruct H as (_ & G1 & G2 & _); try assumption.
  - vm_compute. congruence.
  - vm_compute. congruence.
  - split; [ reflexivity | vm_compute; reflexivity ].
  - vm_compute. intuition congruence.
  - repeat split; assumption.
Defined.

(** ** C1: activation followed by deactivation *)

Lemma is_active_added (s : AdaptationStrategy.t) (l : list AdaptationStrategy.t) :
  existsb (AdaptationStrategy.eqb s) (l ++ [s]) = true.
Proof.
  rewrite existsb_app. cbn. unfold AdaptationStrategy.eqb.
  destruct (AdaptationStrategy.eq_dec s s); [| congruence ].
  now rewrite orb_true_r.
Qed.

Lemma is_active_removed (s : AdaptationStrategy.t) (l : list AdaptationStrategy.t) :
  existsb (AdaptationStrategy.eqb s)
    (filter (fun x => negb (AdaptationStrategy.eqb s x)) l) = false.
Proof.
  induction l as [| x l IH]; cbn; [ reflexivity |].
  destruct (AdaptationStrategy.eqb s x) eqn:E; cbn; [ exact IH |].
  rewrite E. exact IH.
Qed.

(** The bookkeeping part of [apply_strategy_effects] leaves the globals,
    the quality record, the ledger and the active set alone. *)
Lemma record_strategy_change_frame (s : AdaptationStrategy.t) (b : bool)
    (st : Factory) :
  globals (record_strategy_change s b st) = globals st /\
  quality (record_strategy_change s b st) = quality st /\
  ledger (record_strategy_change s b st) = ledger st /\
  adaptation_strategies (record_strategy_change s b st) = adaptation_strategies st.
Proof.
  unfold record_strategy_change. destruct b; record_simpl; repeat split; reflexivity.
Qed.

Lemma strategy_effect_active_set (s : AdaptationStrategy.t) (b : bool)
    (st : Factory) :
  adaptation_strategies (strategy_effect s b st) = adaptation_strategies st.
Proof.
  unfold strategy_effect. destruct s, b; record_simpl; reflexivity.
Qed.

(** What [apply_strategy_effects] leaves alone: the active set. *)
Lemma apply_strategy_effects_active_set (s : AdaptationStrategy.t) (b : bool)
    (st : Factory) :
  adaptation_strategies (apply_strategy_effects s b st) = adaptation_strategies st.
Proof.
  unfold apply_strategy_effects. rewrite strategy_effect_active_set.
  apply record_strategy_change_frame.
Qed.

Lemma same_rates_refl (st : Factory) : same_rates st st.
Proof. unfold same_rates. repeat split; reflexivity. Qed.

Lemma same_rates_sym (a b : Factory) : same_rates a b -> same_rates b a.
Proof.
  unfold same_rates. intros (H1 & H2 & H3 & H4 & H5 & H6 & H7).
  repeat split; symmetry; assumption.
Qed.

Lemma same_rates_trans (a b c : Factory) :
  same_rates a b -> same_rates b c -> same_rates a c.
Proof.
  unfold same_rates.
  intros (H1 & H2 & H3 & H4 & H5 & H6 & H7) (G1 & G2 & G3 & G4 & G5 & G6 & G7).
  repeat split; etransitivity; eassumption.
Qed.

(** States with the same globals and quality record have the same rates. *)
Lemma same_rates_groups (a b : Factory) :
  globals a = globals b -> quality a = quality b -> same_rates a b.
Proof.
  unfold same_rates. intros Hg Hq. rewrite Hg, Hq. repeat split; reflexivity.
Qed.

Lemma same_rates_set_DURATION (v : dict AdaptationStrategy.t Z) (z : Factory) :
  same_rates z (set_DURATION v z).
Proof. unfold same_rates. repeat split; reflexivity. Qed.

(** [strategy_effect] computes the new rates from the old ones. *)
Lemma strategy_effect_rates (s : AdaptationStrategy.t) (b : bool)
    (st st' : Factory) :
  same_rates st st' ->
  same_rates (strategy_effect s b st) (strategy_effect s b st').
Proof.
  unfold same_rates, strategy_effect.
  destruct s, b; record_simpl;
    intros (H1 & H2 & H3 & H4 & H5 & H6 & H7);
    repeat split; try assumption;
    first [ apply Qmult_comp; [ assumption | reflexivity ]
          | apply Qdiv_comp; [ assumption | reflexivity ] ].
Qed.

Lemma record_strategy_change_rates (s : AdaptationStrategy.t) (b : bool)
    (st : Factory) :
  same_rates st (record_strategy_change s b st).
Proof.
  destruct (record_strategy_change_frame s b st) as (Hg & Hq & _).
  apply same_rates_groups; symmetry; assumption.
Qed.

Lemma apply_strategy_effects_rates (s : AdaptationStrategy.t) (b : bool)
    (st st' : Factory) :
  same_rates st st' ->
  same_rates (apply_strategy_effects s b st) (apply_strategy_effects s b st').
Proof.
  intros H. unfold apply_strategy_effects. apply strategy_effect_rates.
  eapply same_rates_trans; [ apply same_rates_sym, record_strategy_change_rates |].
  eapply same_rates_trans; [ exact H |]. apply record_strategy_change_rates.
Qed.

(** Switching the effect off undoes switching it on. *)
Lemma strategy_effect_round_trip (s : AdaptationStrategy.t) (st : Factory) :
  same_rates st (strategy_effect s false (strategy_effect s true st)).
Proof.
  unfold same_rates, strategy_effect.
  destruct s; record_simpl; repeat split; try reflexivity; field.
Qed.

Lemma apply_strategy_effects_round_trip (s : AdaptationStrategy.t)
    (st mid : Factory) :
  same_rates (apply_strategy_effects s true st) mid ->
  same_rates st (apply_strategy_effects s false mid).
Proof.
  intros H. unfold apply_strategy_effects in *.
  eapply same_rates_trans; [ apply strategy_effect_round_trip |].
  apply strategy_effect_rates.
  eapply same_rates_trans; [| apply record_strategy_change_rates ].
  eapply same_rates_trans; [| exact H ].
  apply strategy_effect_rates, record_strategy_change_rates.
Qed.

(** Activation by [modify_strategy]: the rates are those that
    [apply_strategy_effects] computes, the strategy joins the active set. *)
Lemma modify_strategy_activate (s : AdaptationStrategy.t)
    (d : option Z) (st : Factory) :
  ONE_TIME_STRATEGIES s = false -> is_active s st = false ->
  let st1 := outcome_state (modify_strategy (strategy_index s) true d st) in
  same_rates (apply_strategy_effects s true st) st1 /\
  adaptation_strategies st1 = adaptation_strategies st ++ [s] /\
  is_active s st1 = true.
Proof.
  intros Hp Ha st1. subst st1. rewrite modify_strategy_at, Hp, Ha.
  cbn [negb]. cbv zeta. cbn [outcome_state].
  destruct (warn_if_unaffordable_logs s st) as [l Hl]. rewrite Hl.
  unfold strategies_add.
  replace (is_active s (set_logs l st)) with false by (symmetry; exact Ha).
  set (x := set_adaptation_strategies (adaptation_strategies (set_logs l st) ++ [s])
              (set_logs l st)).
  assert (Hx : same_rates st x) by (apply same_rates_groups; reflexivity).
  assert (Hs : adaptation_strategies x = adaptation_strategies st ++ [s])
    by reflexivity.
  assert (K : forall y : Factory,
            same_rates st y ->
            adaptation_strategies y = adaptation_strategies st ++ [s] ->
            forall z : Factory,
            same_rates (apply_strategy_effects s true y) z ->
            adaptation_strategies z
            = adaptation_strategies (apply_strategy_effects s true y) ->
            same_rates (apply_strategy_effects s true st) z /\
            adaptation_strategies z = adaptation_strategies st ++ [s] /\
            is_active s z = true).
  { intros y Hy Hys z Hz Hzs.
    assert (Hact : adaptation_strategies z = adaptation_strategies st ++ [s]).
    { rewrite Hzs, apply_strategy_effects_active_set. exact Hys. }
    split; [| split; [ exact Hact |] ].
    - eapply same_rates_trans; [| exact Hz ].
      apply apply_strategy_effects_rates, Hy.
    - unfold is_active. rewrite Hact. apply is_active_added. }
  destruct d as [d |]; [ destruct (d >? 0)%Z |]; cbv iota beta.
  - eapply K; [ | | apply same_rates_set_DURATION | reflexivity ].
    + eapply same_rates_trans; [ exact Hx |].
      unfold same_rates. repeat split; reflexivity.
    + exact Hs.
  - apply (K x Hx Hs); [ apply same_rates_refl | reflexivity ].
  - apply (K x Hx Hs); [ apply same_rates_refl | reflexivity ].
Qed.

(** Deactivation by [modify_strategy] of an active persistent strategy. *)
Lemma modify_strategy_deactivate (s : AdaptationStrategy.t)
    (d : option Z) (st : Factory) :
  ONE_TIME_STRATEGIES s = false -> is_active s st = true ->
  let st2 := outcome_state (modify_strategy (strategy_index s) false d st) in
  same_rates (apply_strategy_effects s false st) st2 /\
  is_active s st2 = false.
Proof.
  intros Hp Ha st2. subst st2. rewrite modify_strategy_at, Hp, Ha.
  cbn [negb andb]. cbv zeta. cbn [outcome_state].
  match goal with
  | |- context [strategies_remove s ?y] => set (x := y)
  end.
  assert (Hx : same_rates st x).
  { subst x. destruct (Qltb _ _); apply same_rates_groups; reflexivity. }
  split.
  - apply apply_strategy_effects_rates.
    eapply same_rates_trans; [ exact Hx |].
    apply same_rates_groups; reflexivity.
  - unfold is_active. rewrite apply_strategy_effects_active_set.
    apply is_active_removed.
Qed.

(** The round trip of the spec, for the record: with nothing else writing
    the rate parameters in between, deactivating a persistent strategy
    restores the rates it had scaled, and activating preventive maintenance
    scales the failure chance by 0.2. *)
Lemma round_trip_without_interference
    (s : AdaptationStrategy.t) (d d' : option Z) (st : Factory) :
  ONE_TIME_STRATEGIES s = false -> is_active s st = false ->
  let st1 := outcome_state (modify_strategy (strategy_index s) true d st) in
  let st2 := outcome_state (modify_strategy (strategy_index s) false d' st1) in
  same_rates st st2 /\ is_active s st2 = false /\
  (s = PREVENTIVE_MAINTENANCE ->
   CNC_FAILURE_CHANCE st1 == CNC_FAILURE_CHANCE st * 0.2).
Proof.
  intros Hp Ha st1 st2.
  destruct (modify_strategy_activate s d st Hp Ha) as (R1 & _ & A1).
  fold st1 in R1, A1.
  destruct (modify_strategy_deactivate s d' st1 Hp A1) as (R2 & A2).
  fold st2 in R2, A2.
  split; [| split; [ exact A2 |] ].
  - eapply same_rates_trans; [| exact R2 ].
    apply apply_strategy_effects_round_trip, R1.
  - intros ->. destruct R1 as (R1 & _). rewrite R1.
    unfold apply_strategy_effects, strategy_effect, record_strategy_change.
    record_simpl. reflexivity.
Qed.

(** C1.  The code at the failing input: quality monitoring is activated
    (defect rate 0.02 * 0.4 = 0.008), a quality issue starts (defect rate
    set to 0.15) and ends (defect rate reset to the constant 0.02) while the
    strategy is still active; deactivation, by command or by expiration at
    the hourly tick, then divides by 0.4 and leaves the defect rate at 0.05,
    not at its pre-activation value 0.02.  The quality-issue chance, which
    nothing else wrote, is back at its pre-activation value. *)
Theorem C1_quality_issue_breaks_round_trip :
  is_active QUALITY_MONITORING init = false /\
  defect_rate init == 0.02 /\
  is_active QUALITY_MONITORING quality_monitoring_on = true /\
  defect_rate quality_monitoring_on == 0.008 /\
  fst (quality_control_issue (4 * 60) quality_monitoring_on)
  = Timeout (4 * 60) quality_control_issue_wait /\
  defect_rate quality_issue_started == 0.15 /\
  defect_rate quality_issue_over == 0.02 /\
  is_active QUALITY_MONITORING quality_issue_over = true /\
  is_active QUALITY_MONITORING quality_monitoring_off = false /\
  QUALITY_ISSUE_CHANCE quality_monitoring_off == QUALITY_ISSUE_CHANCE init /\
  defect_rate quality_monitoring_off == 0.05 /\
  is_active QUALITY_MONITORING quality_monitoring_expired = false /\
  defect_rate quality_monitoring_expired == 0.05 /\
  ~ defect_rate quality_monitoring_off == defect_rate init /\
  ~ defect_rate quality_monitoring_expired == defect_rate init.
Proof.
  repeat match goal with
         | |- _ /\ _ => split
         end;
    try (vm_compute; reflexivity);
    intros H; vm_compute in H; discriminate.
Qed.

(** ** C9: the command ingress *)





(** The conversion of a duration is the one of binary64: 0.7 days, which is
    the float just below seven tenths, are 1007 minutes and not 1008; the
    integer ten to the 400 is out of the range of the floats; NaN is not an
    integer. *)
Lemma duration_minutes_in_binary64 (f : string -> option float) :
  duration_minutes f (JFloat 0x1.6666666666666p-1%float) = Value 1007%Z /\
  duration_minutes f (JInt 30) = Value 43200%Z /\
  duration_minutes f (JInt (10 ^ 400)) = Except OverflowError /\
  duration_minutes f (JFloat infinity) = Except OverflowError /\
  duration_minutes f (JFloat nan) = Except ValueError /\
  duration_minutes f JNull = Except TypeError.
Proof. repeat split; vm_compute; reflexivity. Qed.






(** * Invariants of the reachable states *)

(** ** Arithmetic of the quantities the program computes *)

Lemma Qleb_le (a b : Q) : Qleb a b = true <-> a <= b.
Proof. unfold Qleb, Qle. apply Z.leb_le. Qed.

Lemma Qltb_lt (a b : Q) : Qltb a b = true <-> a < b.
Proof. unfold Qltb, Qlt. apply Z.ltb_lt. Qed.

Lemma within_bounds (a b x : Q) : within a b x = true -> a <= x /\ x <= b.
Proof.
  unfold within. intros H. apply andb_prop in H as [H1 H2].
  split; apply Qleb_le; assumption.
Qed.

Lemma withinZ_bounds (a b n : Z) : withinZ a b n = true -> (a <= n <= b)%Z.
Proof.
  unfold withinZ. intros H. apply andb_prop in H as [H1 H2].
  split; apply Z.leb_le; assumption.
Qed.

Lemma py_int_nonneg (x : Q) : 0 <= x -> (0 <= py_int x)%Z.
Proof.
  unfold Qle, py_int. cbn. intros H.
  apply Z.quot_pos; lia.
Qed.

Lemma inject_Z_nonneg (n : Z) : (0 <= n)%Z -> 0 <= #n.
Proof. intros H. unfold Qle. cbn. lia. Qed.

(** [int(n * q)] of a count [n] and a fraction [q] is a part of [n]. *)
Lemma py_int_fraction (n : Z) (q : Q) :
  (0 <= n)%Z -> 0 <= q -> q <= 1 -> (0 <= py_int (#n * q) <= n)%Z.
Proof.
  intros Hn H0 H1. split.
  - apply py_int_nonneg. apply Qmult_le_0_compat; [ apply inject_Z_nonneg |]; assumption.
  - unfold py_int. destruct q as [a d]. unfold Qle in *. cbn in *.
    assert (Ha : (a <= Zpos d)%Z) by lia.
    assert (Ha0 : (0 <= a)%Z) by lia.
    transitivity (Z.quot (n * Zpos d) (Zpos d)).
    + apply Z.quot_le_mono; [ lia | nia ].
    + rewrite Z.quot_mul; lia.
Qed.

Lemma Qdiv_nonneg (a b : Q) : 0 <= a -> 0 <= b -> 0 <= a / b.
Proof.
  intros Ha Hb. unfold Qdiv. apply Qmult_le_0_compat; [ exact Ha |].
  apply Qinv_le_0_compat. exact Hb.
Qed.

Lemma Qplus_nonneg (a b : Q) : 0 <= a -> 0 <= b -> 0 <= a + b.
Proof.
  intros Ha Hb. setoid_replace 0 with (0 + 0) by ring.
  apply Qplus_le_compat; assumption.
Qed.

Lemma Qdiv_pos (a b : Q) : 0 < a -> 0 < b -> 0 < a / b.
Proof.
  intros Ha Hb. unfold Qdiv. apply Qmult_lt_0_compat; [ exact Ha |].
  apply Qinv_lt_0_compat. exact Hb.
Qed.

(** Positivity of a product or quotient of positive quantities. *)
Ltac qpos :=
  repeat first
    [ assumption
    | apply Qmult_lt_0_compat
    | apply Qdiv_pos
    | reflexivity ].

(** Non-negativity of a product, quotient or sum of non-negative
    quantities. *)
Ltac qnn :=
  repeat first
    [ assumption
    | (apply Qlt_le_weak; assumption)
    | apply Qmult_le_0_compat
    | apply Qdiv_nonneg
    | apply Qplus_nonneg
    | apply inject_Z_nonneg
    | apply py_int_nonneg
    | lia
    | (unfold Qle; cbn; lia)
    | (vm_compute; congruence) ].

Ltac py_int_facts :=
  repeat match goal with
         | |- context [py_int (# ?n * ?q)] =>
             lazymatch goal with
             | H : (0 <= py_int (# n * q) <= n)%Z |- _ => fail
             | _ => assert (0 <= py_int (# n * q) <= n)%Z
                      by (apply py_int_fraction; [ qnn | qnn | qnn ])
             end
         | |- context [py_int ?x] =>
             lazymatch goal with
             | H : (0 <= py_int x)%Z |- _ => fail
             | H : (0 <= py_int x <= _)%Z |- _ => fail
             | _ => assert (0 <= py_int x)%Z by (apply py_int_nonneg; qnn)
             end
         end.

(** ** simpy.Resource keeps within its capacity *)

Lemma trigger_put_ok (r : Resource) : resource_ok r -> resource_ok (trigger_put r).
Proof.
  unfold resource_ok, trigger_put. intros H.
  destruct (queue r) as [| rid q]; [ exact H |].
  destruct (count r <? capacity r)%Z eqn:Hc; [| exact H ].
  apply Z.ltb_lt in Hc. unfold count in *. cbn.
  rewrite length_app. cbn. lia.
Qed.

Lemma Resource_request_ok (rid : nat) (r : Resource) :
  resource_ok r -> resource_ok (Resource_request rid r).
Proof. intros H. apply trigger_put_ok. exact H. Qed.

Lemma Resource_release_ok (rid : nat) (r : Resource) :
  resource_ok r -> resource_ok (Resource_release rid r).
Proof.
  intros H. apply trigger_put_ok. unfold resource_ok, count in *. cbn.
  pose proof (filter_length_le (fun u => negb (Nat.eqb u rid)) (users r)). lia.
Qed.

Lemma new_resource_ok (c : Z) :
  (0 <= c)%Z -> resource_ok {| capacity := c; users := []; queue := [] |}.
Proof. intros H. unfold resource_ok, count. cbn. lia. Qed.

Lemma length_list_update {A : Type} (i : nat) (f : A -> A) (l : list A) :
  List.length (list_update i f l) = List.length l.
Proof.
  unfold list_update. destruct (nth_error l i); [ apply length_list_set | reflexivity ].
Qed.

Lemma Forall_list_update {A : Type} (P : A -> Prop) (i : nat) (f : A -> A)
    (l : list A) :
  (forall x, P x -> P (f x)) -> Forall P l -> Forall P (list_update i f l).
Proof.
  intros Hf Hl. unfold list_update. destruct (nth_error l i) as [x |] eqn:Hx; [| exact Hl ].
  apply Forall_list_set; [ exact Hl |]. apply Hf.
  apply nth_error_In in Hx. rewrite Forall_forall in Hl. auto.
Qed.

Lemma length_list_pop {A : Type} (l : list A) :
  List.length (list_pop l) = Nat.pred (List.length l).
Proof.
  unfold list_pop. induction l as [| x l IH]; [ reflexivity |].
  destruct l as [| y l]; [ reflexivity |].
  change (removelast (x :: y :: l)) with (x :: removelast (y :: l)).
  cbn [List.length] in *. rewrite IH. reflexivity.
Qed.

(** ** Counting processes *)

Lemma filter_list_set_length {A : Type} (f : A -> bool) (i : nat) (x y : A)
    (l : list A) :
  nth_error l i = Some x ->
  (List.length (filter f (list_set i y l)) + Nat.b2n (f x) =
   List.length (filter f l) + Nat.b2n (f y))%nat.
Proof.
  revert i. induction l as [| z l IH]; intros [| i] H; cbn in *; try discriminate.
  - injection H as ->. destruct (f x), (f y); cbn; lia.
  - specialize (IH i H). destruct (f z); cbn; lia.
Qed.

Lemma filter_none {A : Type} (f : A -> bool) (l : list A) :
  Forall (fun x => f x = false) l -> filter f l = [].
Proof.
  induction 1 as [| x l Hx Hl IH]; cbn; [ reflexivity |].
  rewrite Hx. exact IH.
Qed.

Lemma nth_error_filter_pos {A : Type} (f : A -> bool) (i : nat) (x : A) (l : list A) :
  nth_error l i = Some x -> f x = true -> (1 <= List.length (filter f l))%nat.
Proof.
  intros H Hf. apply nth_error_In in H.
  assert (Hin : In x (filter f l)) by (apply filter_In; auto).
  destruct (filter f l); [ destruct Hin | cbn; lia ].
Qed.

Lemma starting_not_waiting (d : DisruptionType.t) (k : Cont) :
  starting k = true -> waiting d k = false.
Proof. destruct k, d; cbn; congruence. Qed.

(** ** How pieces of the program compose *)

Lemma spawned_same (st st' : Factory) :
  env_now st' = env_now st -> procs st' = procs st -> spawned st st'.
Proof.
  intros He H. split; [ exact He |]. exists []. rewrite app_nil_r.
  split; [ exact H | constructor ].
Qed.

Lemma spawned_trans (st1 st2 st3 : Factory) :
  spawned st1 st2 -> spawned st2 st3 -> spawned st1 st3.
Proof.
  intros (E1 & n1 & H1 & F1) (E2 & n2 & H2 & F2). split; [ congruence |].
  exists (n1 ++ n2).
  rewrite H2, H1, app_assoc. split; [ reflexivity |].
  apply Forall_app. split; [ exact F1 |].
  rewrite E1 in F2. exact F2.
Qed.

Lemma keeps_refl (st : Factory) : keeps st st.
Proof.
  split; [ auto | split; [ apply spawned_same; reflexivity | reflexivity ] ].
Qed.

Lemma keeps_trans (st1 st2 st3 : Factory) :
  keeps st1 st2 -> keeps st2 st3 -> keeps st1 st3.
Proof.
  intros (A1 & B1 & C1) (A2 & B2 & C2). split; [ auto | split ].
  - exact (spawned_trans _ _ _ B1 B2).
  - intros d Hd. rewrite (C2 d Hd). apply C1. exact Hd.
Qed.

Lemma keeps_if (c : bool) (st a b : Factory) :
  keeps st a -> keeps st b -> keeps st (if c then a else b).
Proof. destruct c; auto. Qed.

Lemma segment_intro (k : Cont) (st : Factory) (y : Yield) (st' : Factory) :
  (state_ok st -> cont_ok k ->
   state_ok st' /\ cont_ok (next_cont y) /\ yield_ok y) ->
  spawned st st' ->
  (forall d, checked_at_start d = true -> in_effect d st' = in_effect d st) ->
  (forall d, checked_at_start d = true ->
     waiting d k = false /\ waiting d (next_cont y) = false) ->
  segment_ok k st y st'.
Proof.
  intros Hs Hp Hf Hw. constructor.
  - exact Hs.
  - exact Hp.
  - intros d Hd _. destruct (Hw d Hd) as [-> ->]. rewrite (Hf d Hd). reflexivity.
Qed.

Lemma segment_keeps (k : Cont) (st : Factory) (y : Yield) (st' : Factory) :
  keeps st st' ->
  (state_ok st -> cont_ok k -> cont_ok (next_cont y) /\ yield_ok y) ->
  (forall d, checked_at_start d = true ->
     waiting d k = false /\ waiting d (next_cont y) = false) ->
  segment_ok k st y st'.
Proof.
  intros (A & B & C) Hy Hw. apply segment_intro; auto.
Qed.

(** Tactics: case analysis on the tests of a piece of code, and the
    conjuncts of the invariant one by one. *)

Ltac break_ifs :=
  repeat (record_simpl;
          match goal with
          | |- context [if ?c then _ else _] => destruct c
          end).

Ltac break_ifs_eqn :=
  repeat (record_simpl;
          match goal with
          | |- context [if ?c then _ else _] => destruct c eqn:?
          end).

Ltac bool_facts :=
  repeat match goal with
         | H : (_ || _)%bool = false |- _ => apply orb_false_elim in H; destruct H
         | H : (_ && _)%bool = true |- _ => apply andb_prop in H; destruct H
         | H : negb _ = true |- _ => apply negb_true_iff in H
         | H : negb _ = false |- _ => apply negb_false_iff in H
         | H : (_ <=? _)%Z = true |- _ => apply Z.leb_le in H
         | H : (_ <=? _)%Z = false |- _ => apply Z.leb_gt in H
         | H : (_ <? _)%Z = true |- _ => apply Z.ltb_lt in H
         | H : (_ <? _)%Z = false |- _ => apply Z.ltb_ge in H
         | H : (_ >? _)%Z = true |- _ => rewrite Z.gtb_ltb in H; apply Z.ltb_lt in H
         | H : (_ >? _)%Z = false |- _ => rewrite Z.gtb_ltb in H; apply Z.ltb_ge in H
         | H : (_ >=? _)%Z = true |- _ => rewrite Z.geb_leb in H; apply Z.leb_le in H
         | H : (_ >=? _)%Z = false |- _ => rewrite Z.geb_leb in H; apply Z.leb_gt in H
         | H : (_ <? _)%nat = true |- _ => apply Nat.ltb_lt in H
         | H : (_ <? _)%nat = false |- _ => apply Nat.ltb_ge in H
         end.

Ltac resources_tac :=
  repeat first
    [ assumption
    | apply Forall_list_update;
      [ first [ apply Resource_request_ok | apply Resource_release_ok ] |]
    | apply Forall_app; split
    | apply Forall_cons; [ apply new_resource_ok; lia |]
    | apply Forall_nil ].

Ltac procs_tac :=
  repeat first
    [ assumption
    | apply Forall_app; split
    | apply Forall_cons;
      [ cbn [cont cont_ok]; repeat split; first [ solve [ qnn ] | solve [ qpos ] | idtac ] |]
    | apply Forall_nil ].

Ltac leaf_tac :=
  first [ assumption | exact I | reflexivity | lia
        | solve [ resources_tac ] | solve [ procs_tac ] | solve [ qnn ]
        | solve [ qpos ]
        | idtac ].

Ltac unfold_ok :=
  unfold state_ok, static_ok, ledger_ok, orders_accounted, handles_ok, sizes_ok,
    staffing_ok, sensors_ok, times_ok, strategies_ok, procs_ok in *.

Ltac split_all :=
  repeat match goal with
         | H : _ /\ _ |- _ => destruct H
         end;
  repeat match goal with
         | |- _ /\ _ => split
         end.

Ltac state_tac :=
  unfold_ok; record_simpl; cbn [cont_ok next_cont yield_ok] in *; split_all;
  rewrite ?length_list_update, ?length_app, ?length_list_pop; cbn [List.length];
  leaf_tac.

Ltac spawned_tac :=
  split;
  [ reflexivity
  | first [ exists []; rewrite app_nil_r; split; [ reflexivity | constructor ]
          | rewrite <- ?app_assoc; eexists; split;
            [ reflexivity
            | first [ eassumption
                    | repeat (constructor; [ split; reflexivity |]); constructor ] ] ] ].

Ltac flags_same :=
  let d := fresh "d" in let Hd := fresh "Hd" in
  intros d Hd; destruct d; try discriminate Hd; reflexivity.

Ltac not_flagged :=
  let d := fresh "d" in let Hd := fresh "Hd" in
  intros d Hd; destruct d; try discriminate Hd; split; reflexivity.

Ltac write_segment :=
  break_ifs_eqn; record_simpl; bool_facts;
  (apply segment_intro;
   [ let Hst := fresh "Hst" in let Hk := fresh "Hk" in
     intros Hst Hk; state_tac
   | spawned_tac | flags_same | not_flagged ]).

Ltac keeps_tac :=
  break_ifs_eqn; record_simpl; bool_facts;
  (split;
   [ let Hst := fresh "Hst" in intros Hst; state_tac
   | split; [ spawned_tac | flags_same ] ]).

(** ** The production pipeline *)

Lemma produce_parts_ok (st : Factory) :
  segment_ok produce_parts_loop st (fst (produce_parts st)) (snd (produce_parts st)).
Proof. unfold produce_parts, request. write_segment. Qed.

Lemma produce_parts_got_cnc_ok (c : Request) (st : Factory) :
  segment_ok (produce_parts_cnc c) st
    (fst (produce_parts_got_cnc c st)) (snd (produce_parts_got_cnc c st)).
Proof. unfold produce_parts_got_cnc, request. write_segment. Qed.

Lemma produce_parts_got_worker_ok (c w : Request) (st : Factory) :
  segment_ok (produce_parts_worker c w) st
    (fst (produce_parts_got_worker c w st)) (snd (produce_parts_got_worker c w st)).
Proof. unfold produce_parts_got_worker, produce_parts, request. write_segment. Qed.

Lemma produce_parts_done_ok (c w : Request) (b : Z) (st : Factory) :
  segment_ok (produce_parts_run c w b) st
    (fst (produce_parts_done c w b st)) (snd (produce_parts_done c w b st)).
Proof. unfold produce_parts_done, produce_parts, request. write_segment. Qed.

Lemma assemble_products_ok (st : Factory) :
  segment_ok assemble_products_loop st
    (fst (assemble_products st)) (snd (assemble_products st)).
Proof. unfold assemble_products, request. write_segment. Qed.

Lemma assemble_products_got_both_ok (a w : Request) (st : Factory) :
  segment_ok (assemble_products_both a w) st
    (fst (assemble_products_got_both a w st)) (snd (assemble_products_got_both a w st)).
Proof.
  unfold assemble_products_got_both, PARTS_PER_PRODUCT.
  pose proof (Z.mul_div_le (parts_inventory st) 3 eq_refl).
  pose proof (Z.div_pos (parts_inventory st) 3).
  write_segment.
Qed.

Lemma product_to_qc_ok (st : Factory) :
  segment_ok product_to_qc_start st (fst (product_to_qc st)) (snd (product_to_qc st)).
Proof. unfold product_to_qc, request. write_segment. Qed.

Lemma product_to_qc_got_both_ok (q w : Request) (st : Factory) :
  segment_ok (product_to_qc_both q w) st
    (fst (product_to_qc_got_both q w st)) (snd (product_to_qc_got_both q w st)).
Proof. unfold product_to_qc_got_both. write_segment. Qed.

Lemma product_to_qc_done_ok (q w : Request) (r1 r2 : Q) (st : Factory) :
  segment_ok (product_to_qc_inspect q w) st
    (fst (product_to_qc_done q w r1 r2 st)) (snd (product_to_qc_done q w r1 r2 st)).
Proof. unfold product_to_qc_done, inspect, process_backlog. write_segment. Qed.

(** ** The accounting processes *)

Lemma calculate_worker_costs_ok (st : Factory) :
  segment_ok calculate_worker_costs_wait st
    (fst (calculate_worker_costs st)) (snd (calculate_worker_costs st)).
Proof. unfold calculate_worker_costs. write_segment. Qed.

Lemma calculate_inventory_costs_ok (st : Factory) :
  segment_ok calculate_inventory_costs_wait st
    (fst (calculate_inventory_costs st)) (snd (calculate_inventory_costs st)).
Proof. unfold calculate_inventory_costs. write_segment. Qed.

Lemma calculate_energy_usage_ok (st : Factory) :
  segment_ok calculate_energy_usage_wait st
    (fst (calculate_energy_usage st)) (snd (calculate_energy_usage st)).
Proof. unfold calculate_energy_usage. write_segment. Qed.

(** ** Orders and raw materials *)

Lemma order_raw_materials_ok (st : Factory) :
  segment_ok order_raw_materials_start st
    (fst (order_raw_materials st)) (snd (order_raw_materials st)).
Proof. unfold order_raw_materials. write_segment. Qed.

Lemma order_raw_materials_resume_ok (a : Z) (st : Factory) :
  segment_ok (order_raw_materials_wait a) st
    (fst (order_raw_materials_resume a st)) (snd (order_raw_materials_resume a st)).
Proof. unfold order_raw_materials_resume. write_segment. Qed.

Lemma generate_orders_ok (u : Q) (st : Factory) :
  0 <= u ->
  segment_ok generate_orders_wait st
    (fst (generate_orders u st)) (snd (generate_orders u st)).
Proof.
  intros Hu. unfold generate_orders, process_backlog.
  write_segment; py_int_facts; lia.
Qed.

Lemma liquidate_inventory_ok (st : Factory) :
  segment_ok liquidate_inventory_start st
    (fst (liquidate_inventory st)) (snd (liquidate_inventory st)).
Proof. unfold liquidate_inventory. write_segment. Qed.

Lemma liquidate_inventory_resume_ok (st : Factory) :
  segment_ok liquidate_inventory_wait st
    (fst (liquidate_inventory_resume st)) (snd (liquidate_inventory_resume st)).
Proof. unfold liquidate_inventory_resume. write_segment. Qed.

(** ** The timed effects of one-time strategies *)

Lemma restore_power_risk_ok (o : Q) (st : Factory) :
  segment_ok (restore_power_risk_start o) st
    (fst (restore_power_risk o st)) (snd (restore_power_risk o st)).
Proof. unfold restore_power_risk. write_segment. Qed.

Lemma restore_power_risk_resume_ok (o : Q) (st : Factory) :
  segment_ok (restore_power_risk_wait o) st
    (fst (restore_power_risk_resume o st)) (snd (restore_power_risk_resume o st)).
Proof. unfold restore_power_risk_resume. write_segment. Qed.

Lemma restore_process_times_ok (a c : Q) (st : Factory) :
  segment_ok (restore_process_times_start a c) st
    (fst (restore_process_times a c st)) (snd (restore_process_times a c st)).
Proof. unfold restore_process_times. write_segment. Qed.

Lemma restore_process_times_resume_ok (a c : Q) (st : Factory) :
  segment_ok (restore_process_times_wait a c) st
    (fst (restore_process_times_resume a c st)) (snd (restore_process_times_resume a c st)).
Proof. unfold restore_process_times_resume. write_segment. Qed.

Lemma end_overtime_ok (a c : Q) (st : Factory) :
  segment_ok (end_overtime_start a c) st
    (fst (end_overtime a c st)) (snd (end_overtime a c st)).
Proof. unfold end_overtime. write_segment. Qed.

Lemma end_overtime_resume_ok (a c : Q) (st : Factory) :
  segment_ok (end_overtime_wait a c) st
    (fst (end_overtime_resume a c st)) (snd (end_overtime_resume a c st)).
Proof. unfold end_overtime_resume. write_segment. Qed.

Lemma bulk_delivery_ok (st : Factory) :
  segment_ok bulk_delivery_start st (fst (bulk_delivery st)) (snd (bulk_delivery st)).
Proof.
  unfold bulk_delivery.
  assert (H : (bulk_order_size / 3 = 666)%Z) by reflexivity.
  write_segment; unfold bulk_order_size in *; lia.
Qed.

Lemma bulk_delivery_resume_second_ok (f : Z) (st : Factory) :
  segment_ok (bulk_delivery_second f) st
    (fst (bulk_delivery_resume_second f st)) (snd (bulk_delivery_resume_second f st)).
Proof.
  unfold bulk_delivery_resume_second.
  assert (H : (bulk_order_size / 3 = 666)%Z) by reflexivity.
  write_segment; unfold bulk_order_size in *; lia.
Qed.

Lemma bulk_delivery_resume_third_ok (f s : Z) (st : Factory) :
  segment_ok (bulk_delivery_third f s) st
    (fst (bulk_delivery_resume_third f s st)) (snd (bulk_delivery_resume_third f s st)).
Proof. unfold bulk_delivery_resume_third. write_segment. Qed.

(** ** The disruptions without a flag of their own *)

Lemma cnc_machine_failure_ok (hours : Z) (st : Factory) :
  (0 <= hours)%Z ->
  segment_ok cnc_machine_failure_start st
    (fst (cnc_machine_failure hours st)) (snd (cnc_machine_failure hours st)).
Proof. intros Hh. unfold cnc_machine_failure. write_segment. Qed.

Lemma cnc_machine_failure_resume_ok (st : Factory) :
  segment_ok cnc_machine_failure_wait st
    (fst (cnc_machine_failure_resume st)) (snd (cnc_machine_failure_resume st)).
Proof. unfold cnc_machine_failure_resume. write_segment. Qed.

Lemma worker_absence_ok (m k n : Z) (st : Factory) :
  (0 <= n)%Z ->
  segment_ok (worker_absence_start m) st
    (fst (worker_absence m k n st)) (snd (worker_absence m k n st)).
Proof. intros Hn. unfold worker_absence. write_segment. Qed.

Lemma worker_absence_resume_ok (n : Z) (st : Factory) :
  segment_ok (worker_absence_wait n) st
    (fst (worker_absence_resume n st)) (snd (worker_absence_resume n st)).
Proof. unfold worker_absence_resume. write_segment. Qed.

Lemma power_outage_event_ok (n : Z) (st : Factory) :
  (0 <= n)%Z ->
  segment_ok power_outage_event_start st
    (fst (power_outage_event n st)) (snd (power_outage_event n st)).
Proof. intros Hn. unfold power_outage_event. write_segment. Qed.

Lemma power_outage_event_resume_ok (st : Factory) :
  segment_ok power_outage_event_wait st
    (fst (power_outage_event_resume st)) (snd (power_outage_event_resume st)).
Proof. unfold power_outage_event_resume. write_segment. Qed.

Lemma spike_orders_nonneg (rate u : Q) (n : Z) :
  0 <= rate -> 1 <= u -> (0 <= n)%Z ->
  0 <= (rate * u - rate) * (#(n * 24 * 60) / (24 * 60)).
Proof.
  intros Hr Hu Hn. apply Qmult_le_0_compat.
  - setoid_replace (rate * u - rate) with (rate * (u - 1)) by ring.
    apply Qmult_le_0_compat; [ exact Hr |].
    setoid_replace 0 with (1 - 1) by ring.
    apply Qplus_le_l. exact Hu.
  - apply Qmult_le_0_compat; [ apply inject_Z_nonneg; lia |].
    apply Qinv_le_0_compat. unfold Qle; cbn; lia.
Qed.

Lemma order_spike_ok (u : Q) (n : Z) (st : Factory) :
  2 <= u -> (1 <= n)%Z ->
  segment_ok order_spike_start st
    (fst (order_spike u n st)) (snd (order_spike u n st)).
Proof.
  intros Hu Hn. unfold order_spike.
  assert (Hu0 : 0 <= u) by (apply Qle_trans with 2; [ unfold Qle; cbn; lia | exact Hu ]).
  assert (Hu1 : 1 <= u) by (apply Qle_trans with 2; [ unfold Qle; cbn; lia | exact Hu ]).
  assert (Hs : 0 <= current_order_rate st ->
               0 <= (current_order_rate st * u - current_order_rate st) *
                    (#(n * 24 * 60) / (24 * 60)))
    by (intros Hr; apply spike_orders_nonneg; [ exact Hr | exact Hu1 | lia ]).
  write_segment;
    try (specialize (Hs ltac:(assumption)));
    try solve [ qnn ]; py_int_facts; lia.
Qed.

Lemma order_spike_resume_ok (r : Q) (o : option (Q * Q)) (st : Factory) :
  segment_ok (order_spike_wait r o) st
    (fst (order_spike_resume r o st)) (snd (order_spike_resume r o st)).
Proof.
  unfold order_spike_resume. destruct o as [[a c] |]; write_segment.
Qed.

(** ** The disruptions that test a flag of their own *)

Ltac flag_cases :=
  let d := fresh "d" in let Hd := fresh "Hd" in let Hw := fresh "Hw" in
  intros d Hd Hw; destruct d; try discriminate Hd;
  cbn [in_effect waiting next_cont Nat.b2n] in *; record_simpl;
  try (specialize (Hw eq_refl));
  repeat match goal with H : _ = _ |- _ => rewrite H end;
  reflexivity.

Ltac flagged_segment :=
  break_ifs_eqn; record_simpl; bool_facts;
  (constructor;
   [ let Hst := fresh "Hst" in let Hk := fresh "Hk" in
     intros Hst Hk; state_tac; py_int_facts; lia
   | spawned_tac | flag_cases ]).

Lemma supply_chain_disruption_ok (n : Z) (st : Factory) :
  (0 <= n)%Z ->
  segment_ok supply_chain_disruption_start st
    (fst (supply_chain_disruption n st)) (snd (supply_chain_disruption n st)).
Proof. intros Hn. unfold supply_chain_disruption. flagged_segment. Qed.

Lemma supply_chain_disruption_resume_ok (st : Factory) :
  segment_ok supply_chain_disruption_wait st
    (fst (supply_chain_disruption_resume st)) (snd (supply_chain_disruption_resume st)).
Proof. unfold supply_chain_disruption_resume. flagged_segment. Qed.

Lemma quality_control_issue_ok (duration : Q) (st : Factory) :
  segment_ok (quality_control_issue_start duration) st
    (fst (quality_control_issue duration st)) (snd (quality_control_issue duration st)).
Proof. unfold quality_control_issue. flagged_segment. Qed.

Lemma quality_control_issue_resume_ok (st : Factory) :
  segment_ok quality_control_issue_wait st
    (fst (quality_control_issue_resume st)) (snd (quality_control_issue_resume st)).
Proof. unfold quality_control_issue_resume. flagged_segment. Qed.

Lemma order_cancellation_ok (u : Q) (n : Z) (st : Factory) :
  0 <= u -> u <= 1 -> (0 <= n)%Z ->
  segment_ok order_cancellation_start st
    (fst (order_cancellation u n st)) (snd (order_cancellation u n st)).
Proof. intros Hu0 Hu1 Hn. unfold order_cancellation. flagged_segment. Qed.

Lemma order_cancellation_resume_ok (st : Factory) :
  segment_ok order_cancellation_wait st
    (fst (order_cancellation_resume st)) (snd (order_cancellation_resume st)).
Proof. unfold order_cancellation_resume. flagged_segment. Qed.

(** ** The set of active strategies and the expiration table *)

Lemma AdaptationStrategy_eqb_eq (a b : AdaptationStrategy.t) :
  AdaptationStrategy.eqb a b = true <-> a = b.
Proof.
  unfold AdaptationStrategy.eqb. destruct (AdaptationStrategy.eq_dec a b);
    split; congruence.
Qed.

Lemma AdaptationStrategy_eqb_refl (a : AdaptationStrategy.t) :
  AdaptationStrategy.eqb a a = true.
Proof. apply AdaptationStrategy_eqb_eq. reflexivity. Qed.

Lemma AdaptationStrategy_eqb_neq (a b : AdaptationStrategy.t) :
  AdaptationStrategy.eqb a b = false <-> a <> b.
Proof.
  unfold AdaptationStrategy.eqb. destruct (AdaptationStrategy.eq_dec a b);
    split; congruence.
Qed.

Lemma is_active_In (s : AdaptationStrategy.t) (st : Factory) :
  is_active s st = true <-> In s (adaptation_strategies st).
Proof.
  unfold is_active. rewrite existsb_exists. split.
  - intros (x & Hx & E). apply AdaptationStrategy_eqb_eq in E. congruence.
  - intros H. exists s. split; [ exact H | apply AdaptationStrategy_eqb_refl ].
Qed.

Lemma is_active_not_In (s : AdaptationStrategy.t) (st : Factory) :
  is_active s st = false <-> ~ In s (adaptation_strategies st).
Proof.
  rewrite <- is_active_In. destruct (is_active s st); split; congruence.
Qed.

Lemma NoDup_snoc {A : Type} (l : list A) (x : A) :
  NoDup l -> ~ In x l -> NoDup (l ++ [x]).
Proof.
  intros Hl Hx. induction Hl as [| y l Hy Hl IH]; cbn.
  - constructor; [ intros [] | constructor ].
  - constructor.
    + rewrite in_app_iff. cbn. intros [H | [H | []]]; [ auto | subst; apply Hx; now left ].
    + apply IH. intros H. apply Hx. now right.
Qed.

Lemma sum_weekly_snoc (l : list AdaptationStrategy.t) (s : AdaptationStrategy.t) :
  sum_weekly (l ++ [s]) = (sum_weekly l + StrategyCosts.WEEKLY s)%Z.
Proof.
  unfold sum_weekly. induction l as [| x l IH]; cbn [app fold_right]; lia.
Qed.

Lemma remove_absent (s : AdaptationStrategy.t) (l : list AdaptationStrategy.t) :
  ~ In s l -> filter (fun x => negb (AdaptationStrategy.eqb s x)) l = l.
Proof.
  induction l as [| x l IH]; cbn; intros H; [ reflexivity |].
  destruct (AdaptationStrategy.eqb s x) eqn:E.
  - apply AdaptationStrategy_eqb_eq in E. subst. exfalso. apply H. now left.
  - cbn. f_equal. apply IH. intros H'. apply H. now right.
Qed.

Lemma sum_weekly_remove (s : AdaptationStrategy.t) (l : list AdaptationStrategy.t) :
  NoDup l -> In s l ->
  sum_weekly (filter (fun x => negb (AdaptationStrategy.eqb s x)) l)
  = (sum_weekly l - StrategyCosts.WEEKLY s)%Z.
Proof.
  intros Hl. induction Hl as [| x l Hx Hl IH]; intros Hs; [ destruct Hs |].
  cbn [filter]. destruct (AdaptationStrategy.eqb s x) eqn:E; cbn [negb].
  - apply AdaptationStrategy_eqb_eq in E. subst x.
    rewrite (remove_absent s l Hx). cbn [sum_weekly fold_right]. unfold sum_weekly. lia.
  - apply AdaptationStrategy_eqb_neq in E.
    destruct Hs as [Hs | Hs]; [ congruence |].
    specialize (IH Hs). unfold sum_weekly in *. cbn [fold_right]. lia.
Qed.

Lemma keys_filter_NoDup {V : Type} (f : AdaptationStrategy.t * V -> bool)
    (d : dict AdaptationStrategy.t V) :
  NoDup (map fst d) -> NoDup (map fst (filter f d)).
Proof.
  induction d as [| kv d IH]; cbn; intros H; [ constructor |].
  inversion H as [| k ks Hk Hd]; subst.
  destruct (f kv); cbn; [| auto ].
  constructor; [| auto ].
  intros Hin. apply Hk. rewrite in_map_iff in *.
  destruct Hin as (kv' & E & Hin). exists kv'. split; [ exact E |].
  apply filter_In in Hin. tauto.
Qed.

Lemma keys_dict_set {V : Type} (k : AdaptationStrategy.t) (v : V)
    (d : dict AdaptationStrategy.t V) :
  map fst (dict_set AdaptationStrategy.eqb k v d)
  = if existsb (AdaptationStrategy.eqb k) (map fst d)
    then map fst d else map fst d ++ [k].
Proof.
  induction d as [| [k' v'] d IH]; cbn; [ reflexivity |].
  destruct (AdaptationStrategy.eqb k k') eqn:E; cbn; [ reflexivity |].
  rewrite IH. destruct (existsb _ _); reflexivity.
Qed.

Lemma keys_dict_set_NoDup {V : Type} (k : AdaptationStrategy.t) (v : V)
    (d : dict AdaptationStrategy.t V) :
  NoDup (map fst d) -> NoDup (map fst (dict_set AdaptationStrategy.eqb k v d)).
Proof.
  intros H. rewrite keys_dict_set.
  destruct (existsb _ _) eqn:E; [ exact H |].
  apply NoDup_snoc; [ exact H |].
  intros Hin. assert (existsb (AdaptationStrategy.eqb k) (map fst d) = true).
  { apply existsb_exists. exists k. split; [ exact Hin | apply AdaptationStrategy_eqb_refl ]. }
  congruence.
Qed.

Lemma keys_dict_del_NoDup {V : Type} (k : AdaptationStrategy.t)
    (d : dict AdaptationStrategy.t V) :
  NoDup (map fst d) -> NoDup (map fst (dict_del AdaptationStrategy.eqb k d)).
Proof. apply keys_filter_NoDup. Qed.

(** An entry written with [d[k] = v] is read back, and the other entries
    are as before. *)
Lemma dict_get_set_eq {V : Type} (k : AdaptationStrategy.t) (v : V)
    (d : dict AdaptationStrategy.t V) :
  dict_get AdaptationStrategy.eqb k (dict_set AdaptationStrategy.eqb k v d) = Some v.
Proof.
  induction d as [| [k' v'] d IH]; cbn.
  - now rewrite AdaptationStrategy_eqb_refl.
  - destruct (AdaptationStrategy.eqb k k') eqn:E; cbn; rewrite E; [ reflexivity | exact IH ].
Qed.

Lemma dict_get_set_neq {V : Type} (k k' : AdaptationStrategy.t) (v : V)
    (d : dict AdaptationStrategy.t V) :
  k <> k' ->
  dict_get AdaptationStrategy.eqb k' (dict_set AdaptationStrategy.eqb k v d)
  = dict_get AdaptationStrategy.eqb k' d.
Proof.
  intros Hk. induction d as [| [k0 v0] d IH]; cbn.
  - assert (E : AdaptationStrategy.eqb k' k = false)
      by (apply AdaptationStrategy_eqb_neq; congruence).
    now rewrite E.
  - destruct (AdaptationStrategy.eqb k k0) eqn:E; cbn.
    + apply AdaptationStrategy_eqb_eq in E. subst k0.
      assert (E : AdaptationStrategy.eqb k' k = false)
        by (apply AdaptationStrategy_eqb_neq; congruence).
      now rewrite E.
    + destruct (AdaptationStrategy.eqb k' k0); [ reflexivity | exact IH ].
Qed.




(** ** Starting processes, and the periodic processes that do *)

Lemma keeps_log (lvl : LogLevel.t) (comp msg : string) (st st' : Factory) :
  keeps st st' -> keeps st (log lvl comp msg st').
Proof.
  intros H. apply (keeps_trans _ st'); [ exact H |]. keeps_tac.
Qed.

Lemma keeps_env_process (k : Cont) (st st' : Factory) :
  starting k = true -> cont_ok k -> keeps st st' -> keeps st (env_process k st').
Proof.
  intros Hs Hk H. apply (keeps_trans _ st'); [ exact H |].
  split; [| split ].
  - intros Hst. state_tac.
  - split; [ reflexivity |]. eexists. split; [ reflexivity |].
    constructor; [ split; [ exact Hs | reflexivity ] | constructor ].
  - flags_same.
Qed.

Ltac keeps_chain :=
  repeat first
    [ apply keeps_refl
    | apply keeps_if
    | apply keeps_log
    | apply keeps_env_process;
      [ reflexivity
      | cbn [cont_ok]; repeat split; first [ solve [ qnn ] | solve [ qpos ] ] |] ].

Lemma keeps_let (st a : Factory) (F : Factory -> Yield * Factory) :
  keeps st a -> (forall x, keeps x (snd (F x))) ->
  keeps st (snd (let z := a in F z)).
Proof. intros Ha HF. exact (keeps_trans _ _ _ Ha (HF a)). Qed.

Lemma generate_disruptions_ok (d : DisruptionDraws) (st : Factory) :
  segment_ok generate_disruptions_wait st
    (fst (generate_disruptions d st)) (snd (generate_disruptions d st)).
Proof.
  change (fst (generate_disruptions d st))
    with (Timeout (6 * 60) generate_disruptions_wait).
  apply segment_keeps.
  - cbv beta delta [generate_disruptions].
    repeat (lazymatch goal with
            | |- keeps ?s (snd (let z := ?a in @?F z)) =>
                refine (keeps_let s a F _ _);
                [ keeps_chain | clear s; intros s; cbv beta ]
            end).
    apply keeps_refl.
  - intros _ _. cbn. split; [ exact I | qnn ].
  - not_flagged.
Qed.

Lemma keeps_check_critical_conditions (st : Factory) :
  keeps st (check_critical_conditions st).
Proof. unfold check_critical_conditions. cbv zeta. keeps_chain. Qed.

(** The products that an assembler hands to quality control. *)
Lemma spawn_each (k : Cont) (l : list nat) (st : Factory) :
  exists new,
    fold_left (fun (st : Factory) (_ : nat) => env_process k st) l st
    = set_procs (procs st ++ new) st /\
    Forall (fun p => cont p = k /\ wake p = Some (env_now st)) new.
Proof.
  revert st. induction l as [| x l IH]; intros st; cbn [fold_left].
  - exists []. split; [| constructor ]. rewrite app_nil_r.
    destruct st as [? [] ? ? ? ? ? ? ? ? ? ? ? ?]. reflexivity.
  - destruct (IH (env_process k st)) as (new & -> & Hnew).
    eexists. split.
    + record_simpl. rewrite <- app_assoc. reflexivity.
    + constructor; [ split; reflexivity | exact Hnew ].
Qed.

Lemma assemble_products_done_ok (a w : Request) (b : Z) (r : Q) (st : Factory) :
  segment_ok (assemble_products_run a w b) st
    (fst (assemble_products_done a w b r st)) (snd (assemble_products_done a w b r st)).
Proof.
  unfold assemble_products_done.
  match goal with
  | |- context [fold_left ?f ?l ?s] =>
      destruct (spawn_each product_to_qc_start l s) as (new & -> & Hnew)
  end.
  record_simpl.
  assert (Hnew1 : Forall (fun p => starting (cont p) = true /\
                                   wake p = Some (env_now st)) new).
  { eapply Forall_impl; [| exact Hnew ]. cbn. intros p [-> ->]. split; reflexivity. }
  assert (Hnew2 : Forall (fun p => cont_ok (cont p)) new).
  { eapply Forall_impl; [| exact Hnew ]. cbn. intros p [-> _]. exact I. }
  clear Hnew.
  unfold assemble_products, request. write_segment.
Qed.

(** ** The strategy manager *)

Lemma keeps_strategy_effect (s : AdaptationStrategy.t) (b : bool) (st : Factory) :
  keeps st (strategy_effect s b st).
Proof. unfold strategy_effect. destruct s, b; keeps_tac; py_int_facts; lia. Qed.

(** Deactivation of an active strategy: the bookkeeping. *)
Lemma keeps_deactivate (s : AdaptationStrategy.t) (st : Factory) :
  is_active s st = true ->
  keeps st (record_strategy_change s false (strategies_remove s st)).
Proof.
  intros Ha. apply is_active_In in Ha.
  unfold record_strategy_change, strategies_remove. keeps_tac.
  - apply NoDup_filter. assumption.
  - apply keys_dict_del_NoDup. assumption.
  - rewrite sum_weekly_remove by assumption. lia.
Qed.

Lemma keeps_expire (s : AdaptationStrategy.t) (st : Factory) :
  is_active s st = true -> keeps st (expire st s).
Proof.
  intros Ha. unfold expire, apply_strategy_effects.
  eapply keeps_trans; [| apply keeps_strategy_effect ].
  eapply keeps_trans; [| apply keeps_deactivate; exact Ha ].
  apply keeps_log, keeps_refl.
Qed.

Lemma is_active_expire (s s' : AdaptationStrategy.t) (st : Factory) :
  s <> s' -> is_active s' (expire st s) = is_active s' st.
Proof.
  intros Hs. unfold is_active, expire.
  rewrite apply_strategy_effects_active_set. unfold strategies_remove. record_simpl.
  induction (adaptation_strategies st) as [| x l IH]; cbn; [ reflexivity |].
  destruct (AdaptationStrategy.eqb s x) eqn:E; cbn.
  - apply AdaptationStrategy_eqb_eq in E. subst x.
    assert (E : AdaptationStrategy.eqb s' s = false)
      by (apply AdaptationStrategy_eqb_neq; congruence).
    rewrite E. exact IH.
  - rewrite IH. reflexivity.
Qed.

Lemma keeps_fold_expire (l : list AdaptationStrategy.t) (st : Factory) :
  NoDup l -> (forall s, In s l -> is_active s st = true) ->
  keeps st (fold_left expire l st).
Proof.
  intros Hl. revert st. induction Hl as [| s l Hs Hl IH]; intros st Ha; cbn [fold_left].
  - apply keeps_refl.
  - eapply keeps_trans; [ apply keeps_expire; apply Ha; now left |].
    apply IH. intros s' Hs'. rewrite is_active_expire by congruence.
    apply Ha. now right.
Qed.

Lemma expired_strategies_active (s : AdaptationStrategy.t) (st : Factory) :
  In s (expired_strategies st) -> is_active s st = true.
Proof.
  unfold expired_strategies. rewrite in_map_iff. intros ([k t] & <- & H).
  apply filter_In in H. destruct H as [_ H]. apply andb_prop in H. tauto.
Qed.

Lemma keeps_check_strategy_expiration (st : Factory) :
  keeps st (check_strategy_expiration st).
Proof.
  unfold check_strategy_expiration.
  split; [| split ].
  - intros Hst.
    assert (Hn : NoDup (expired_strategies st)).
    { unfold expired_strategies. apply keys_filter_NoDup.
      unfold state_ok, static_ok, strategies_ok in Hst. tauto. }
    exact (proj1 (keeps_fold_expire _ st Hn (fun s => expired_strategies_active s st)) Hst).
  - generalize (expired_strategies st). intros l. revert st.
    induction l as [| s l IH]; intros st; cbn [fold_left].
    + apply spawned_same; reflexivity.
    + eapply spawned_trans; [| apply IH ].
      unfold expire, apply_strategy_effects, record_strategy_change, strategy_effect.
      destruct s; record_simpl; spawned_tac.
  - generalize (expired_strategies st). intros l. revert st.
    induction l as [| s l IH]; intros st d Hd; cbn [fold_left].
    + reflexivity.
    + rewrite (IH _ d Hd).
      unfold expire, apply_strategy_effects, record_strategy_change, strategy_effect.
      destruct s, d; try discriminate Hd; reflexivity.
Qed.

Lemma monitor_metrics_ok (st : Factory) :
  segment_ok monitor_metrics_loop st
    (fst (monitor_metrics st)) (snd (monitor_metrics st)).
Proof.
  change (fst (monitor_metrics st)) with (Timeout 60 monitor_metrics_loop).
  apply segment_keeps.
  - unfold monitor_metrics. cbn [snd].
    eapply keeps_trans; [| apply keeps_check_strategy_expiration ].
    eapply keeps_trans; [| apply keeps_check_critical_conditions ].
    keeps_tac.
  - intros _ _. cbn. split; [ exact I | qnn ].
  - not_flagged.
Qed.

Lemma keeps_execute_one_time_strategy (s : AdaptationStrategy.t) (st : Factory) :
  keeps st (outcome_state (execute_one_time_strategy s st)).
Proof.
  unfold execute_one_time_strategy, simpy_Resource.
  destruct s; solve [ keeps_tac; py_int_facts; lia ].
Qed.

Lemma keeps_warn_if_unaffordable (s : AdaptationStrategy.t) (st : Factory) :
  keeps st (warn_if_unaffordable s st).
Proof. unfold warn_if_unaffordable. keeps_chain. Qed.

Lemma DURATION_strategy_effect (s : AdaptationStrategy.t) (b : bool) (st : Factory) :
  DURATION (strategy_effect s b st) = DURATION st.
Proof. unfold strategy_effect. destruct s, b; reflexivity. Qed.

Lemma set_DURATION_strategy_effect (v : dict AdaptationStrategy.t Z)
    (s : AdaptationStrategy.t) (b : bool) (st : Factory) :
  set_DURATION v (strategy_effect s b st) = strategy_effect s b (set_DURATION v st).
Proof. unfold strategy_effect. destruct s, b; reflexivity. Qed.

(** Activation of a strategy that is not active: the bookkeeping, with the
    duration table set for it and restored when [o] is a custom duration. *)
Lemma keeps_activate (s : AdaptationStrategy.t) (o : option Z) (st : Factory) :
  is_active s st = false ->
  keeps st
    match o with
    | Some d =>
        let st1 := strategies_add s st in
        let st2 :=
          record_strategy_change s true
            (log LogLevel.INFO "Strategy"
               "Using custom duration of {duration_days} days for strategy '{strategy.value}'"
               (set_DURATION (dict_set AdaptationStrategy.eqb s d (DURATION st1)) st1)) in
        set_DURATION
          (dict_set AdaptationStrategy.eqb s (DURATION_get s st1) (DURATION st2)) st2
    | None => record_strategy_change s true (strategies_add s st)
    end.
Proof.
  intros Ha. cbv zeta. unfold strategies_add. rewrite Ha.
  apply is_active_not_In in Ha.
  unfold record_strategy_change, DURATION_get.
  destruct o as [d |]; keeps_tac.
  all: first [ apply NoDup_snoc; assumption
             | apply keys_dict_set_NoDup; assumption
             | rewrite sum_weekly_snoc; lia
             | match goal with
               | H : DURATION _ = StrategyDurations.DURATION_0 |- _ => rewrite H
               end; destruct s; reflexivity ].
Qed.

Lemma keeps_modify_strategy (s : AdaptationStrategy.t)
    (activate : bool) (custom_duration : option Z) (st : Factory) :
  keeps st (outcome_state (modify_strategy (strategy_index s) activate
                             custom_duration st)).
Proof.
  rewrite modify_strategy_at.
  destruct activate.
  - destruct (ONE_TIME_STRATEGIES s).
    + cbv zeta.
      remember (warn_if_unaffordable s st) as x1 eqn:E1.
      remember (set_costs (costs x1 + #(StrategyCosts.IMPLEMENTATION s)) x1) as x2 eqn:E2.
      assert (H2 : keeps st x2).
      { apply (keeps_trans _ x1);
          [ subst x1; apply keeps_warn_if_unaffordable
          | subst x2; clear; keeps_tac ]. }
      pose proof (keeps_execute_one_time_strategy s x2) as H3.
      destruct (execute_one_time_strategy s x2) as [v x3 | e x3];
        cbn [outcome_state] in *.
      * apply (keeps_trans _ x3);
          [ exact (keeps_trans _ _ _ H2 H3) | clear; keeps_tac ].
      * exact (keeps_trans _ _ _ H2 H3).
    + destruct (negb (is_active s st)) eqn:Ha; [| apply keeps_refl ].
      apply negb_true_iff in Ha.
      cbv beta zeta. cbn [outcome_state].
      unfold apply_strategy_effects.
      destruct (warn_if_unaffordable_logs s st) as [l Hl].
      assert (Ha' : is_active s (warn_if_unaffordable s st) = false)
        by (rewrite Hl; exact Ha).
      apply (keeps_trans _ (warn_if_unaffordable s st));
        [ apply keeps_warn_if_unaffordable |].
      clear Hl Ha. revert Ha'. generalize (warn_if_unaffordable s st). clear st.
      intros x Ha.
      destruct custom_duration as [d |]; [ destruct (d >? 0)%Z |].
      * rewrite DURATION_strategy_effect, set_DURATION_strategy_effect.
        eapply keeps_trans; [| apply keeps_strategy_effect ].
        exact (keeps_activate s (Some d) x Ha).
      * eapply keeps_trans; [| apply keeps_strategy_effect ].
        exact (keeps_activate s None x Ha).
      * eapply keeps_trans; [| apply keeps_strategy_effect ].
        exact (keeps_activate s None x Ha).
  - destruct (negb (ONE_TIME_STRATEGIES s) && is_active s st) eqn:Ha; [| apply keeps_refl ].
    apply andb_prop in Ha. destruct Ha as [_ Ha].
    cbv beta zeta. cbn [outcome_state]. unfold apply_strategy_effects.
    eapply keeps_trans; [| apply keeps_strategy_effect ].
    match goal with
    | |- keeps _ (record_strategy_change _ _ (strategies_remove _ ?x)) =>
        apply (keeps_trans _ x); [ keeps_chain | apply keeps_deactivate ]
    end.
    destruct (Qltb _ _); exact Ha.
Qed.

(** ** The command ingress *)

Ltac log_only :=
  lazymatch goal with
  | |- keeps ?s (log _ _ _ ?s) => apply keeps_log, keeps_refl
  end.

Lemma keeps_handle_simulation_command (payload : json) (st : Factory) :
  keeps st (handle_simulation_command payload st).
Proof.
  unfold handle_simulation_command.
  destruct (py_in "command" payload) as [[] |];
    [ destruct (py_getitem payload "command") as [[] |] | |];
    try log_only.
  repeat (apply keeps_if); try log_only; clear; keeps_tac.
Qed.

Lemma keeps_handle_direct_strategy_command (f : string -> option float)
    (topic : string) (payload : json) (st : Factory) :
  keeps st (handle_direct_strategy_command f topic payload st).
Proof.
  unfold handle_direct_strategy_command.
  destruct (py_in "trigger" payload) as [[] |];
    [| log_only | log_only ].
  destruct (py_getitem payload "trigger") as [[| [] | | | | |] |];
    try log_only;
    destruct (matching_strategies (last_segment topic)) as [| s l];
    try log_only.
  - assert (Hx : forall (cd : option Z) (x : Factory),
               keeps st x ->
               keeps st
                 match modify_strategy (strategy_index s) true cd x with
                 | Returns result x' =>
                     log LogLevel.STRATEGY "Command"
                       ("Strategy {strategy.name} activated via direct command: " ++ result)
                       x'
                 | Raises _ x' =>
                     log LogLevel.ERROR "Strategy"
                       "Error processing direct strategy command: {e}" x'
                 end).
    { intros cd x Hp.
      pose proof (keeps_modify_strategy s true cd x) as Hm.
      destruct (modify_strategy (strategy_index s) true cd x) as [res x' | e x'];
        cbn [outcome_state] in Hm; apply keeps_log; exact (keeps_trans _ _ _ Hp Hm). }
    destruct (py_getitem payload "duration") as [v |];
      [| apply Hx, keeps_refl ].
    destruct (duration_minutes f v) as [minutes | []];
      first [ log_only | apply Hx, keeps_refl | apply Hx, keeps_log, keeps_refl ].
  - pose proof (keeps_modify_strategy s false None st) as Hm.
    destruct (modify_strategy (strategy_index s) false None st) as [res x' | e x'];
      cbn [outcome_state] in Hm; apply keeps_log; exact Hm.
Qed.

Lemma keeps_on_mqtt_message (f : string -> option float)
    (topic : string) (payload : option json) (st : Factory) :
  keeps st (on_mqtt_message f topic payload st).
Proof.
  unfold on_mqtt_message. destruct payload as [payload |]; [| apply keeps_refl ].
  repeat apply keeps_if; try apply keeps_refl.
  - apply keeps_handle_simulation_command.
  - apply keeps_handle_direct_strategy_command.
Qed.

(** ** Every step of the simulation keeps the invariant *)

Ltac bounds_tac :=
  bool_facts;
  repeat match goal with
         | H : within _ _ _ = true |- _ => apply within_bounds in H; destruct H
         | H : withinZ _ _ _ = true |- _ => apply withinZ_bounds in H
         end;
  try lia;
  try assumption;
  try (eapply Qle_trans; [| eassumption ]; unfold Qle; cbn; lia);
  try (eapply Qle_trans; [ eassumption |]; unfold Qle; cbn; lia).

Lemma some_pair_inv {A B : Type} (p : A * B) (a : A) (b : B) :
  Some p = Some (a, b) -> a = fst p /\ b = snd p.
Proof. intros H. injection H as ->. split; reflexivity. Qed.

(** A product that reaches quality control during a power outage waits ten
    minutes and is dropped. *)
Lemma product_to_qc_after_outage_ok (st : Factory) :
  segment_ok product_to_qc_outage st (fst (Return, st)) (snd (Return, st)).
Proof. write_segment. Qed.

Ltac segment_lemma :=
  lazymatch goal with
  | |- segment_ok produce_parts_loop _ _ _ => apply produce_parts_ok
  | |- segment_ok (produce_parts_cnc _) _ _ _ => apply produce_parts_got_cnc_ok
  | |- segment_ok (produce_parts_worker _ _) _ _ _ => apply produce_parts_got_worker_ok
  | |- segment_ok (produce_parts_run _ _ _) _ _ _ => apply produce_parts_done_ok
  | |- segment_ok assemble_products_loop _ _ _ => apply assemble_products_ok
  | |- segment_ok (assemble_products_both _ _) _ _ _ => apply assemble_products_got_both_ok
  | |- segment_ok (assemble_products_run _ _ _) _ _ _ => apply assemble_products_done_ok
  | |- segment_ok product_to_qc_start _ _ _ => apply product_to_qc_ok
  | |- segment_ok product_to_qc_outage _ _ _ => apply product_to_qc_after_outage_ok
  | |- segment_ok (product_to_qc_both _ _) _ _ _ => apply product_to_qc_got_both_ok
  | |- segment_ok (product_to_qc_inspect _ _) _ _ _ => apply product_to_qc_done_ok
  | |- segment_ok order_cancellation_start _ _ _ => apply order_cancellation_ok
  | |- segment_ok order_cancellation_wait _ _ _ => apply order_cancellation_resume_ok
  | |- segment_ok cnc_machine_failure_start _ _ _ => apply cnc_machine_failure_ok
  | |- segment_ok cnc_machine_failure_wait _ _ _ => apply cnc_machine_failure_resume_ok
  | |- segment_ok order_spike_start _ _ _ => apply order_spike_ok
  | |- segment_ok (order_spike_wait _ _) _ _ _ => apply order_spike_resume_ok
  | |- segment_ok supply_chain_disruption_start _ _ _ => apply supply_chain_disruption_ok
  | |- segment_ok supply_chain_disruption_wait _ _ _ => apply supply_chain_disruption_resume_ok
  | |- segment_ok (worker_absence_start _) _ _ _ => apply worker_absence_ok
  | |- segment_ok (worker_absence_wait _) _ _ _ => apply worker_absence_resume_ok
  | |- segment_ok (quality_control_issue_start _) _ _ _ => apply quality_control_issue_ok
  | |- segment_ok quality_control_issue_wait _ _ _ => apply quality_control_issue_resume_ok
  | |- segment_ok power_outage_event_start _ _ _ => apply power_outage_event_ok
  | |- segment_ok power_outage_event_wait _ _ _ => apply power_outage_event_resume_ok
  | |- segment_ok generate_orders_wait _ _ _ => apply generate_orders_ok
  | |- segment_ok generate_disruptions_wait _ _ _ => apply generate_disruptions_ok
  | |- segment_ok monitor_metrics_loop _ _ _ => apply monitor_metrics_ok
  | |- segment_ok calculate_worker_costs_wait _ _ _ => apply calculate_worker_costs_ok
  | |- segment_ok calculate_inventory_costs_wait _ _ _ => apply calculate_inventory_costs_ok
  | |- segment_ok calculate_energy_usage_wait _ _ _ => apply calculate_energy_usage_ok
  | |- segment_ok order_raw_materials_start _ _ _ => apply order_raw_materials_ok
  | |- segment_ok (order_raw_materials_wait _) _ _ _ => apply order_raw_materials_resume_ok
  | |- segment_ok liquidate_inventory_start _ _ _ => apply liquidate_inventory_ok
  | |- segment_ok liquidate_inventory_wait _ _ _ => apply liquidate_inventory_resume_ok
  | |- segment_ok (restore_power_risk_start _) _ _ _ => apply restore_power_risk_ok
  | |- segment_ok (restore_power_risk_wait _) _ _ _ => apply restore_power_risk_resume_ok
  | |- segment_ok bulk_delivery_start _ _ _ => apply bulk_delivery_ok
  | |- segment_ok (bulk_delivery_second _) _ _ _ => apply bulk_delivery_resume_second_ok
  | |- segment_ok (bulk_delivery_third _ _) _ _ _ => apply bulk_delivery_resume_third_ok
  | |- segment_ok (restore_process_times_start _ _) _ _ _ => apply restore_process_times_ok
  | |- segment_ok (restore_process_times_wait _ _) _ _ _ => apply restore_process_times_resume_ok
  | |- segment_ok (end_overtime_start _ _) _ _ _ => apply end_overtime_ok
  | |- segment_ok (end_overtime_wait _ _) _ _ _ => apply end_overtime_resume_ok
  end.

Lemma resume_segment_ok (k : Cont) (draws : list Draw) (st : Factory)
    (y : Yield) (st' : Factory) :
  resume k draws st = Some (y, st') -> segment_ok k st y st'.
Proof.
  intros H.
  destruct k; cbv beta iota delta [resume guard] in H; try discriminate H;
    repeat match type of H with
           | match ?x with _ => _ end = _ => destruct x eqn:?; try discriminate H
           | (let z := _ in _) = _ => cbv zeta in H
           end;
    apply some_pair_inv in H; destruct H as [-> ->];
    segment_lemma; bounds_tac.
Qed.

Lemma state_ok_set_env_now (t : Q) (st : Factory) :
  state_ok st -> state_ok (set_env_now t st).
Proof. intros H. exact H. Qed.

Lemma flags_ok_set_env_now (t : Q) (st : Factory) :
  flags_ok st -> flags_ok (set_env_now t st).
Proof. intros H d Hd. specialize (H d Hd). destruct d; exact H. Qed.

Lemma earliest_clock (t : Q) (st : Factory) :
  earliest t st = true -> clock_ok (set_env_now t st).
Proof.
  unfold earliest, clock_ok. record_simpl. intros H.
  rewrite forallb_forall in H. apply Forall_forall. intros p Hp.
  specialize (H p Hp). destruct (wake p); [ apply Qleb_le; exact H | exact I ].
Qed.

Lemma cont_suspended (y : Yield) (t : Q) :
  cont match y with
       | Timeout delay k => {| wake := Some (t + delay); cont := k |}
       | Await k => {| wake := None; cont := k |}
       | Return => {| wake := None; cont := finished |}
       end = next_cont y.
Proof. destruct y; reflexivity. Qed.

Lemma in_effect_suspend (d : DisruptionType.t) (pid : nat) (y : Yield) (st : Factory) :
  in_effect d (suspend pid y st) = in_effect d st.
Proof. destruct d; reflexivity. Qed.

(** Resuming a process in a state where the invariant holds and no other
    process is due earlier. *)
Lemma resume_invariant (pid : nat) (p : Process) (draws : list Draw)
    (st : Factory) (y : Yield) (st' : Factory) :
  factory_invariant st ->
  nth_error (procs st) pid = Some p ->
  resume (cont p) draws st = Some (y, st') ->
  factory_invariant (suspend pid y st').
Proof.
  intros ((Hstat & Hprocs) & Hflags & Hclock) Hp Hr.
  destruct (resume_segment_ok _ _ _ _ _ Hr) as [Hs (Henv & new & Hnew & Fnew) Hf].
  assert (Hk : cont_ok (cont p)).
  { unfold procs_ok in Hprocs. rewrite Forall_forall in Hprocs.
    apply Hprocs. exact (nth_error_In _ _ Hp). }
  destruct (Hs (conj Hstat Hprocs) Hk) as ((Hstat' & Hprocs') & Hnext & Hy).
  assert (Hnth : nth_error (procs st ++ new) pid = Some p)
    by (apply nth_error_app_old; exact Hp).
  split; [ split | split ].
  - exact Hstat'.
  - unfold procs_ok, suspend. record_simpl.
    apply Forall_list_set; [ exact Hprocs' |].
    rewrite cont_suspended. exact Hnext.
  - intros d Hd. rewrite in_effect_suspend.
    unfold active_instances, suspend. record_simpl. rewrite Hnew.
    match goal with
    | |- context [list_set pid ?q _] =>
        pose proof (filter_list_set_length (fun p => waiting d (cont p)) pid p q _ Hnth) as Hc
    end.
    cbv beta in Hc. rewrite cont_suspended in Hc.
    rewrite filter_app, length_app in Hc.
    rewrite (filter_none (fun p => waiting d (cont p)) new) in Hc.
    + assert (Hw : waiting d (cont p) = true -> in_effect d st = true).
      { intros Hw. specialize (Hflags d Hd). unfold active_instances in Hflags.
        pose proof (nth_error_filter_pos (fun p => waiting d (cont p)) pid p _ Hp Hw).
        destruct (in_effect d st); [ reflexivity | cbn in Hflags; lia ]. }
      specialize (Hf d Hd Hw). specialize (Hflags d Hd).
      unfold active_instances in Hflags. cbn [List.length] in Hc. lia.
    + eapply Forall_impl; [| exact Fnew ]. cbv beta. intros q [Hq _].
      apply starting_not_waiting. exact Hq.
  - unfold clock_ok, suspend. record_simpl. rewrite Hnew.
    apply Forall_list_set.
    + apply Forall_app. split.
      * rewrite Henv. exact Hclock.
      * eapply Forall_impl; [| exact Fnew ]. cbv beta. intros q [_ ->].
        rewrite Henv. apply Qle_refl.
    + destruct y as [delay k | k |]; cbn in *; try exact I.
      rewrite <- (Qplus_0_r (env_now st')) at 1.
      apply Qplus_le_r. exact Hy.
Qed.

(** An operation that keeps the invariant's view and only starts
    processes. *)
Lemma keeps_invariant (st st' : Factory) :
  keeps st st' -> factory_invariant st -> factory_invariant st'.
Proof.
  intros (Hs & (Henv & new & Hnew & Fnew) & Hf) (Hst & Hflags & Hclock).
  split; [ auto | split ].
  - intros d Hd. rewrite (Hf d Hd). rewrite <- (Hflags d Hd).
    unfold active_instances. rewrite Hnew, filter_app, length_app.
    rewrite (filter_none (fun p => waiting d (cont p)) new); [ cbn; lia |].
    eapply Forall_impl; [| exact Fnew ]. cbv beta. intros q [Hq _].
    apply starting_not_waiting. exact Hq.
  - unfold clock_ok. rewrite Hnew, Henv. apply Forall_app. split; [ exact Hclock |].
    eapply Forall_impl; [| exact Fnew ]. cbv beta. intros q [_ ->]. apply Qle_refl.
Qed.

Lemma step_invariant (l : Label) (st st' : Factory) :
  factory_invariant st -> step l st = Some st' -> factory_invariant st'.
Proof.
  intros Hinv Hstep. destruct l as [pid draws | topic payload str_float | t];
    cbn [step] in Hstep.
  - destruct (nth_error (procs st) pid) as [p |] eqn:Hp; [| discriminate ].
    destruct (wake p) as [t |].
    + destruct (earliest t st) eqn:He; [| discriminate ].
      destruct (resume (cont p) draws (set_env_now t st)) as [[y st1] |] eqn:Hr;
        [| discriminate ].
      injection Hstep as <-.
      apply (resume_invariant pid p draws (set_env_now t st)); [| exact Hp | exact Hr ].
      destruct Hinv as (Hst & Hflags & _).
      split; [ exact Hst | split; [ apply flags_ok_set_env_now; exact Hflags
                                  | apply earliest_clock; exact He ] ].
    + destruct (requests_granted p st); [| discriminate ].
      destruct (resume (cont p) draws st) as [[y st1] |] eqn:Hr; [| discriminate ].
      injection Hstep as <-.
      exact (resume_invariant pid p draws st y st1 Hinv Hp Hr).
  - destruct (mqtt_loop st); [| discriminate ].
    injection Hstep as <-.
    exact (keeps_invariant _ _ (keeps_on_mqtt_message _ _ _ _) Hinv).
  - destruct (Qleb (env_now st) t && earliest t st) eqn:He; [| discriminate ].
    injection Hstep as <-. apply andb_prop in He. destruct He as [_ He].
    destruct Hinv as (Hst & Hflags & _).
    split; [ exact Hst | split; [ apply flags_ok_set_env_now; exact Hflags
                                | apply earliest_clock; exact He ] ].
Qed.

Lemma init_invariant : factory_invariant init.
Proof.
  split; [ split | split ].
  - unfold_ok. cbn. unfold INITIAL_RAW_MATERIALS, INITIAL_INVENTORY, NUM_QC_STATIONS.
    repeat match goal with |- _ /\ _ => split end;
      try lia; try reflexivity; try (unfold Qle; cbn; lia);
      try (repeat constructor; unfold resource_ok, count; cbn; lia).
  - unfold procs_ok. cbn. repeat constructor.
  - intros d Hd. destruct d; try discriminate Hd; reflexivity.
  - unfold clock_ok. cbn. repeat constructor; unfold Qle; cbn; lia.
Qed.

(** The invariant holds in every state of the simulation. *)
Lemma reachable_invariant (st : Factory) :
  reachable st -> factory_invariant st.
Proof.
  induction 1 as [| l st st' _ IH Hstep];
    [ exact init_invariant | exact (step_invariant l st st' IH Hstep) ].
Qed.

(** ** What holds in every state of the simulation *)

Lemma after_first_assembly_reachable : reachable after_first_assembly.
Proof. exact (run_reachable _ _ _ reachable_init after_first_assembly_run). Qed.

(** No inventory or order counter is ever negative: raw materials, parts,
    finished products, backlog, total, fulfilled and cancelled orders. *)
Theorem ledger_never_negative (st : Factory) :
  reachable st -> ledger_ok st.
Proof.
  intros H. apply reachable_invariant in H.
  unfold factory_invariant, state_ok, static_ok in H. tauto.
Qed.

Lemma ledger_never_negative_witness :
  reachable after_first_assembly /\ ledger_ok after_first_assembly.
Proof.
  split; [ exact after_first_assembly_reachable |].
  apply ledger_never_negative. exact after_first_assembly_reachable.
Defined.

Lemma pool_in_store (h : nat) (st : Factory) :
  Forall resource_ok (resources st) -> (h < List.length (resources st))%nat ->
  pool_ok h st.
Proof.
  intros HF Hh. destruct (nth_error (resources st) h) as [r |] eqn:E.
  - exists r. split; [ exact E |].
    rewrite Forall_forall in HF. apply HF. exact (nth_error_In _ _ E).
  - apply nth_error_None in E. lia.
Qed.

(** Every Resource object ever created, the four current pools and the
    pools that a resize has replaced, has at most [capacity] users; and the
    four pool attributes always hold a Resource object. *)
Theorem resources_within_capacity (st : Factory) :
  reachable st ->
  Forall resource_ok (resources st) /\
  pool_ok (cnc_machines st) st /\ pool_ok (assembly_stations st) st /\
  pool_ok (qc_stations st) st /\ pool_ok (workers st) st.
Proof.
  intros H. apply reachable_invariant in H.
  unfold factory_invariant, state_ok, static_ok, handles_ok in H.
  destruct H as (((_ & _ & _ & HF & (H1 & H2 & H3 & H4) & _) & _) & _).
  repeat split; try exact HF; apply pool_in_store; assumption.
Qed.

Lemma resources_within_capacity_witness :
  reachable after_first_assembly /\
  pool_ok (workers after_first_assembly) after_first_assembly.
Proof.
  split; [ exact after_first_assembly_reachable |].
  apply (resources_within_capacity after_first_assembly).
  exact after_first_assembly_reachable.
Defined.

(** A supply chain disruption, a quality issue or an order cancellation
    is active exactly when its flag is set, and never twice at once. *)
Theorem flagged_disruptions_are_exclusive (d : DisruptionType.t) (st : Factory) :
  reachable st -> checked_at_start d = true ->
  active_instances d st = Nat.b2n (in_effect d st) /\
  (active_instances d st <= 1)%nat.
Proof.
  intros H Hd. apply reachable_invariant in H.
  destruct H as (_ & Hf & _). specialize (Hf d Hd).
  split; [ exact Hf |]. rewrite Hf. destruct (in_effect d st); cbn; lia.
Qed.

Lemma flagged_disruptions_are_exclusive_witness :
  reachable after_first_assembly /\
  checked_at_start DisruptionType.QUALITY_ISSUE = true /\
  (active_instances DisruptionType.QUALITY_ISSUE after_first_assembly <= 1)%nat.
Proof.
  split; [ exact after_first_assembly_reachable |].
  split; [ reflexivity |].
  apply (flagged_disruptions_are_exclusive DisruptionType.QUALITY_ISSUE);
    [ exact after_first_assembly_reachable | reflexivity ].
Defined.

(** Every order received is in the backlog, fulfilled or cancelled; the
    three can exceed the orders received, because outsourcing during an
    order spike counts orders as fulfilled that were never received. *)
Theorem orders_always_accounted (st : Factory) :
  reachable st -> orders_accounted st.
Proof.
  intros H. apply reachable_invariant in H.
  unfold factory_invariant, state_ok, static_ok in H. tauto.
Qed.

Lemma orders_always_accounted_witness :
  reachable after_first_assembly /\ orders_accounted after_first_assembly.
Proof.
  split; [ exact after_first_assembly_reachable |].
  apply orders_always_accounted. exact after_first_assembly_reachable.
Defined.

(** The counts of operational CNC machines and of available workers are
    never negative. *)
Theorem staffing_never_negative (st : Factory) :
  reachable st -> staffing_ok st.
Proof.
  intros H. apply reachable_invariant in H.
  unfold factory_invariant, state_ok, static_ok in H. tauto.
Qed.

Lemma staffing_never_negative_witness :
  reachable after_first_assembly /\ staffing_ok after_first_assembly.
Proof.
  split; [ exact after_first_assembly_reachable |].
  apply staffing_never_negative. exact after_first_assembly_reachable.
Defined.

(** The sensor arrays have one entry per CNC machine, so the indexed
    writes [cnc_temperatures[i]] for [i] in [range(NUM_CNC_MACHINES)] are
    always in range. *)
Theorem sensor_arrays_match_machines (st : Factory) :
  reachable st -> sensors_ok st /\ (1 <= NUM_CNC_MACHINES st)%Z.
Proof.
  intros H. apply reachable_invariant in H.
  unfold factory_invariant, state_ok, static_ok, sizes_ok in H. tauto.
Qed.

Lemma sensor_arrays_match_machines_witness :
  reachable after_sell_twice /\ sensors_ok after_sell_twice.
Proof.
  assert (H : reachable after_sell_twice)
    by exact (run_reachable _ _ _ reachable_init after_sell_twice_run).
  split; [ exact H |].
  apply (sensor_arrays_match_machines after_sell_twice). exact H.
Defined.

(** A custom duration given with an activation command is used for that
    activation only: the table of default durations is as at the start. *)
Theorem duration_table_is_restored (st : Factory) :
  reachable st -> DURATION st = StrategyDurations.DURATION_0.
Proof.
  intros H. apply reachable_invariant in H.
  unfold factory_invariant, state_ok, static_ok in H. tauto.
Qed.

Lemma duration_table_is_restored_witness :
  reachable after_sell_twice /\
  DURATION after_sell_twice = StrategyDurations.DURATION_0.
Proof.
  assert (H : reachable after_sell_twice)
    by exact (run_reachable _ _ _ reachable_init after_sell_twice_run).
  split; [ exact H |].
  apply duration_table_is_restored. exact H.
Defined.

(** The weekly charge is the sum of the weekly costs of the strategies
    that are active, each of which is in the set once; so
    [adaptation_strategies.remove] never raises. *)
Theorem weekly_costs_match_active_strategies (st : Factory) :
  reachable st ->
  NoDup (adaptation_strategies st) /\
  strategy_weekly_costs st = sum_weekly (adaptation_strategies st).
Proof.
  intros H. apply reachable_invariant in H.
  unfold factory_invariant, state_ok, static_ok, strategies_ok in H. tauto.
Qed.

Lemma weekly_costs_match_active_strategies_witness :
  reachable after_first_assembly /\
  strategy_weekly_costs after_first_assembly
  = sum_weekly (adaptation_strategies after_first_assembly).
Proof.
  split; [ exact after_first_assembly_reachable |].
  apply (weekly_costs_match_active_strategies after_first_assembly).
  exact after_first_assembly_reachable.
Defined.

(** The delay of every [env.timeout] is non-negative, so simpy never
    raises [ValueError]: whatever process is resumed in a state of the
    simulation, with whatever draws and at whatever time. *)
Theorem timeouts_are_never_negative (st : Factory) (pid : nat) (p : Process)
    (t : Q) (draws : list Draw) (y : Yield) (st' : Factory) :
  reachable st -> nth_error (procs st) pid = Some p ->
  resume (cont p) draws (set_env_now t st) = Some (y, st') ->
  yield_ok y.
Proof.
  intros H Hp Hr. apply reachable_invariant in H.
  destruct H as ((Hst & Hprocs) & _).
  destruct (resume_segment_ok _ _ _ _ _ Hr) as [Hs _ _].
  assert (Hk : cont_ok (cont p)).
  { unfold procs_ok in Hprocs. rewrite Forall_forall in Hprocs.
    apply Hprocs. exact (nth_error_In _ _ Hp). }
  apply (Hs (conj Hst Hprocs) Hk).
Qed.

(** The clock never goes back, and no process is ever due in the past. *)
Theorem clock_never_goes_back (l : Label) (st st' : Factory) :
  reachable st -> step l st = Some st' ->
  env_now st <= env_now st' /\ clock_ok st'.
Proof.
  intros H Hstep.
  assert (Hinv' : factory_invariant st')
    by exact (step_invariant l st st' (reachable_invariant st H) Hstep).
  split; [| apply Hinv' ].
  apply reachable_invariant in H. destruct H as (_ & _ & Hclock).
  destruct l as [pid draws | topic payload str_float | t];
    cbn [step] in Hstep.
  - destruct (nth_error (procs st) pid) as [p |] eqn:Hp; [| discriminate ].
    destruct (wake p) as [t |] eqn:Hw.
    + destruct (earliest t st); [| discriminate ].
      destruct (resume (cont p) draws (set_env_now t st)) as [[y st1] |] eqn:Hr;
        [| discriminate ].
      injection Hstep as <-.
      destruct (resume_segment_ok _ _ _ _ _ Hr) as [_ (Henv & _) _].
      unfold suspend. record_simpl. rewrite Henv. record_simpl.
      unfold clock_ok in Hclock. rewrite Forall_forall in Hclock.
      specialize (Hclock p (nth_error_In _ _ Hp)). rewrite Hw in Hclock. exact Hclock.
    + destruct (requests_granted p st); [| discriminate ].
      destruct (resume (cont p) draws st) as [[y st1] |] eqn:Hr; [| discriminate ].
      injection Hstep as <-.
      destruct (resume_segment_ok _ _ _ _ _ Hr) as [_ (Henv & _) _].
      unfold suspend. record_simpl. rewrite Henv. apply Qle_refl.
  - destruct (mqtt_loop st); [| discriminate ].
    injection Hstep as <-.
    destruct (keeps_on_mqtt_message (fun _ => str_float) topic payload st)
      as (_ & (Henv & _) & _).
    rewrite Henv. apply Qle_refl.
  - destruct (Qleb (env_now st) t && earliest t st) eqn:He; [| discriminate ].
    injection Hstep as <-. apply andb_prop in He. destruct He as [He _].
    record_simpl. apply Qleb_le. exact He.
Qed.

Lemma timeouts_are_never_negative_witness :
  reachable init /\
  nth_error (procs init) 2 = Some {| wake := Some 0; cont := monitor_metrics_loop |} /\
  yield_ok (fst (monitor_metrics (set_env_now 0 init))).
Proof.
  split; [ exact reachable_init |]. split; [ reflexivity |].
  apply (timeouts_are_never_negative init 2
           {| wake := Some 0; cont := monitor_metrics_loop |} 0 []
           (fst (monitor_metrics (set_env_now 0 init)))
           (snd (monitor_metrics (set_env_now 0 init)))
           reachable_init eq_refl).
  cbn [resume cont]. rewrite <- surjective_pairing. reflexivity.
Defined.

Lemma after_first_tick_step : step (Resume 2 []) init = Some after_first_tick.
Proof. vm_compute. reflexivity. Qed.

Lemma clock_never_goes_back_witness :
  reachable init /\ step (Resume 2 []) init = Some after_first_tick /\
  env_now init <= env_now after_first_tick.
Proof.
  split; [ exact reachable_init |]. split; [ exact after_first_tick_step |].
  apply (clock_never_goes_back (Resume 2 []) init after_first_tick reachable_init
           after_first_tick_step).
Defined.

(** * Properties of single operations *)

(** ** Expiration of strategies *)





(** ** Liquidation of inventory *)

(** With the liquidation strategy active, [liquidate_inventory] sells the
    finished products above the backlog plus a stock of ten, at 65% of the
    price of 1500; otherwise it sells nothing.  It touches no other
    counter. *)
Theorem liquidation_keeps_a_stock_of_ten (st : Factory) :
  let st' := snd (liquidate_inventory st) in
  finished_products st'
  = (if is_active INVENTORY_LIQUIDATION st
     then Z.min (finished_products st) (backlog st + 10)
     else finished_products st) /\
  liquidation_revenue st'
  == liquidation_revenue st + #(finished_products st - finished_products st') * 975 /\
  backlog st' = backlog st /\ raw_materials st' = raw_materials st /\
  parts_inventory st' = parts_inventory st /\ revenue st' = revenue st /\
  costs st' = costs st.
Proof.
  cbv zeta. unfold liquidate_inventory.
  destruct (is_active INVENTORY_LIQUIDATION st); cbn [negb].
  - destruct (Z.max 0 (finished_products st - backlog st - 10) <=? 0)%Z eqn:E.
    + apply Z.leb_le in E. cbn [snd].
      repeat split; try reflexivity; try lia.
      replace (finished_products st - finished_products st)%Z with 0%Z by lia. ring.
    + apply Z.leb_gt in E. cbn [snd]. record_simpl.
      repeat split; try reflexivity; try lia.
      replace (finished_products st -
               (finished_products st - Z.max 0 (finished_products st - backlog st - 10)))%Z
        with (Z.max 0 (finished_products st - backlog st - 10)) by lia.
      ring.
  - cbn [snd]. repeat split; try reflexivity.
    replace (finished_products st - finished_products st)%Z with 0%Z by lia. ring.
Qed.

(** ** Ordering raw materials *)

(** An order of raw materials is for 500 units, or with just-in-time
    replenishment for between 500 and 1000; it is charged at once at 70 a
    unit; it arrives after 70% to 200% of the delivery time of two days;
    and the ledger changes only on arrival, by exactly the amount
    ordered. *)
Theorem raw_material_order (st : Factory) :
  exists amount delay,
    order_raw_materials st
    = (Timeout delay (order_raw_materials_wait amount),
       snd (order_raw_materials st)) /\
    (500 <= amount <= 1000)%Z /\
    (is_active JUST_IN_TIME_REPLENISHMENT st = false -> amount = 500%Z) /\
    costs (snd (order_raw_materials st)) == costs st + #amount * RAW_MATERIAL_COST /\
    ledger (snd (order_raw_materials st)) = ledger st /\
    0.7 * DELIVERY_TIME <= delay /\ delay <= 2 * DELIVERY_TIME /\
    forall st1,
      raw_materials (snd (order_raw_materials_resume amount st1))
      = (raw_materials st1 + amount)%Z.
Proof.
  unfold order_raw_materials.
  destruct (is_active JUST_IN_TIME_REPLENISHMENT st);
    destruct (supply_chain_disrupted st) eqn:E;
    cbv beta iota zeta; record_simpl; rewrite ?E;
    eexists; eexists;
    (split; [ reflexivity |]);
    (split; [ lia |]);
    (split; [ intros; first [ reflexivity | discriminate ] |]);
    (split; [ reflexivity |]);
    (split; [ reflexivity |]);
    (split; [ vm_compute; discriminate |]);
    (split; [ vm_compute; discriminate |]);
    intros st1; reflexivity.
Qed.

(** ** Activation of a persistent strategy *)

Lemma strategy_effect_bookkeeping (s : AdaptationStrategy.t) (b : bool)
    (st : Factory) :
  strategies (strategy_effect s b st) = strategies st /\
  financial (strategy_effect s b st) = financial st.
Proof. unfold strategy_effect. destruct s, b; split; reflexivity. Qed.

(** Activating a persistent strategy that is not active records the
    current time as its implementation date, sets its expiration to that
    time plus the custom duration if one is given and positive (else the
    default), charges the implementation cost once and adds its weekly cost
    to the weekly charge. *)
Theorem activation_sets_expiration (s : AdaptationStrategy.t)
    (custom_duration : option Z) (st : Factory) :
  ONE_TIME_STRATEGIES s = false -> is_active s st = false ->
  let r := modify_strategy (strategy_index s) true custom_duration st in
  let st' := outcome_state r in
  r = Returns ("Strategy activated: " ++ AdaptationStrategy.value s)%string st' /\
  dict_get AdaptationStrategy.eqb s (strategy_expiration_times st')
  = Some (env_now st + #(effective_duration s custom_duration st)) /\
  dict_get AdaptationStrategy.eqb s (strategy_implementation_dates st')
  = Some (env_now st) /\
  costs st' == costs st + #(StrategyCosts.IMPLEMENTATION s) /\
  strategy_weekly_costs st' = (strategy_weekly_costs st + StrategyCosts.WEEKLY s)%Z.
Proof.
  intros Hp Ha. cbv zeta. rewrite modify_strategy_at, Hp, Ha.
  cbn [negb]. cbv zeta. cbn [outcome_state]. split; [ reflexivity |].
  destruct (warn_if_unaffordable_logs s st) as [l Hl]. rewrite Hl.
  unfold strategies_add.
  replace (is_active s (set_logs l st)) with false by (symmetry; exact Ha).
  unfold apply_strategy_effects, effective_duration.
  destruct custom_duration as [d |]; [ destruct (d >? 0)%Z |]; record_simpl;
    destruct (strategy_effect_bookkeeping s true
                (record_strategy_change s true
                   (set_adaptation_strategies (adaptation_strategies st ++ [s])
                      (set_logs l st)))) as [E1 E2];
    try destruct (strategy_effect_bookkeeping s true
                (record_strategy_change s true
                   (log LogLevel.INFO "Strategy"
                      "Using custom duration of {duration_days} days for strategy '{strategy.value}'"
                      (set_DURATION
                         (dict_set AdaptationStrategy.eqb s d (DURATION st))
                         (set_adaptation_strategies (adaptation_strategies st ++ [s])
                            (set_logs l st)))))) as [E3 E4];
    unfold strategy_expiration_times, strategy_implementation_dates, costs,
      strategy_weekly_costs;
    rewrite ?E1, ?E2, ?E3, ?E4;
    unfold record_strategy_change, DURATION_get; record_simpl;
    rewrite ?dict_get_set_eq;
    (split; [ reflexivity | split; [ reflexivity | split; reflexivity ] ]).
Qed.

Lemma activation_sets_expiration_witness :
  ONE_TIME_STRATEGIES PREVENTIVE_MAINTENANCE = false /\
  is_active PREVENTIVE_MAINTENANCE init = false /\
  dict_get AdaptationStrategy.eqb PREVENTIVE_MAINTENANCE
    (strategy_expiration_times
       (outcome_state (modify_strategy (strategy_index PREVENTIVE_MAINTENANCE) true
                         (Some 1440%Z) init)))
  = Some (env_now init + #1440).
Proof.
  split; [ reflexivity | split; [ reflexivity |] ].
  apply (activation_sets_expiration PREVENTIVE_MAINTENANCE (Some 1440%Z) init
           eq_refl eq_refl).
Defined.

(** ** Pausing and resuming

    The pause flag is written by the [pause] and [resume] commands and by
    nothing else. *)

Ltac paused_tac :=
  repeat (record_simpl;
          match goal with
          | |- context [if ?c then _ else _] => destruct c
          | |- context [match ?x with Some _ => _ | None => _ end] => destruct x
          | |- context [let (_, _) := ?x in _] => destruct x
          end);
  record_simpl; reflexivity.

Lemma paused_strategy_effect (s : AdaptationStrategy.t) (b : bool) (st : Factory) :
  paused (strategy_effect s b st) = paused st.
Proof. unfold strategy_effect. destruct s, b; reflexivity. Qed.

Lemma paused_apply_strategy_effects (s : AdaptationStrategy.t) (b : bool)
    (st : Factory) :
  paused (apply_strategy_effects s b st) = paused st.
Proof.
  unfold apply_strategy_effects. rewrite paused_strategy_effect.
  unfold record_strategy_change. paused_tac.
Qed.

Lemma paused_check_strategy_expiration (st : Factory) :
  paused (check_strategy_expiration st) = paused st.
Proof.
  unfold check_strategy_expiration.
  generalize (expired_strategies st). intros l. revert st.
  induction l as [| s l IH]; intros st; cbn [fold_left]; [ reflexivity |].
  rewrite IH. unfold expire. rewrite paused_apply_strategy_effects. paused_tac.
Qed.

Lemma paused_check_critical_conditions (st : Factory) :
  paused (check_critical_conditions st) = paused st.
Proof. unfold check_critical_conditions. paused_tac. Qed.

Lemma paused_monitor_metrics (st : Factory) :
  paused (snd (monitor_metrics st)) = paused st.
Proof.
  unfold monitor_metrics. cbv zeta. cbn [snd].
  rewrite paused_check_strategy_expiration, paused_check_critical_conditions.
  paused_tac.
Qed.

Lemma paused_generate_disruptions (d : DisruptionDraws) (st : Factory) :
  paused (snd (generate_disruptions d st)) = paused st.
Proof.
  unfold generate_disruptions. cbn [snd].
  repeat (record_simpl;
          match goal with
          | |- _ (_ (if ?c then _ else _)) = _ => destruct c
          end).
  all: reflexivity.
Qed.

Lemma paused_assemble_products_done (a w : Request) (b : Z) (r : Q) (st : Factory) :
  paused (snd (assemble_products_done a w b r st)) = paused st.
Proof.
  unfold assemble_products_done.
  match goal with
  | |- context [fold_left ?f ?l ?s] =>
      destruct (spawn_each product_to_qc_start l s) as (new & -> & _)
  end.
  unfold assemble_products, request. paused_tac.
Qed.

Ltac paused_segment :=
  lazymatch goal with
  | |- context [monitor_metrics] => apply paused_monitor_metrics
  | |- context [generate_disruptions] => apply paused_generate_disruptions
  | |- context [assemble_products_done] => apply paused_assemble_products_done
  | |- _ =>
      unfold produce_parts_got_cnc, produce_parts_got_worker, produce_parts_done,
        assemble_products_got_both, product_to_qc, product_to_qc_got_both,
        product_to_qc_done, inspect, order_cancellation, order_cancellation_resume,
        cnc_machine_failure, cnc_machine_failure_resume, order_spike,
        order_spike_resume, supply_chain_disruption, supply_chain_disruption_resume,
        worker_absence, worker_absence_resume, quality_control_issue,
        quality_control_issue_resume, power_outage_event, power_outage_event_resume,
        generate_orders, process_backlog, calculate_worker_costs,
        calculate_inventory_costs, calculate_energy_usage, order_raw_materials,
        order_raw_materials_resume, liquidate_inventory, liquidate_inventory_resume,
        restore_power_risk, restore_power_risk_resume, bulk_delivery,
        bulk_delivery_resume_second, bulk_delivery_resume_third,
        restore_process_times, restore_process_times_resume, end_overtime,
        end_overtime_resume;
      unfold produce_parts, assemble_products, request;
      paused_tac
  end.

(** No piece of a process writes the pause flag. *)
Lemma resume_paused (k : Cont) (draws : list Draw) (st : Factory)
    (y : Yield) (st' : Factory) :
  resume k draws st = Some (y, st') -> paused st' = paused st.
Proof.
  intros H.
  destruct k; cbv beta iota delta [resume guard] in H; try discriminate H;
    repeat match type of H with
           | match ?x with _ => _ end = _ => destruct x eqn:?; try discriminate H
           | (let z := _ in _) = _ => cbv zeta in H
           end;
    apply some_pair_inv in H; destruct H as [_ ->];
    paused_segment.
Qed.

Lemma paused_execute_one_time_strategy (s : AdaptationStrategy.t) (st : Factory) :
  paused (outcome_state (execute_one_time_strategy s st)) = paused st.
Proof.
  unfold execute_one_time_strategy, simpy_Resource. destruct s; paused_tac.
Qed.

Lemma paused_modify_strategy (s : AdaptationStrategy.t) (activate : bool)
    (custom_duration : option Z) (st : Factory) :
  paused (outcome_state (modify_strategy (strategy_index s) activate
                           custom_duration st)) = paused st.
Proof.
  rewrite modify_strategy_at.
  destruct (warn_if_unaffordable_logs s st) as [l Hl].
  destruct activate.
  - destruct (ONE_TIME_STRATEGIES s).
    + cbv zeta. rewrite Hl.
      match goal with
      | |- context [execute_one_time_strategy s ?x] =>
          pose proof (paused_execute_one_time_strategy s x) as H;
          destruct (execute_one_time_strategy s x)
      end; cbn [outcome_state] in *; record_simpl; exact H.
    + destruct (negb (is_active s st)); [| reflexivity ].
      cbv beta zeta. cbn [outcome_state]. rewrite Hl.
      destruct custom_duration as [d |]; [ destruct (d >? 0)%Z |];
        record_simpl; rewrite paused_apply_strategy_effects;
        unfold strategies_add; paused_tac.
  - destruct (negb (ONE_TIME_STRATEGIES s) && is_active s st); [| reflexivity ].
    cbv beta zeta. cbn [outcome_state].
    rewrite paused_apply_strategy_effects. unfold strategies_remove. paused_tac.
Qed.

Lemma paused_handle_direct_strategy_command (f : string -> option float)
    (topic : string) (payload : json) (st : Factory) :
  paused (handle_direct_strategy_command f topic payload st) = paused st.
Proof.
  unfold handle_direct_strategy_command.
  destruct (py_in "trigger" payload) as [[] |]; try reflexivity.
  destruct (py_getitem payload "trigger") as [[| [] | | | | |] |];
    try reflexivity;
    destruct (matching_strategies (last_segment topic)) as [| s l];
    try reflexivity.
  - destruct (py_getitem payload "duration") as [v |];
      [ destruct (duration_minutes f v) as [minutes | []]; try reflexivity |];
      match goal with
      | |- context [modify_strategy ?i true ?cd ?x] =>
          pose proof (paused_modify_strategy s true cd x) as Hm;
          destruct (modify_strategy i true cd x)
      end;
      cbn [outcome_state] in Hm; record_simpl; exact Hm.
  - pose proof (paused_modify_strategy s false None st) as Hm.
    destruct (modify_strategy (strategy_index s) false None st) as [res x' | e x'];
      cbn [outcome_state] in Hm; record_simpl; exact Hm.
Qed.

(** Only a [pause] or [resume] command writes the pause flag. *)
Lemma step_paused (l : Label) (st st' : Factory) :
  pause_or_resume l = false -> step l st = Some st' -> paused st' = paused st.
Proof.
  intros Hl Hstep. destruct l as [pid draws | topic payload str_float | t];
    cbn [step] in Hstep.
  - destruct (nth_error (procs st) pid) as [p |]; [| discriminate ].
    destruct (wake p) as [t |].
    + destruct (earliest t st); [| discriminate ].
      destruct (resume (cont p) draws (set_env_now t st)) as [[y st1] |] eqn:Hr;
        [| discriminate ].
      injection Hstep as <-. apply resume_paused in Hr.
      unfold suspend. record_simpl. exact Hr.
    + destruct (requests_granted p st); [| discriminate ].
      destruct (resume (cont p) draws st) as [[y st1] |] eqn:Hr; [| discriminate ].
      injection Hstep as <-. apply resume_paused in Hr.
      unfold suspend. record_simpl. exact Hr.
  - destruct (mqtt_loop st); [| discriminate ]. injection Hstep as <-.
    unfold on_mqtt_message. destruct payload as [payload |]; [| reflexivity ].
    cbn [pause_or_resume] in Hl.
    destruct (String.eqb topic MQTTTopics.STRATEGY_COMMAND); [ reflexivity |].
    destruct (String.eqb topic MQTTTopics.SIMULATION_COMMAND).
    + cbn [andb] in Hl. unfold handle_simulation_command.
      destruct (py_in "command" payload) as [[] |]; try reflexivity.
      destruct (py_getitem payload "command") as [[| | | | s | |] |];
        try reflexivity.
      apply orb_false_elim in Hl. destruct Hl as [-> ->].
      destruct (String.eqb (lower s) "stop"); reflexivity.
    + destruct (String.prefix "factory/command/" topic); [| reflexivity ].
      apply paused_handle_direct_strategy_command.
  - destruct (Qleb (env_now st) t && earliest t st); [| discriminate ].
    injection Hstep as <-. reflexivity.
Qed.

(** A turn of the loop of [run_simulation] is a run of the scheduler. *)
Lemma env_run_reachable (until : Q) (rs : list (nat * list Draw))
    (st st' : Factory) :
  reachable st -> env_run until rs st = Some st' ->
  reachable st' /\ env_now st' = until.
Proof.
  revert st. induction rs as [| [pid draws] rs IH]; intros st Hr H;
    cbn [env_run] in H.
  - split; [ exact (reachable_step _ _ _ Hr H) |].
    cbn [step] in H. destruct (Qleb (env_now st) until && earliest until st);
      [| discriminate ].
    injection H as <-. reflexivity.
  - destruct (nth_error (procs st) pid) as [p |]; [| discriminate ].
    destruct (due_before until p st); [| discriminate ].
    destruct (step (Resume pid draws) st) as [st1 |] eqn:Hs; [| discriminate ].
    exact (IH st1 (reachable_step _ _ _ Hr Hs) H).
Qed.

(** A pause command, in any letter case, sets the pause flag.  A turn of
    the loop of [run_simulation] that finds the flag set starts no
    [env.run] and changes nothing.  The flag stays set through every piece
    of a process that an [env.run] under way still resumes, through the
    return of that call and through every message other than a pause or
    resume command.  A resume command clears it, and the two commands
    together leave the state as it was but for the flag and the log. *)
Theorem pause_stops_the_simulation (f : string -> option float)
    (c : string) (st : Factory) :
  lower c = "pause"%string ->
  let st1 := on_mqtt_message f MQTTTopics.SIMULATION_COMMAND (command c) st in
  paused st1 = true /\
  (forall target_sim_minutes rs next_sim_step,
     run_simulation_turn target_sim_minutes rs next_sim_step st1
     = Some (next_sim_step, st1)) /\
  (forall l st2,
     pause_or_resume l = false -> step l st1 = Some st2 -> paused st2 = true) /\
  (forall c', lower c' = "resume"%string ->
     exists l,
       on_mqtt_message f MQTTTopics.SIMULATION_COMMAND (command c') st1
       = set_logs l (set_paused false st)).
Proof.
  intros Hc. cbv zeta.
  assert (E : on_mqtt_message f MQTTTopics.SIMULATION_COMMAND (command c) st
              = log LogLevel.INFO "Simulation" "Simulation paused via MQTT command"
                  (set_paused true st)).
  { unfold on_mqtt_message, command, handle_simulation_command. cbn. rewrite Hc. reflexivity. }
  rewrite E. split; [ reflexivity |].
  split; [ intros target_sim_minutes rs next_sim_step; reflexivity |].
  split.
  { intros l st2 Hl Hstep. rewrite (step_paused l _ st2 Hl Hstep). reflexivity. }
  intros c' Hc'. eexists.
  unfold on_mqtt_message, command, handle_simulation_command. cbn. rewrite Hc'. cbn.
  reflexivity.
Qed.

Lemma pause_stops_the_simulation_witness :
  lower "PAUSE" = "pause"%string /\
  paused (on_mqtt_message (fun _ => None) MQTTTopics.SIMULATION_COMMAND
            (command "PAUSE") init) = true.
Proof.
  split; [ reflexivity |].
  apply (pause_stops_the_simulation (fun _ => None) "PAUSE" init eq_refl).
Defined.

(** ** The loop of [run_simulation] *)

(** A turn of the loop of [run_simulation] from a state of the simulation
    ends in a state of the simulation.  Either it changes nothing (the
    factory is paused, or the wall clock has not reached the next step), or
    the factory was not paused, the step counter is one more and the
    simulation clock is exactly at that step. *)
Theorem run_simulation_turn_advances_one_step (target_sim_minutes : Q)
    (rs : list (nat * list Draw)) (next_sim_step : Z) (st : Factory)
    (next_sim_step' : Z) (st' : Factory) :
  reachable st ->
  run_simulation_turn target_sim_minutes rs next_sim_step st
  = Some (next_sim_step', st') ->
  reachable st' /\
  ((next_sim_step' = next_sim_step /\ st' = st) \/
   (next_sim_step' = (next_sim_step + 1)%Z /\ paused st = false /\
    #next_sim_step < target_sim_minutes /\ env_now st' = #(next_sim_step + 1))).
Proof.
  intros Hr H. unfold run_simulation_turn in H.
  destruct (paused st) eqn:Hp.
  { injection H as <- <-. split; [ exact Hr | left; split; reflexivity ]. }
  destruct (Qltb #next_sim_step target_sim_minutes) eqn:Ht.
  - destruct (env_run #(next_sim_step + 1) rs st) as [st1 |] eqn:He;
      [| discriminate ].
    injection H as <- <-.
    destruct (env_run_reachable _ _ _ _ Hr He) as [Hr1 Hn].
    split; [ exact Hr1 |]. right.
    split; [ reflexivity | split; [ reflexivity | split; [| exact Hn ] ] ].
    apply Qltb_lt. exact Ht.
  - injection H as <- <-. split; [ exact Hr | left; split; reflexivity ].
Qed.

Lemma first_minute_turn :
  exists st', run_simulation_turn 0.5 first_minute 0 init = Some (1%Z, st').
Proof. vm_compute. eexists. reflexivity. Qed.

Lemma run_simulation_turn_advances_one_step_witness :
  exists st',
    run_simulation_turn 0.5 first_minute 0 init = Some (1%Z, st') /\
    reachable st' /\ env_now st' = 1.
Proof.
  destruct first_minute_turn as [st' E]. exists st'.
  split; [ exact E |].
  destruct (run_simulation_turn_advances_one_step 0.5 first_minute 0 init 1 st'
              reachable_init E) as [Hr [[H _] | (_ & _ & _ & Hn)]].
  - discriminate H.
  - split; [ exact Hr | exact Hn ].
Defined.

(** ** The rate limit of the publisher *)

Lemma string_dict_get_set_eq {V : Type} (k : string) (v : V) (d : dict string V) :
  dict_get String.eqb k (dict_set String.eqb k v d) = Some v.
Proof.
  induction d as [| [k' v'] d IH]; cbn.
  - now rewrite String.eqb_refl.
  - destruct (String.eqb k k') eqn:E; cbn; rewrite E; [ reflexivity | exact IH ].
Qed.

Lemma string_dict_get_set_neq {V : Type} (k k' : string) (v : V) (d : dict string V) :
  k <> k' ->
  dict_get String.eqb k' (dict_set String.eqb k v d) = dict_get String.eqb k' d.
Proof.
  intros Hk. assert (E' : String.eqb k' k = false)
    by (apply String.eqb_neq; congruence).
  induction d as [| [k0 v0] d IH]; cbn.
  - now rewrite E'.
  - destruct (String.eqb k k0) eqn:E; cbn.
    + apply String.eqb_eq in E. subst k0. now rewrite E'.
    + destruct (String.eqb k' k0); [ reflexivity | exact IH ].
Qed.

(** What a call does to the table entry of a topic. *)
Lemma rate_limited_publish_table (t : Q) (topic payload : string) (p : Publisher)
    (topic' : string) :
  let r := rate_limited_publish t topic payload p in
  (fst r = true ->
   match dict_get String.eqb topic (last_publish_time p) with
   | Some last => MQTT_MIN_PUBLISH_INTERVAL <= t - last
   | None => True
   end /\
   dict_get String.eqb topic (last_publish_time (snd r)) = Some t) /\
  (fst r = false -> last_publish_time (snd r) = last_publish_time p) /\
  (topic <> topic' ->
   dict_get String.eqb topic' (last_publish_time (snd r))
   = dict_get String.eqb topic' (last_publish_time p)).
Proof.
  cbv zeta. unfold rate_limited_publish, can_publish.
  destruct (dict_get String.eqb topic (last_publish_time p)) as [last |] eqn:E.
  - destruct (Qleb MQTT_MIN_PUBLISH_INTERVAL (t - last)) eqn:El; cbn [fst snd last_publish_time].
    + split; [ intros _; split; [ apply Qleb_le; exact El | apply string_dict_get_set_eq ] |].
      split; [ discriminate | intros Hn; apply string_dict_get_set_neq; exact Hn ].
    + split; [ discriminate |]. split; [ reflexivity | reflexivity ].
  - cbn [fst snd last_publish_time].
    split; [ intros _; split; [ exact I | apply string_dict_get_set_eq ] |].
    split; [ discriminate | intros Hn; apply string_dict_get_set_neq; exact Hn ].
Qed.

Lemma accepted_after_last (calls : list (Q * string * string)) (p : Publisher)
    (topic : string) (t1 t2 : Q) (m2 : string)
    (mid post : list (Q * string * string)) :
  dict_get String.eqb topic (last_publish_time p) = Some t1 ->
  accepted calls p = mid ++ (t2, topic, m2) :: post ->
  (forall x, In x mid -> snd (fst x) <> topic) ->
  MQTT_MIN_PUBLISH_INTERVAL <= t2 - t1.
Proof.
  revert p mid. induction calls as [| [[t tp] m] calls IH]; intros p mid Hp Ha Hmid;
    cbn [accepted] in Ha.
  - destruct mid; discriminate.
  - destruct (rate_limited_publish_table t tp m p topic) as (H1 & H2 & H3).
    destruct (rate_limited_publish t tp m p) as [ok p'] eqn:E. cbn [fst snd] in *.
    destruct ok.
    + destruct mid as [| x mid]; cbn [app] in Ha.
      * injection Ha as -> -> -> _. destruct (H1 eq_refl) as [Hl _].
        rewrite Hp in Hl. exact Hl.
      * injection Ha as <- Ha.
        apply (IH p' mid); [| exact Ha | intros y Hy; apply Hmid; now right ].
        rewrite H3; [ exact Hp |]. apply (Hmid (t, tp, m)). now left.
    + apply (IH p' mid); [| exact Ha | exact Hmid ].
      rewrite (H2 eq_refl). exact Hp.
Qed.

(** Whatever the calls and their times, two publishes on the same topic
    with none on that topic between them are at least
    [MQTT_MIN_PUBLISH_INTERVAL] seconds apart. *)
Theorem publishes_are_spaced (calls : list (Q * string * string)) (p : Publisher)
    (topic : string) (t1 t2 : Q) (m1 m2 : string)
    (pre mid post : list (Q * string * string)) :
  accepted calls p = pre ++ (t1, topic, m1) :: mid ++ (t2, topic, m2) :: post ->
  (forall x, In x mid -> snd (fst x) <> topic) ->
  MQTT_MIN_PUBLISH_INTERVAL <= t2 - t1.
Proof.
  revert p pre. induction calls as [| [[t tp] m] calls IH]; intros p pre Ha Hmid;
    cbn [accepted] in Ha.
  - destruct pre; discriminate.
  - destruct (rate_limited_publish_table t tp m p topic) as (H1 & H2 & H3).
    destruct (rate_limited_publish t tp m p) as [ok p'] eqn:E. cbn [fst snd] in *.
    destruct ok.
    + destruct pre as [| x pre]; cbn [app] in Ha.
      * injection Ha as -> -> -> Ha. destruct (H1 eq_refl) as [_ Hl].
        exact (accepted_after_last calls p' topic t1 t2 m2 mid post Hl Ha Hmid).
      * injection Ha as _ Ha. exact (IH p' pre Ha Hmid).
    + exact (IH p' pre Ha Hmid).
Qed.

Lemma publishes_are_spaced_witness :
  accepted [ (0, "factory/logs/info", "a"); (0.5, "factory/logs/info", "b");
             (0.7, "factory/logs/error", "c"); (1.2, "factory/logs/info", "d") ]%string
    {| last_publish_time := []; published := [] |}
  = [] ++ (0, "factory/logs/info", "a")%string
          :: [ (0.7, "factory/logs/error", "c")%string ]
          ++ (1.2, "factory/logs/info", "d")%string :: [] /\
  MQTT_MIN_PUBLISH_INTERVAL <= 1.2 - 0.
Proof.
  assert (H : accepted [ (0, "factory/logs/info", "a"); (0.5, "factory/logs/info", "b");
                         (0.7, "factory/logs/error", "c");
                         (1.2, "factory/logs/info", "d") ]%string
                {| last_publish_time := []; published := [] |}
              = [] ++ (0, "factory/logs/info", "a")%string
                      :: [ (0.7, "factory/logs/error", "c")%string ]
                      ++ (1.2, "factory/logs/info", "d")%string :: [])
    by (vm_compute; reflexivity).
  split; [ exact H |].
  apply (publishes_are_spaced _ _ _ _ _ _ _ _ _ _ H).
  intros x [<- | []]. cbn. discriminate.
Defined.

(** ** Timestamps *)

Lemma format_02d_length (n : Z) :
  (0 <= n < 60)%Z -> String.length (format_02d n) = 2%nat.
Proof.
  intros H. assert (E : n = Z.of_nat (Z.to_nat n)) by lia.
  assert (Hk : (Z.to_nat n < 60)%nat) by lia.
  rewrite E. generalize dependent (Z.to_nat n). clear. intros k _ Hk.
  do 60 (destruct k as [| k]; [ vm_compute; reflexivity |]).
  lia.
Qed.

(** The three fields of a timestamp recompose to the minutes it was made
    from; the hour is below 24 and the minute below 60, and both are
    written with two digits. *)
Theorem format_time_fields (minutes : Z) :
  let '(days, hours, mins) := time_fields minutes in
  minutes = (days * (24 * 60) + hours * 60 + mins)%Z /\
  (0 <= hours < 24)%Z /\ (0 <= mins < 60)%Z /\
  format_time minutes
  = ("Day " ++ py_str days ++ ", " ++ format_02d hours ++ ":" ++ format_02d mins)%string /\
  String.length (format_02d hours) = 2%nat /\
  String.length (format_02d mins) = 2%nat.
Proof.
  unfold format_time, time_fields. cbv zeta.
  pose proof (Z.div_mod minutes (24 * 60) ltac:(lia)) as H1.
  pose proof (Z.mod_pos_bound minutes (24 * 60) ltac:(lia)) as H2.
  pose proof (Z.div_mod (minutes mod (24 * 60)) 60 ltac:(lia)) as H3.
  pose proof (Z.mod_pos_bound (minutes mod (24 * 60)) 60 ltac:(lia)) as H4.
  pose proof (Z.mod_pos_bound minutes 60 ltac:(lia)) as H5.
  assert (H6 : ((minutes mod (24 * 60)) mod 60 = minutes mod 60)%Z).
  { rewrite (Z.mod_eq minutes (24 * 60)) by lia.
    replace (minutes - 24 * 60 * (minutes / (24 * 60)))%Z
      with (minutes + (- (24 * (minutes / (24 * 60)))) * 60)%Z by ring.
    apply Z.mod_add. lia. }
  assert (H7 : (0 <= (minutes mod (24 * 60)) / 60 < 24)%Z).
  { split; [ apply Z.div_pos; lia | apply Z.div_lt_upper_bound; lia ]. }
  split; [ lia |]. split; [ exact H7 |]. split; [ exact H5 |].
  split; [ reflexivity |].
  split; apply format_02d_length; lia.
Qed.

(** ** Processing times and OEE *)

(** The two processing times stay positive, whatever strategies are
    activated, expire or are restored by a timer: a batch always takes
    time. *)
Theorem processing_times_stay_positive (st : Factory) :
  reachable st -> 0 < CNC_PROCESSING_TIME st /\ 0 < ASSEMBLY_TIME st.
Proof.
  intros H. apply reachable_invariant in H.
  unfold factory_invariant, state_ok, static_ok, times_ok in H. tauto.
Qed.

Lemma processing_times_stay_positive_witness :
  reachable after_first_assembly /\ 0 < CNC_PROCESSING_TIME after_first_assembly.
Proof.
  split; [ exact after_first_assembly_reachable |].
  apply (processing_times_stay_positive after_first_assembly).
  exact after_first_assembly_reachable.
Defined.

(** In a state of the simulation [calculate_oee] never divides by zero;
    the performance it computes lies between 0 and 1 and the availability is
    not negative. *)
Theorem calculate_oee_is_defined (o : OEE.t) (st : Factory) :
  reachable st ->
  exists o', calculate_oee o st = Some o' /\
    (power_outage st = true -> o' = o) /\
    (power_outage st = false ->
     0 <= OEE.performance o' /\ OEE.performance o' <= 1 /\
     0 <= OEE.availability o' /\
     OEE.quality o' = 1.0 - defect_rate st /\
     OEE.oee o' = OEE.availability o' * OEE.performance o' * OEE.quality o').
Proof.
  intros H. apply reachable_invariant in H.
  unfold factory_invariant, state_ok, static_ok, times_ok, staffing_ok, sizes_ok in H.
  destruct H as (((_ & _ & _ & _ & _ & (Hn & _) & (Hop & _) & _ & (Ht & _) & _ & _ & Hd) & _) & _).
  unfold calculate_oee.
  destruct (power_outage st); [ exists o; split; [ reflexivity | split; [ reflexivity | discriminate ] ] |].
  assert (E : Qeq_bool (CNC_PROCESSING_TIME st) 0 = false).
  { destruct (Qeq_bool (CNC_PROCESSING_TIME st) 0) eqn:E; [| reflexivity ].
    apply Qeq_bool_eq in E. rewrite E in Ht. discriminate Ht. }
  rewrite E. eexists. split; [ reflexivity |]. split; [ discriminate |].
  intros _. cbn [OEE.performance OEE.availability OEE.quality OEE.oee].
  split; [| split; [| split; [| split; reflexivity ] ] ].
  - destruct (Qltb 0 _) eqn:El; [| apply Qle_refl ].
    apply Qltb_lt in El. apply Q.min_glb; [ unfold Qle; cbn; lia |].
    apply Qdiv_nonneg; [ apply inject_Z_nonneg; exact Hd | apply Qlt_le_weak; exact El ].
  - destruct (Qltb 0 _); [| unfold Qle; cbn; lia ].
    apply Qle_trans with 1.0; [ apply Q.le_min_l | unfold Qle; cbn; lia ].
  - replace (NUM_CNC_MACHINES st >? 0)%Z with true by (symmetry; apply Zgtb_true; lia).
    apply Qdiv_nonneg; apply inject_Z_nonneg; lia.
Qed.

Lemma calculate_oee_is_defined_witness :
  reachable after_first_assembly /\
  exists o', calculate_oee OEE.initial after_first_assembly = Some o' /\
             OEE.performance o' <= 1.
Proof.
  split; [ exact after_first_assembly_reachable |].
  destruct (calculate_oee_is_defined OEE.initial after_first_assembly
              after_first_assembly_reachable) as (o' & E & _ & H).
  exists o'. split; [ exact E |]. apply H. vm_compute. reflexivity.
Defined.

(** ** The sensor sampler *)

Lemma list_store_length {A : Type} (i : nat) (v : A) (l l' : list A) :
  list_store i v l = Some l' -> List.length l' = List.length l.
Proof.
  unfold list_store. destruct (i <? List.length l)%nat; [| discriminate ].
  intros H. injection H as <-. apply length_list_set.
Qed.

Lemma list_store_in_range {A : Type} (i : nat) (v : A) (l : list A) :
  (i < List.length l)%nat -> list_store i v l = Some (list_set i v l).
Proof.
  intros H. unfold list_store.
  replace (i <? List.length l)%nat with true by (symmetry; apply Nat.ltb_lt; exact H).
  reflexivity.
Qed.

Lemma update_machine_in_range (d : SensorDraws) (ambient : Ambient) (i : nat)
    (st : Factory) :
  (i < List.length (cnc_temperatures st))%nat ->
  (i < List.length (cnc_vibrations st))%nat ->
  exists s, update_machine d ambient i st = Some (set_sensors s st) /\
            List.length (cnc_temperatures s) = List.length (cnc_temperatures st) /\
            List.length (cnc_vibrations s) = List.length (cnc_vibrations st) /\
            ((operational_cnc_machines st <= Z.of_nat i)%Z ->
             nth_error (cnc_vibrations s) i = Some 0.0) /\
            (forall j, j <> i ->
               nth_error (cnc_vibrations s) j = nth_error (cnc_vibrations st) j).
Proof.
  intros Ht Hv. unfold update_machine.
  destruct (Z.of_nat i <? operational_cnc_machines st)%Z eqn:Eop.
  - apply Z.ltb_lt in Eop.
    destruct (_ && _ && _)%bool;
      rewrite list_store_in_range by exact Ht; record_simpl;
      rewrite list_store_in_range by exact Hv;
      (eexists; split; [ reflexivity |]); record_simpl;
      rewrite !length_list_set;
      (split; [ reflexivity | split; [ reflexivity | split; [ lia |] ] ]);
      intros j Hj; apply nth_error_list_set_neq; congruence.
  - apply Z.ltb_ge in Eop.
    destruct (nth_error (cnc_temperatures st) i) as [t |] eqn:En;
      [| apply nth_error_None in En; lia ].
    destruct (Qltb (ambient_temperature ambient) t);
      rewrite ?list_store_in_range by exact Ht; record_simpl;
      rewrite list_store_in_range by (rewrite ?length_list_set; exact Hv);
      (eexists; split; [ reflexivity |]); record_simpl;
      rewrite ?length_list_set;
      (split; [ reflexivity | split; [ reflexivity | split ] ]);
      try (intros _; apply nth_error_list_set_eq; exact Hv);
      intros j Hj; apply nth_error_list_set_neq; congruence.
Qed.

Lemma update_machines_in_range (d : SensorDraws) (ambient : Ambient)
    (machines : list nat) (st : Factory) :
  NoDup machines ->
  (forall i, In i machines -> (i < List.length (cnc_temperatures st))%nat) ->
  (forall i, In i machines -> (i < List.length (cnc_vibrations st))%nat) ->
  exists s, update_machines d ambient machines st = Some (set_sensors s st) /\
            List.length (cnc_temperatures s) = List.length (cnc_temperatures st) /\
            List.length (cnc_vibrations s) = List.length (cnc_vibrations st) /\
            (forall i, In i machines -> (operational_cnc_machines st <= Z.of_nat i)%Z ->
               nth_error (cnc_vibrations s) i = Some 0.0) /\
            (forall j, ~ In j machines ->
               nth_error (cnc_vibrations s) j = nth_error (cnc_vibrations st) j).
Proof.
  intros Hnd. revert st. induction Hnd as [| i l Hi Hnd IH]; intros st Ht Hv;
    cbn [update_machines].
  - exists (sensors st). split; [ rewrite set_sensors_eta; reflexivity |].
    split; [ reflexivity | split; [ reflexivity | split; [ intros i [] | reflexivity ] ] ].
  - destruct (update_machine_in_range d ambient i st (Ht i (or_introl eq_refl))
                (Hv i (or_introl eq_refl))) as (s1 & -> & L1 & L2 & Z1 & O1).
    destruct (IH (set_sensors s1 st)) as (s2 & E2 & M1 & M2 & Z2 & O2).
    + intros j Hj. record_simpl. rewrite L1. apply Ht. now right.
    + intros j Hj. record_simpl. rewrite L2. apply Hv. now right.
    + exists s2. rewrite E2. record_simpl.
      split; [ reflexivity |].
      split; [ congruence | split; [ congruence | split ] ].
      * intros j [<- | Hj] Hop.
        -- rewrite (O2 i Hi). exact (Z1 Hop).
        -- exact (Z2 j Hj Hop).
      * intros j Hj. rewrite O2 by (intros H; apply Hj; now right).
        apply O1. intros ->. apply Hj. now left.
Qed.

(** With one sensor reading per machine, as in every state of the
    simulation, a turn of [update_sensor_data] never indexes out of range.
    It writes the sensor arrays and nothing else, keeps one reading per
    machine, keeps the ambient temperature within 15 to 30 and the humidity
    within 30 to 70, and sets the vibration of every machine that is not
    operational to zero. *)
Theorem update_sensor_data_stays_in_range (d : SensorDraws) (ambient : Ambient)
    (st : Factory) :
  sensors_ok st ->
  exists ambient' s,
    update_sensor_data d ambient st = Some (ambient', set_sensors s st) /\
    sensors_ok (set_sensors s st) /\
    (power_outage st = false ->
     15 <= ambient_temperature ambient' /\ ambient_temperature ambient' <= 30 /\
     30 <= ambient_humidity ambient' /\ ambient_humidity ambient' <= 70 /\
     forall i, (operational_cnc_machines st <= Z.of_nat i < NUM_CNC_MACHINES st)%Z ->
               nth_error (cnc_vibrations s) i = Some 0.0).
Proof.
  intros [Ht Hv]. unfold update_sensor_data.
  destruct (power_outage st).
  - exists ambient, (sensors st). rewrite set_sensors_eta.
    split; [ reflexivity | split; [ split; assumption | discriminate ] ].
  - match goal with
    | |- context [update_machines d ?a ?l st] =>
        destruct (update_machines_in_range d a l st) as (s & -> & L1 & L2 & Z1 & _)
    end.
    + apply seq_NoDup.
    + intros i Hi. apply in_seq in Hi. lia.
    + intros i Hi. apply in_seq in Hi. lia.
    + eexists. exists s. split; [ reflexivity |].
      split; [ unfold sensors_ok; record_simpl; split; congruence |].
      intros _. cbn [ambient_temperature ambient_humidity].
      split; [ apply Q.le_max_l |].
      split; [ apply Q.max_lub; [ unfold Qle; cbn; lia | apply Q.le_min_l ] |].
      split; [ apply Q.le_max_l |].
      split; [ apply Q.max_lub; [ unfold Qle; cbn; lia | apply Q.le_min_l ] |].
      intros i Hi. apply Z1; [ apply in_seq; lia | lia ].
Qed.

Lemma update_sensor_data_stays_in_range_witness :
  sensors_ok init /\
  exists ambient' s,
    update_sensor_data
      {| draw_ambient_temperature := 0.5; draw_ambient_humidity := 1;
         draw_warning := 0.5; draw_temperature := fun _ => 3;
         draw_vibration := fun _ => 0.1; draw_cooling := fun _ => 1 |}
      {| ambient_temperature := 22.0; ambient_humidity := 45.0 |} init
    = Some (ambient', set_sensors s init) /\
    sensors_ok (set_sensors s init).
Proof.
  assert (H : sensors_ok init) by (split; reflexivity).
  split; [ exact H |].
  destruct (update_sensor_data_stays_in_range
              {| draw_ambient_temperature := 0.5; draw_ambient_humidity := 1;
                 draw_warning := 0.5; draw_temperature := fun _ => 3;
                 draw_vibration := fun _ => 0.1; draw_cooling := fun _ => 1 |}
              {| ambient_temperature := 22.0; ambient_humidity := 45.0 |} init H)
    as (a & s & E & Hs & _).
  exists a, s. split; [ exact E | exact Hs ].
Defined.
